(** * ALMA MCP server: a shallow embedding of [server.py]

    The sixteen tool functions of [server.py] are translated into Rocq
    functions in a small state-and-exception monad.  The remote
    collaborators (SIMBAD, alminer, the TAP service) are oracles acting on
    an opaque world state; every call to one of them is recorded in a log,
    so that statements such as [no remote query is issued] can be stated.

    Conventions of the model
    - A Python [str] is the Rocq [string] of its UTF-8 encoding; a search
      for an ASCII text ([in], [startswith], [replace]) gives the same
      result on the encoding as on the characters.  A slice [s[:n]]
      counts characters, not bytes ([PyStr.take_chars]).
    - [PyStr.lower] is the ASCII part of [str.lower]; the code compares
      its result with the ASCII words [cube], [image] and [continuum]
      only.  [str.upper] and [str.strip], whose results decide what tool 8
      sends, are computed on ASCII text and are the methods of the class
      [PyUnicode] on any other text: the answers of the Python at hand,
      about which nothing is assumed.
    - A table answered to one of the fixed queries has one column for
      each label; the raw-query tool, whose tables follow the caller's
      own query, is modelled for repeated labels as well ([row_item]).
    - A Python [float] is a value of an abstract type [F] with the
      operations of the class [PyFloat]; nothing is assumed about them.
    - [Raise msg] stands for a raised instance of a subclass of
      [Exception] whose [str(e)] is [msg]; these are the exceptions the
      [except Exception] clauses of the source catch. *)

From Stdlib Require Import String Ascii List ZArith Lia Bool DecimalString.
Import ListNotations.
Open Scope list_scope.
Open Scope string_scope.

#[local] Set Warnings "-register-all".

(* ===================================================================== *)
(** ** Python strings *)
(* ===================================================================== *)

Module PyStr.

Definition is_upper_char (c : ascii) : bool :=
  let n := nat_of_ascii c in (65 <=? n)%nat && (n <=? 90)%nat.

Definition is_lower_char (c : ascii) : bool :=
  let n := nat_of_ascii c in (97 <=? n)%nat && (n <=? 122)%nat.

Definition lower_char (c : ascii) : ascii :=
  if is_upper_char c then ascii_of_nat (nat_of_ascii c + 32) else c.

Definition upper_char (c : ascii) : ascii :=
  if is_lower_char c then ascii_of_nat (nat_of_ascii c - 32) else c.

Fixpoint map_chars (f : ascii -> ascii) (s : string) : string :=
  match s with
  | EmptyString => EmptyString
  | String c s' => String (f c) (map_chars f s')
  end.

(** [s.lower()] and [s.upper()]. *)
Definition lower (s : string) : string := map_chars lower_char s.
Definition upper (s : string) : string := map_chars upper_char s.

(** White space as [str.strip()] sees it (ASCII part). *)
Definition is_space (c : ascii) : bool :=
  let n := nat_of_ascii c in
  ((9 <=? n)%nat && (n <=? 13)%nat) || ((28 <=? n)%nat && (n <=? 32)%nat).

Fixpoint lstrip (s : string) : string :=
  match s with
  | EmptyString => EmptyString
  | String c s' => if is_space c then lstrip s' else s
  end.

Fixpoint rev_append (s acc : string) : string :=
  match s with
  | EmptyString => acc
  | String c s' => rev_append s' (String c acc)
  end.

Definition rev (s : string) : string := rev_append s EmptyString.

Definition rstrip (s : string) : string := rev (lstrip (rev s)).

(** [s.strip()]. *)
Definition strip (s : string) : string := rstrip (lstrip s).

(** [s.startswith(p)]. *)
Definition startswith (p s : string) : bool := String.prefix p s.

(** [sub in s]. *)
Fixpoint contains (sub s : string) : bool :=
  match s with
  | EmptyString => String.prefix sub EmptyString
  | String _ s' => String.prefix sub s || contains sub s'
  end.

Fixpoint drop (n : nat) (s : string) : string :=
  match n, s with
  | O, _ => s
  | S k, EmptyString => EmptyString
  | S k, String _ s' => drop k s'
  end.

Fixpoint take (n : nat) (s : string) : string :=
  match n, s with
  | O, _ => EmptyString
  | S k, EmptyString => EmptyString
  | S k, String c s' => String c (take k s')
  end.

(** Every character is an ASCII character. *)
Fixpoint is_ascii (s : string) : bool :=
  match s with
  | EmptyString => true
  | String c s' => (nat_of_ascii c <? 128)%nat && is_ascii s'
  end.

(** A byte that continues a character of the encoding begun earlier. *)
Definition is_continuation (c : ascii) : bool :=
  let n := nat_of_ascii c in (128 <=? n)%nat && (n <? 192)%nat.

(** [len(s)]: the characters of [s]. *)
Fixpoint char_count (s : string) : nat :=
  match s with
  | EmptyString => 0
  | String c s' => if is_continuation c then char_count s' else S (char_count s')
  end.

(** [s[:n]] for an [n] that is not negative: the first [n] characters,
    each with all its bytes. *)
Fixpoint take_chars (n : nat) (s : string) : string :=
  match s with
  | EmptyString => EmptyString
  | String c s' =>
      if is_continuation c then String c (take_chars n s')
      else
        match n with
        | O => EmptyString
        | S k => String c (take_chars k s')
        end
  end.

(** [s.replace(old, new)] for a non-empty [old]: a left-to-right scan over
    non-overlapping occurrences.  [skip] counts the characters of the
    occurrence just replaced that are still to be passed over. *)
Fixpoint replace_from (old new : string) (skip : nat) (s : string) : string :=
  match s with
  | EmptyString => EmptyString
  | String c s' =>
      match skip with
      | S k => replace_from old new k s'
      | O =>
          if String.prefix old s
          then new ++ replace_from old new (String.length old - 1) s'
          else String c (replace_from old new 0 s')
      end
  end.

Definition replace (old new s : string) : string := replace_from old new 0 s.

(** [s.replace(old, new, 1)] for a non-empty [old]: only the leftmost
    occurrence is replaced. *)
Fixpoint replace_first (old new s : string) : string :=
  match s with
  | EmptyString => EmptyString
  | String c s' =>
      if String.prefix old s
      then new ++ drop (String.length old) s
      else String c (replace_first old new s')
  end.

(** [sep.join(parts)]. *)
Fixpoint join (sep : string) (parts : list string) : string :=
  match parts with
  | [] => EmptyString
  | [p] => p
  | p :: ps => p ++ sep ++ join sep ps
  end.

(** [str(n)] for a Python [int]. *)
Definition of_Z (z : Z) : string := NilZero.string_of_int (Z.to_int z).

Definition of_nat (n : nat) : string := of_Z (Z.of_nat n).

(** A character does not occur in a string. *)
Fixpoint free_of (c : ascii) (s : string) : bool :=
  match s with
  | EmptyString => true
  | String d s' => negb (Ascii.eqb c d) && free_of c s'
  end.

(** What [replace] does to one character when the pattern and its
    replacement are single characters. *)
Definition swap_char (old new c : ascii) : ascii :=
  if Ascii.eqb old c then new else c.

(** Every character is white space. *)
Fixpoint all_space (s : string) : bool :=
  match s with
  | EmptyString => true
  | String c s' => is_space c && all_space s'
  end.

End PyStr.

(** The two string methods of tool 8 on a text with characters beyond
    ASCII, where their results follow from Python's Unicode database. *)
Class PyUnicode : Type := {
  unicode_upper : string -> string;   (* s.upper() *)
  unicode_strip : string -> string    (* s.strip() *)
}.

(** [s.upper()] *)
Definition str_upper {U : PyUnicode} (s : string) : string :=
  if PyStr.is_ascii s then PyStr.upper s else unicode_upper s.

(** [s.strip()] *)
Definition str_strip {U : PyUnicode} (s : string) : string :=
  if PyStr.is_ascii s then PyStr.strip s else unicode_strip s.

(* ===================================================================== *)
(** ** Python values *)
(* ===================================================================== *)

(** The operations of Python's [float] that [server.py] uses. *)
Class PyFloat (F : Type) : Type := {
  f_lit : Z -> Z -> F;          (* the literal  m e  denotes  m * 10^e   *)
  f_of_Z : Z -> F;              (* float(n) for an int n                  *)
  f_add : F -> F -> F;          (* x + y                                  *)
  f_mul : F -> F -> F;          (* x * y                                  *)
  f_div : F -> F -> F;          (* x / y for a non-zero y                 *)
  f_is_zero : F -> bool;        (* x == 0.0                               *)
  f_eqb : F -> F -> bool;       (* equality as pandas' unique() sees it   *)
  f_round : F -> Z -> F;        (* round(x, ndigits)                      *)
  f_repr : F -> string;         (* str(x), also the plain f-string field  *)
  f_fmt4 : F -> string;         (* the f-string field  x:.4f              *)
  f_of_string : string -> option F   (* float(s) for a str s              *)
}.

(** Scalars: what a cell of a table, a parameter or a leaf of a response
    can hold. *)
Inductive scalar (F : Type) : Type :=
| SNone
| SBool (b : bool)
| SInt (z : Z)
| SFloat (x : F)
| SStr (s : string).

Arguments SNone {F}.
Arguments SBool {F} b.
Arguments SInt {F} z.
Arguments SFloat {F} x.
Arguments SStr {F} s.

(** JSON-like values of a response. A [VDict] keeps its keys in insertion
    order, as a Python dict does. *)
Inductive value (F : Type) : Type :=
| VScalar (s : scalar F)
| VList (l : list (value F))
| VDict (d : list (string * value F)).

Arguments VScalar {F} s.
Arguments VList {F} l.
Arguments VDict {F} d.

Definition dict (F : Type) : Type := list (string * value F).

Definition vnone {F} : value F := VScalar SNone.
Definition vint {F} (z : Z) : value F := VScalar (SInt z).
Definition vnat {F} (n : nat) : value F := VScalar (SInt (Z.of_nat n)).
Definition vfloat {F} (x : F) : value F := VScalar (SFloat x).
Definition vstr {F} (s : string) : value F := VScalar (SStr s).

(** [d.get(k)] *)
Fixpoint dict_get {A : Type} (k : string) (d : list (string * A)) : option A :=
  match d with
  | [] => None
  | (k', v) :: d' => if String.eqb k k' then Some v else dict_get k d'
  end.

(** [d[k] = v]: an existing key keeps its place and takes the new value,
    a new key goes to the end. *)
Fixpoint dict_set {A : Type} (k : string) (v : A) (d : list (string * A))
  : list (string * A) :=
  match d with
  | [] => [(k, v)]
  | (k', v') :: d' =>
      if String.eqb k k' then (k', v) :: d' else (k', v') :: dict_set k v d'
  end.

Definition dict_keys {A : Type} (d : list (string * A)) : list string := map fst d.
Definition dict_values {A : Type} (d : list (string * A)) : list A := map snd d.

Definition has_key {A : Type} (k : string) (d : list (string * A)) : bool :=
  match dict_get k d with Some _ => true | None => false end.

(** Outcome of a Python computation: a value, or a raised exception with
    its [str(e)]. *)
Inductive result (A : Type) : Type :=
| Ok (a : A)
| Raise (msg : string).

Arguments Ok {A} a.
Arguments Raise {A} msg.

Definition rbind {A B} (r : result A) (k : A -> result B) : result B :=
  match r with
  | Ok a => k a
  | Raise e => Raise e
  end.

Fixpoint rmap {A B} (f : A -> result B) (l : list A) : result (list B) :=
  match l with
  | [] => Ok []
  | a :: l' => rbind (f a) (fun b => rbind (rmap f l') (fun bs => Ok (b :: bs)))
  end.

Section PyValues.
Context {F : Type} {PF : PyFloat F}.

(** Truth value of a scalar ([if x:], [x or y], [any([...])]). *)
Definition truthy (s : scalar F) : bool :=
  match s with
  | SNone => false
  | SBool b => b
  | SInt z => negb (z =? 0)%Z
  | SFloat x => negb (f_is_zero x)
  | SStr t => negb (String.eqb t EmptyString)
  end.

(** [x or y] *)
Definition py_or (x y : scalar F) : scalar F := if truthy x then x else y.

(** [float(x)] *)
Definition py_float (s : scalar F) : result F :=
  match s with
  | SNone =>
      Raise "float() argument must be a string or a real number, not 'NoneType'"
  | SBool b => Ok (f_of_Z (if b then 1 else 0))
  | SInt z => Ok (f_of_Z z)
  | SFloat x => Ok x
  | SStr t =>
      match f_of_string t with
      | Some x => Ok x
      | None => Raise ("could not convert string to float: '" ++ t ++ "'")
      end
  end.

(** [round(x, ndigits)] *)
Definition py_round (s : scalar F) (ndigits : Z) : result (scalar F) :=
  match s with
  | SNone => Raise "type NoneType doesn't define __round__ method"
  | SBool b => Ok (SInt (if b then 1 else 0))
  | SInt z => Ok (SInt z)
  | SFloat x => Ok (SFloat (f_round x ndigits))
  | SStr _ => Raise "type str doesn't define __round__ method"
  end.

(** [str(x)] *)
Definition py_str (s : scalar F) : string :=
  match s with
  | SNone => "None"
  | SBool true => "True"
  | SBool false => "False"
  | SInt z => PyStr.of_Z z
  | SFloat x => f_repr x
  | SStr t => t
  end.

(** [x / y] on floats *)
Definition py_fdiv (x y : F) : result F :=
  if f_is_zero y then Raise "float division by zero" else Ok (f_div x y).

Definition scalar_eqb (a b : scalar F) : bool :=
  match a, b with
  | SNone, SNone => true
  | SBool x, SBool y => Bool.eqb x y
  | SInt x, SInt y => (x =? y)%Z
  | SFloat x, SFloat y => f_eqb x y
  | SStr x, SStr y => String.eqb x y
  | _, _ => false
  end.

(** [Series.unique().tolist()]: first occurrences, in order. *)
Fixpoint unique_from (seen : list (scalar F)) (l : list (scalar F)) : list (scalar F) :=
  match l with
  | [] => []
  | x :: l' =>
      if existsb (scalar_eqb x) seen then unique_from seen l'
      else x :: unique_from (x :: seen) l'
  end.

Definition unique (l : list (scalar F)) : list (scalar F) := unique_from [] l.

(** *** Tables (pandas DataFrame) *)

Record DataFrame : Type := {
  df_columns : list string;
  df_rows : list (list (scalar F))
}.

(** A row as [iterrows()] yields it: the cells indexed by column name. *)
Definition series : Type := list (string * scalar F).

Definition df_series (df : DataFrame) : list series :=
  map (fun cells => combine (df_columns df) cells) (df_rows df).

(** [len(df)] *)
Definition df_len (df : DataFrame) : nat := List.length (df_rows df).

(** [df.empty]: some axis has length zero. *)
Definition df_empty (df : DataFrame) : bool :=
  match df_columns df, df_rows df with
  | [], _ => true
  | _, [] => true
  | _, _ => false
  end.

(** The table in hand when [df is None or df.empty] is false. *)
Definition nonempty_frame (odf : option DataFrame) : option DataFrame :=
  match odf with
  | None => None
  | Some df => if df_empty df then None else Some df
  end.

(** [row.get(key, default)] *)
Definition row_get (key : string) (default : scalar F) (row : series) : scalar F :=
  match dict_get key row with
  | Some v => v
  | None => default
  end.

(** [row[key]] followed by [val.item() if hasattr(val, 'item') else val].
    A label that heads one column gives its cell.  A label that heads
    several columns gives the sub-series of their cells, and [item()] of
    a series of more than one cell raises. *)
Definition row_item (key : string) (row : series) : result (scalar F) :=
  match filter (fun cell => String.eqb key (fst cell)) row with
  | [] => Raise ("'" ++ key ++ "'")
  | [(_, v)] => Ok v
  | _ :: _ :: _ => Raise "can only convert an array of size 1 to a Python scalar"
  end.

(** [df[col]] as a list of cells; [KeyError] when there is no such column. *)
Definition df_column (col : string) (df : DataFrame) : result (list (scalar F)) :=
  if existsb (String.eqb col) (df_columns df)
  then Ok (map (row_get col SNone) (df_series df))
  else Raise ("'" ++ col ++ "'").

(** [df.head(n).iterrows()] for an int [n]: the first [n] rows, and for a
    negative [n] all rows but the last [-n]. *)
Definition df_head (n : Z) (df : DataFrame) : list series :=
  if (0 <=? n)%Z then firstn (Z.to_nat n) (df_series df)
  else firstn (df_len df - Z.to_nat (- n)) (df_series df).

(** [min(a, b)] on ints, with [len(df)] as one of them. *)
Definition showing (cap : Z) (df : DataFrame) : Z := Z.min cap (Z.of_nat (df_len df)).

End PyValues.

Arguments DataFrame F : clear implicits.
Arguments series F : clear implicits.

(* ===================================================================== *)
(** ** Effects: collaborators, call log, exceptions *)
(* ===================================================================== *)

(** The call log: one entry per call to a collaborator, followed by an
    [EvRaised] entry when that call raised. *)
Inductive event (F : Type) : Type :=
| EvSimbad (name : string)                             (* Simbad.query_object *)
| EvConesearch (ra dec radius : F) (public : bool)     (* alminer.conesearch  *)
| EvKeysearch (search_dict : list (string * list string)) (public : bool)
                                                       (* alminer.keysearch   *)
| EvLineCoverage (line_freq z : F)                     (* alminer.line_coverage *)
| EvTAPService (url : string)                          (* pyvo.dal.TAPService *)
| EvTAPSearch (query : string)                         (* service.search      *)
| EvRaised (msg : string).                             (* the call just made raised *)

Arguments EvSimbad {F} name.
Arguments EvConesearch {F} ra dec radius public.
Arguments EvKeysearch {F} search_dict public.
Arguments EvLineCoverage {F} line_freq z.
Arguments EvTAPService {F} url.
Arguments EvTAPSearch {F} query.
Arguments EvRaised {F} msg.

(** The module-level availability flags and the external libraries.
    A remote call may change the world and may raise. *)
Class Collaborators (W F : Type) : Type := {
  ALMINER_AVAILABLE : bool;
  PYVO_AVAILABLE : bool;
  SIMBAD_AVAILABLE : bool;
  (** [Simbad.query_object(name)]: [None], or a table whose rows carry the
      ['RA'] and ['DEC'] strings. *)
  Simbad_query_object : string -> W -> result (option (list (string * string))) * W;
  (** [SkyCoord(ra, dec, unit=(u.hourangle, u.deg))], read back as
      [(coord.ra.deg, coord.dec.deg)]. *)
  SkyCoord : string -> string -> result (F * F);
  alminer_conesearch : F -> F -> F -> bool -> W -> result (option (DataFrame F)) * W;
  alminer_keysearch :
    list (string * list string) -> bool -> W -> result (option (DataFrame F)) * W;
  alminer_line_coverage :
    DataFrame F -> F -> F -> W -> result (option (DataFrame F)) * W;
  TAPService : string -> W -> result unit * W;
  (** [service.search(query).to_table().to_pandas()] *)
  service_search : string -> W -> result (DataFrame F) * W
}.

(** Machine state: the world outside, and the local variables of the
    running function that are updated in place. *)
Record state (W L : Type) : Type := mkState {
  st_world : W;
  st_locals : L
}.

Arguments mkState {W L} _ _.
Arguments st_world {W L} _.
Arguments st_locals {W L} _.

(** A computation returns or raises, leaves a state behind either way (an
    exception does not undo what was done before it), and yields the log
    of the collaborator calls it made, oldest first. *)
Definition M (W F L A : Type) : Type :=
  state W L -> result A * state W L * list (event F).

Section Monad.
Context {W F L : Type}.

Definition ret {A} (a : A) : M W F L A := fun st => (Ok a, st, []).

Definition bind {A B} (m : M W F L A) (k : A -> M W F L B) : M W F L B :=
  fun st =>
    match m st with
    | (Ok a, st', log) =>
        match k a st' with
        | (r, st'', log') => (r, st'', (log ++ log')%list)
        end
    | (Raise e, st', log) => (Raise e, st', log)
    end.

(** [try: body  except Exception as e: handler(str(e))] *)
Definition try_except {A} (body : M W F L A) (handler : string -> M W F L A)
  : M W F L A :=
  fun st =>
    match body st with
    | (Ok a, st', log) => (Ok a, st', log)
    | (Raise e, st', log) =>
        match handler e st' with
        | (r, st'', log') => (r, st'', (log ++ log')%list)
        end
    end.

Definition lift_result {A} (r : result A) : M W F L A := fun st => (r, st, []).

(** A call to a collaborator: logged, answered by the world, and logged
    once more when the answer is an exception. *)
Definition call {A} (ev : event F) (oracle : W -> result A * W) : M W F L A :=
  fun st =>
    match oracle (st_world st) with
    | (Ok a, w') => (Ok a, mkState w' (st_locals st), [ev])
    | (Raise e, w') => (Raise e, mkState w' (st_locals st), [ev; EvRaised e])
    end.

Definition get_locals : M W F L L := fun st => (Ok (st_locals st), st, []).

Definition put_locals (l : L) : M W F L unit :=
  fun st => (Ok tt, mkState (st_world st) l, []).

End Monad.

(** Run [m] with its own local variables, initialised to [init]. *)
Definition with_locals {W F L L' A} (init : L') (m : M W F L' A) : M W F L A :=
  fun st =>
    match m (mkState (st_world st) init) with
    | (r, st', log) => (r, mkState (st_world st') (st_locals st), log)
    end.

Declare Scope py_scope.
Delimit Scope py_scope with py.
Notation "x <- m ;; k" := (bind m (fun x => k))
  (at level 100, m at next level, right associativity) : py_scope.
Notation "' pat <- m ;; k" := (bind m (fun x => match x with pat => k end))
  (at level 100, pat pattern, m at next level, right associativity) : py_scope.
Notation "x <~ r ;; k" := (rbind r (fun x => k))
  (at level 100, r at next level, right associativity) : py_scope.
Open Scope py_scope.

(* ===================================================================== *)
(** ** Query texts *)
(* ===================================================================== *)

Section Queries.
Context {F : Type} {PF : PyFloat F}.

(** The query text built at line 163 of [server.py]. *)
Definition position_query (ra_degrees dec_degrees radius_deg : F) : string :=
  "
        SELECT TOP 100
            target_name, s_ra, s_dec, band_list, proposal_id,
            frequency, bandwidth, t_exptime, s_resolution
        FROM ivoa.obscore 
        WHERE CONTAINS(POINT('ICRS', s_ra, s_dec), 
                       CIRCLE('ICRS', " ++
  f_repr ra_degrees ++
  ", " ++
  f_repr dec_degrees ++
  ", " ++
  f_repr radius_deg ++
  ")) = 1
        ".

(** The query text built at line 284 of [server.py]. *)
Definition proposal_query (where_clause : string) : string :=
  "
        SELECT TOP 100
            target_name, s_ra, s_dec, band_list, proposal_id, obs_creator_name
        FROM ivoa.obscore 
        WHERE " ++
  where_clause ++
  "
        ".

(** The query text built at line 468 of [server.py]. *)
Definition frequency_query (min_freq_ghz max_freq_ghz : F) : string :=
  "
        SELECT TOP 100
            target_name, s_ra, s_dec, band_list, proposal_id,
            frequency, bandwidth, t_exptime, s_resolution
        FROM ivoa.obscore 
        WHERE frequency >= " ++
  f_repr (f_mul min_freq_ghz (f_lit 1 9)) ++
  " 
          AND frequency <= " ++
  f_repr (f_mul max_freq_ghz (f_lit 1 9)) ++
  "
        ".

(** The query text built at line 548 of [server.py]. *)
Definition resolution_query (max_res_deg min_res_deg : F) : string :=
  "
        SELECT TOP 100
            target_name, s_ra, s_dec, band_list, proposal_id,
            s_resolution, frequency, t_exptime
        FROM ivoa.obscore 
        WHERE s_resolution <= " ++
  f_repr max_res_deg ++
  "
          AND s_resolution >= " ++
  f_repr min_res_deg ++
  "
        ".

(** The query text built at line 705 of [server.py]. *)
Definition source_name_exact_query (source_name : string) : string :=
  "
            SELECT TOP 100
                target_name, s_ra, s_dec, band_list, proposal_id,
                frequency, t_exptime, s_resolution, dataproduct_type
            FROM ivoa.obscore 
            WHERE target_name = '" ++
  source_name ++
  "'
            ".

(** The query text built at line 713 of [server.py]. *)
Definition source_name_like_query (source_name : string) : string :=
  "
            SELECT TOP 100
                target_name, s_ra, s_dec, band_list, proposal_id,
                frequency, t_exptime, s_resolution, dataproduct_type
            FROM ivoa.obscore 
            WHERE LOWER(target_name) LIKE LOWER('%" ++
  source_name ++
  "%')
            ".

(** The query text built at line 803 of [server.py]. *)
Definition bibliography_query (where_clause : string) : string :=
  "
        SELECT TOP 100
            target_name, s_ra, s_dec, band_list, proposal_id,
            bib_reference, first_author, publication_year, pub_title
        FROM ivoa.obscore 
        WHERE " ++
  where_clause ++
  "
        ".

(** The query text built at line 872 of [server.py]. *)
Definition member_ous_query (normalized_uid : string) : string :=
  "
        SELECT *
        FROM ivoa.obscore 
        WHERE member_ous_uid = '" ++
  normalized_uid ++
  "'
        ".

(** The query text built at line 960 of [server.py]. *)
Definition data_type_query (where_clause : string) : string :=
  "
        SELECT TOP 100
            target_name, s_ra, s_dec, band_list, proposal_id,
            frequency, t_exptime, s_resolution, science_keyword
        FROM ivoa.obscore 
        WHERE " ++
  where_clause ++
  "
        ".

(** The query text built at line 1044 of [server.py]. *)
Definition science_keyword_query (where_clause : string) : string :=
  "
        SELECT TOP 100
            target_name, s_ra, s_dec, band_list, proposal_id,
            frequency, t_exptime, s_resolution, science_keyword, dataproduct_type
        FROM ivoa.obscore 
        WHERE " ++
  where_clause ++
  "
        ".

(** The query text built at line 1117 of [server.py]. *)
Definition abstract_condition_both (search_terms : string) : string :=
  "
                (LOWER(proposal_abstract) LIKE LOWER('%" ++
  search_terms ++
  "%')
                 OR LOWER(pub_abstract) LIKE LOWER('%" ++
  search_terms ++
  "%'))
            ".

(** The query text built at line 1124 of [server.py]. *)
Definition abstract_query (abstract_condition : string) : string :=
  "
        SELECT TOP 100
            target_name, s_ra, s_dec, band_list, proposal_id,
            obs_creator_name, science_keyword, t_exptime
        FROM ivoa.obscore 
        WHERE " ++
  abstract_condition ++
  "
        AND science_observation = 'T'
        GROUP BY target_name, s_ra, s_dec, band_list, proposal_id,
                 obs_creator_name, science_keyword, t_exptime
        ".

(** The query text built at line 1222 of [server.py]. *)
Definition sensitivity_query (sens_column where_clause : string) : string :=
  "
        SELECT TOP 100
            target_name, s_ra, s_dec, band_list, proposal_id,
            " ++
  sens_column ++
  " as sensitivity, s_resolution, frequency
        FROM ivoa.obscore 
        WHERE " ++
  where_clause ++
  "
        ORDER BY " ++
  sens_column ++
  "
        ".

(** The query text built at line 1322 of [server.py]. *)
Definition batch_item_query (ra_deg dec_deg radius_deg : F) : string :=
  "
                SELECT TOP 50
                    target_name, band_list, proposal_id, t_exptime
                FROM ivoa.obscore 
                WHERE CONTAINS(POINT('ICRS', s_ra, s_dec), 
                               CIRCLE('ICRS', " ++
  f_repr ra_deg ++
  ", " ++
  f_repr dec_deg ++
  ", " ++
  f_repr radius_deg ++
  ")) = 1
                ".

End Queries.

(* ===================================================================== *)
(** ** The tools of [server.py] *)
(* ===================================================================== *)

(** An optional parameter as the body's [if p:] sees it: present when it
    was supplied and is not empty (not zero, for an int). *)
Definition given_str (o : option string) : option string :=
  match o with
  | Some s => if String.eqb s EmptyString then None else Some s
  | None => None
  end.

Definition given_int (o : option Z) : option Z :=
  match o with
  | Some z => if (z =? 0)%Z then None else Some z
  | None => None
  end.

Definition is_given {A} (o : option A) : bool :=
  match o with Some _ => true | None => false end.

(** [conditions.append(c)] under an [if]. *)
Definition append_if {A} (o : option A) (c : A -> string) (conditions : list string)
  : list string :=
  match o with
  | Some a => (conditions ++ [c a])%list
  | None => conditions
  end.

Section Server.
Context {F : Type} {PF : PyFloat F} {W : Type} {C : Collaborators W F}
        {U : PyUnicode}.

Definition error_response (msg : string) : dict F := [("error", vstr msg)].

Definition tap_url : string := "https://almascience.nrao.edu/tap".

Definition coordinates (ra dec : F) : value F :=
  VDict [("ra", vfloat (f_round ra 4)); ("dec", vfloat (f_round dec 4))].

Definition vstrs (l : list string) : value F := VList (map vstr l).
Definition vscalars (l : list (scalar F)) : value F := VList (map VScalar l).

(** [row.get(k, "Unknown")] *)
Definition get_or_unknown (k : string) (row : series F) : scalar F :=
  row_get k (SStr "Unknown") row.

(** [round(float(row.get(k, 0)), n)] *)
Definition rounded_float (k : string) (n : Z) (row : series F) : result (value F) :=
  x <~ py_float (row_get k (SInt 0) row) ;;
  Ok (vfloat (f_round x n)).

Section Tools.
Context {L : Type}.

Definition call_simbad (name : string) : M W F L _ :=
  call (EvSimbad name) (Simbad_query_object name).
Definition call_conesearch (ra dec radius : F) (public : bool) : M W F L _ :=
  call (EvConesearch ra dec radius public) (alminer_conesearch ra dec radius public).
Definition call_keysearch (d : list (string * list string)) (public : bool) : M W F L _ :=
  call (EvKeysearch d public) (alminer_keysearch d public).
Definition call_line_coverage (df : DataFrame F) (line_freq z : F) : M W F L _ :=
  call (EvLineCoverage line_freq z) (alminer_line_coverage df line_freq z).
Definition call_TAPService (url : string) : M W F L _ :=
  call (EvTAPService url) (TAPService url).
Definition call_search (query : string) : M W F L _ :=
  call (EvTAPSearch query) (service_search query).

(** *** Tool 2: [search_alma_by_position] *)

Definition position_obs (row : series F) : result (value F) :=
  ra <~ rounded_float "s_ra" 4 row ;;
  dec <~ rounded_float "s_dec" 4 row ;;
  Ok (VDict [("target", VScalar (get_or_unknown "target_name" row));
             ("ra", ra);
             ("dec", dec);
             ("band", vstr (py_str (get_or_unknown "band_list" row)));
             ("proposal_id", VScalar (get_or_unknown "proposal_id" row))]).

Definition search_alma_by_position
  (ra_degrees dec_degrees radius_arcmin : F) (public_only : bool) : M W F L (dict F) :=
  if negb PYVO_AVAILABLE then ret (error_response "pyvo library not installed") else
  try_except
    (service <- call_TAPService tap_url ;;
     let radius_deg := f_div radius_arcmin (f_lit 60 0) in
     let query := position_query ra_degrees dec_degrees radius_deg in
     df <- call_search query ;;
     if df_empty df then
       ret [("count", vint 0);
            ("position", VDict [("ra", vfloat ra_degrees); ("dec", vfloat dec_degrees)]);
            ("observations", VList []);
            ("summary", vstr ("No ALMA observations at RA=" ++ f_fmt4 ra_degrees
                              ++ ", Dec=" ++ f_fmt4 dec_degrees))]
     else
       observations <- lift_result (rmap position_obs (firstn 20 (df_series df))) ;;
       ret [("count", vnat (df_len df));
            ("showing", vnat (Nat.min 20 (df_len df)));
            ("position", VDict [("ra", vfloat ra_degrees); ("dec", vfloat dec_degrees)]);
            ("observations", VList observations);
            ("summary", vstr ("Found " ++ PyStr.of_nat (df_len df)
                              ++ " ALMA observations near RA=" ++ f_fmt4 ra_degrees
                              ++ ", Dec=" ++ f_fmt4 dec_degrees))])
    (fun e => ret (error_response ("Position search failed: " ++ e))).

(** *** Tool 1: [search_alma_by_target] *)

(** The first [try] block: either an early [return] of an error response,
    or the resolved [(ra_deg, dec_deg)]. *)
Definition resolve_target (target_name : string) : M W F L (dict F + F * F) :=
  try_except
    (result <- call_simbad target_name ;;
     match result with
     | None | Some [] =>
         ret (inl (error_response
                     ("Could not resolve '" ++ target_name ++ "' - not found in SIMBAD")))
     | Some ((ra_str, dec_str) :: _) =>
         coord <- lift_result (SkyCoord ra_str dec_str) ;;
         ret (inr coord)
     end)
    (fun e => ret (inl (error_response ("Failed to resolve target: " ++ e)))).

Definition target_obs (row : series F) : result (value F) :=
  ra <~ py_round (row_get "s_ra" (row_get "ra" (SInt 0) row) row) 4 ;;
  dec <~ py_round (row_get "s_dec" (row_get "dec" (SInt 0) row) row) 4 ;;
  t <~ py_float (py_or (row_get "t_exptime" (row_get "integration_time" (SInt 0) row) row)
                       (SInt 0)) ;;
  Ok (VDict [("target", VScalar (get_or_unknown "target_name" row));
             ("ra", VScalar ra);
             ("dec", VScalar dec);
             ("band", vstr (py_str (row_get "band_list" (get_or_unknown "band" row) row)));
             ("proposal_id",
              VScalar (row_get "proposal_id" (get_or_unknown "project_code" row) row));
             ("integration_time_sec", vfloat t)]).

(** The [try] block entered when alminer is available. *)
Definition target_conesearch
  (target_name : string) (ra_deg dec_deg radius_arcmin : F) (public_only : bool) : M W F L (dict F) :=
  let radius_deg := f_div radius_arcmin (f_lit 60 0) in
  odf <- call_conesearch ra_deg dec_deg radius_deg public_only ;;
  match nonempty_frame odf with
  | None =>
      ret [("count", vint 0);
           ("target_resolved_to", coordinates ra_deg dec_deg);
           ("observations", VList []);
           ("summary", vstr ("No ALMA observations found for " ++ target_name))]
  | Some df =>
      observations <- lift_result (rmap target_obs (firstn 20 (df_series df))) ;;
      ret [("count", vnat (df_len df));
           ("showing", vnat (Nat.min 20 (df_len df)));
           ("target_resolved_to", coordinates ra_deg dec_deg);
           ("observations", VList observations);
           ("summary", vstr ("Found " ++ PyStr.of_nat (df_len df)
                             ++ " ALMA observations for " ++ target_name))]
  end.

Definition search_alma_by_target
  (target_name : string) (radius_arcmin : F) (public_only : bool) : M W F L (dict F) :=
  if negb SIMBAD_AVAILABLE
  then ret (error_response "astroquery not installed - cannot resolve target name")
  else
    r <- resolve_target target_name ;;
    match r with
    | inl response => ret response
    | inr (ra_deg, dec_deg) =>
        if ALMINER_AVAILABLE then
          try_except
            (target_conesearch target_name ra_deg dec_deg radius_arcmin public_only)
            (fun e => ret (error_response ("ALMA search failed: " ++ e)))
        else
          (* Fallback to TAP *)
          search_alma_by_position ra_deg dec_deg radius_arcmin public_only
    end.

(** *** Tool 3: [search_alma_by_proposal] *)

Definition proposal_search_dict (proposal_id pi_name science_category : option string)
  : list (string * list string) :=
  let d := [] in
  let d := match given_str proposal_id with
           | Some p => dict_set "proposal_id" [p] d | None => d end in
  let d := match given_str pi_name with
           | Some p => dict_set "pi_name" [p] d | None => d end in
  match given_str science_category with
  | Some c => dict_set "scientific_category" [c] d | None => d end.

Definition proposal_obs_alminer (row : series F) : value F :=
  VDict [("target", VScalar (get_or_unknown "target_name" row));
         ("proposal_id",
          VScalar (row_get "proposal_id" (get_or_unknown "project_code" row) row));
         ("pi", VScalar (get_or_unknown "obs_creator_name" row));
         ("band", vstr (py_str (row_get "band_list" (get_or_unknown "band" row) row)))].

Definition proposal_obs_tap (row : series F) : value F :=
  VDict [("target", VScalar (get_or_unknown "target_name" row));
         ("proposal_id", VScalar (get_or_unknown "proposal_id" row));
         ("pi", VScalar (get_or_unknown "obs_creator_name" row));
         ("band", vstr (py_str (get_or_unknown "band_list" row)))].

(** The alminer attempt: [Some response] when it returned, [None] when the
    code falls through to the TAP query ([except: pass]). *)
Definition proposal_alminer (proposal_id pi_name science_category : option string)
  : M W F L (option (dict F)) :=
  if ALMINER_AVAILABLE then
    try_except
      (let search_dict := proposal_search_dict proposal_id pi_name science_category in
       odf <- call_keysearch search_dict true ;;
       match nonempty_frame odf with
       | None =>
           ret (Some [("count", vint 0); ("observations", VList []);
                      ("summary", vstr "No matching observations found")])
       | Some df =>
           let observations := map proposal_obs_alminer (firstn 20 (df_series df)) in
           ret (Some [("count", vnat (df_len df));
                      ("showing", vnat (Nat.min 20 (df_len df)));
                      ("observations", VList observations);
                      ("summary", vstr ("Found " ++ PyStr.of_nat (df_len df)
                                        ++ " observations matching criteria"))])
       end)
      (fun _ => ret None)
  else ret None.

Definition proposal_conditions (proposal_id pi_name : option string) : list string :=
  let conditions := [] in
  let conditions :=
    append_if (given_str proposal_id)
      (fun p => "proposal_id LIKE '%" ++ p ++ "%'") conditions in
  append_if (given_str pi_name)
    (fun p => "LOWER(obs_creator_name) LIKE LOWER('%" ++ p ++ "%')") conditions.

Definition proposal_where_clause (proposal_id pi_name : option string) : string :=
  match proposal_conditions proposal_id pi_name with
  | [] => "1=1"
  | conditions => PyStr.join " AND " conditions
  end.

Definition search_alma_by_proposal (proposal_id pi_name science_category : option string)
  : M W F L (dict F) :=
  if negb (is_given (given_str proposal_id) || is_given (given_str pi_name)
           || is_given (given_str science_category))
  then ret (error_response
    "Must provide at least one search parameter (proposal_id, pi_name, or science_category)")
  else
    r <- proposal_alminer proposal_id pi_name science_category ;;
    match r with
    | Some response => ret response
    | None =>
        (* Fallback to TAP query *)
        if negb PYVO_AVAILABLE
        then ret (error_response "Neither alminer nor pyvo available")
        else
          try_except
            (service <- call_TAPService tap_url ;;
             let where_clause := proposal_where_clause proposal_id pi_name in
             df <- call_search (proposal_query where_clause) ;;
             let observations := map proposal_obs_tap (firstn 20 (df_series df)) in
             ret [("count", vnat (df_len df));
                  ("showing", vnat (Nat.min 20 (df_len df)));
                  ("observations", VList observations);
                  ("summary", vstr ("Found " ++ PyStr.of_nat (df_len df)
                                    ++ " observations matching criteria"))])
            (fun e => ret (error_response ("Proposal search failed: " ++ e)))
    end.

(** *** Tool 4: [check_alma_line_coverage] *)

Definition check_alma_line_coverage
  (target_name : string) (line_frequency_ghz redshift : F) : M W F L (dict F) :=
  if negb ALMINER_AVAILABLE
  then ret (error_response "alminer library required for line coverage check") else
  if negb SIMBAD_AVAILABLE
  then ret (error_response "astroquery required for target resolution") else
  try_except
    (result <- call_simbad target_name ;;
     match result with
     | None | Some [] =>
         ret (error_response ("Could not resolve '" ++ target_name ++ "'"))
     | Some ((ra_str, dec_str) :: _) =>
         ' (ra_deg, dec_deg) <- lift_result (SkyCoord ra_str dec_str) ;;
         (* [public] is left to alminer's default, which is [True] *)
         odf <- call_conesearch ra_deg dec_deg (f_lit 16 (-3)) true ;;
         match nonempty_frame odf with
         | None =>
             ret [("total_observations", vint 0);
                  ("covering_line", vint 0);
                  ("summary", vstr ("No ALMA observations found for " ++ target_name))]
         | Some df =>
             ocov <- call_line_coverage df line_frequency_ghz redshift ;;
             match nonempty_frame ocov with
             | None =>
                 observed <- lift_result
                   (py_fdiv line_frequency_ghz (f_add (f_of_Z 1) redshift)) ;;
                 ret [("total_observations", vnat (df_len df));
                      ("covering_line", vint 0);
                      ("line_frequency_ghz", vfloat line_frequency_ghz);
                      ("redshift", vfloat redshift);
                      ("observed_frequency_ghz", vfloat (f_round observed 4));
                      ("summary", vstr ("None of the " ++ PyStr.of_nat (df_len df)
                                        ++ " observations cover " ++ f_repr line_frequency_ghz
                                        ++ " GHz at z=" ++ f_repr redshift))]
             | Some covered_df =>
                 observed <- lift_result
                   (py_fdiv line_frequency_ghz (f_add (f_of_Z 1) redshift)) ;;
                 ret [("total_observations", vnat (df_len df));
                      ("covering_line", vnat (df_len covered_df));
                      ("line_frequency_ghz", vfloat line_frequency_ghz);
                      ("redshift", vfloat redshift);
                      ("observed_frequency_ghz", vfloat (f_round observed 4));
                      ("summary", vstr (PyStr.of_nat (df_len covered_df) ++ " of "
                                        ++ PyStr.of_nat (df_len df)
                                        ++ " observations cover the line"))]
             end
         end
     end)
    (fun e => ret (error_response ("Line coverage check failed: " ++ e))).

(** *** Tool 5: [get_alma_info] *)

Definition band_info (frequency_ghz wavelength_mm : string) : value F :=
  VDict [("frequency_ghz", vstr frequency_ghz); ("wavelength_mm", vstr wavelength_mm)].

Definition get_alma_info : M W F L (dict F) :=
  ret [("telescope", vstr "Atacama Large Millimeter/submillimeter Array");
       ("location", vstr "Atacama Desert, Chile (5000m altitude)");
       ("operator", vstr "NRAO, ESO, NAOJ");
       ("antennas", vstr "66 high-precision antennas (54 x 12m + 12 x 7m)");
       ("bands", VDict [
          ("Band 3", band_info "84-116" "2.6-3.6");
          ("Band 4", band_info "125-163" "1.8-2.4");
          ("Band 5", band_info "163-211" "1.4-1.8");
          ("Band 6", band_info "211-275" "1.1-1.4");
          ("Band 7", band_info "275-373" "0.8-1.1");
          ("Band 8", band_info "385-500" "0.6-0.8");
          ("Band 9", band_info "602-720" "0.4-0.5");
          ("Band 10", band_info "787-950" "0.3-0.4")]);
       ("common_lines", VDict [
          ("CO(1-0)", vstr "115.271 GHz");
          ("CO(2-1)", vstr "230.538 GHz");
          ("CO(3-2)", vstr "345.796 GHz");
          ("13CO(1-0)", vstr "110.201 GHz");
          ("13CO(2-1)", vstr "220.399 GHz");
          ("HCN(1-0)", vstr "88.632 GHz");
          ("HCO+(1-0)", vstr "89.189 GHz");
          ("CS(2-1)", vstr "97.981 GHz");
          ("SiO(2-1)", vstr "86.847 GHz");
          ("N2H+(1-0)", vstr "93.174 GHz")]);
       ("science_categories", vstrs [
          "Cosmology";
          "Galaxy evolution";
          "ISM and star formation";
          "Disks and planet formation";
          "Stars and stellar evolution";
          "Solar system";
          "Sun"])].

(** *** Tool 6: [search_alma_by_frequency] *)

Definition target_name_condition (target_name : string) : string :=
  " AND LOWER(target_name) LIKE LOWER('%" ++ target_name ++ "%')".

Definition frequency_obs (row : series F) : result (value F) :=
  fr <~ py_float (row_get "frequency" (SInt 0) row) ;;
  bw <~ py_float (row_get "bandwidth" (SInt 0) row) ;;
  Ok (VDict [("target", VScalar (get_or_unknown "target_name" row));
             ("frequency_ghz", vfloat (f_round (f_div fr (f_lit 1 9)) 2));
             ("bandwidth_ghz", vfloat (f_round (f_div bw (f_lit 1 9)) 2));
             ("band", vstr (py_str (get_or_unknown "band_list" row)));
             ("proposal_id", VScalar (get_or_unknown "proposal_id" row))]).

Definition frequency_full_query (min_freq_ghz max_freq_ghz : F) (target_name : option string)
  : string :=
  let query := frequency_query min_freq_ghz max_freq_ghz in
  let query := match given_str target_name with
               | Some t => query ++ target_name_condition t
               | None => query
               end in
  query ++ " ORDER BY frequency".

Definition search_alma_by_frequency
  (min_freq_ghz max_freq_ghz : F) (target_name : option string) : M W F L (dict F) :=
  if negb PYVO_AVAILABLE then ret (error_response "pyvo library not installed") else
  try_except
    (service <- call_TAPService tap_url ;;
     df <- call_search (frequency_full_query min_freq_ghz max_freq_ghz target_name) ;;
     if df_empty df then
       ret [("count", vint 0);
            ("frequency_range_ghz", VList [vfloat min_freq_ghz; vfloat max_freq_ghz]);
            ("observations", VList []);
            ("summary", vstr ("No observations found in " ++ f_repr min_freq_ghz ++ "-"
                              ++ f_repr max_freq_ghz ++ " GHz range"))]
     else
       observations <- lift_result (rmap frequency_obs (firstn 20 (df_series df))) ;;
       ret [("count", vnat (df_len df));
            ("showing", vnat (Nat.min 20 (df_len df)));
            ("frequency_range_ghz", VList [vfloat min_freq_ghz; vfloat max_freq_ghz]);
            ("observations", VList observations);
            ("summary", vstr ("Found " ++ PyStr.of_nat (df_len df) ++ " observations in "
                              ++ f_repr min_freq_ghz ++ "-" ++ f_repr max_freq_ghz
                              ++ " GHz range"))])
    (fun e => ret (error_response ("Frequency search failed: " ++ e))).

(** *** Tool 7: [search_alma_by_resolution] *)

Definition resolution_obs (row : series F) : result (value F) :=
  r <~ py_float (row_get "s_resolution" (SInt 0) row) ;;
  let res_arcsec := f_mul r (f_of_Z 3600) in
  Ok (VDict [("target", VScalar (get_or_unknown "target_name" row));
             ("resolution_arcsec", vfloat (f_round res_arcsec 3));
             ("band", vstr (py_str (get_or_unknown "band_list" row)));
             ("proposal_id", VScalar (get_or_unknown "proposal_id" row))]).

Definition resolution_full_query
  (max_resolution_arcsec min_resolution_arcsec : F) (target_name : option string) : string :=
  let max_res_deg := f_div max_resolution_arcsec (f_lit 3600 0) in
  let min_res_deg := f_div min_resolution_arcsec (f_lit 3600 0) in
  let query := resolution_query max_res_deg min_res_deg in
  let query := match given_str target_name with
               | Some t => query ++ target_name_condition t
               | None => query
               end in
  query ++ " ORDER BY s_resolution".

Definition search_alma_by_resolution
  (max_resolution_arcsec min_resolution_arcsec : F) (target_name : option string)
  : M W F L (dict F) :=
  if negb PYVO_AVAILABLE then ret (error_response "pyvo library not installed") else
  try_except
    (service <- call_TAPService tap_url ;;
     df <- call_search
             (resolution_full_query max_resolution_arcsec min_resolution_arcsec target_name) ;;
     if df_empty df then
       ret [("count", vint 0);
            ("resolution_range_arcsec",
             VList [vfloat min_resolution_arcsec; vfloat max_resolution_arcsec]);
            ("observations", VList []);
            ("summary", vstr ("No observations found with resolution "
                              ++ f_repr min_resolution_arcsec ++ "-"
                              ++ f_repr max_resolution_arcsec ++ " arcsec"))]
     else
       observations <- lift_result (rmap resolution_obs (firstn 20 (df_series df))) ;;
       ret [("count", vnat (df_len df));
            ("showing", vnat (Nat.min 20 (df_len df)));
            ("resolution_range_arcsec",
             VList [vfloat min_resolution_arcsec; vfloat max_resolution_arcsec]);
            ("observations", VList observations);
            ("summary", vstr ("Found " ++ PyStr.of_nat (df_len df)
                              ++ " observations with resolution < "
                              ++ f_repr max_resolution_arcsec ++ " arcsec"))])
    (fun e => ret (error_response ("Resolution search failed: " ++ e))).

(** *** Tool 8: [run_alma_tap_query] *)

(** [max_rows = min(max_rows, 1000)] *)
Definition limit_max_rows (max_rows : Z) : Z := Z.min max_rows 1000.

(** The test that guards the insertion of a [TOP] clause. *)
Definition wants_top (sql_query : string) : bool :=
  let sql_upper := str_strip (str_upper sql_query) in
  negb (PyStr.contains "TOP" sql_upper)
  && PyStr.startswith "SELECT" sql_upper
  && negb (PyStr.contains "COUNT" sql_upper).

(** The query text handed to [service.search]; [max_rows] is the limited
    value. *)
Definition add_top_clause (sql_query : string) (max_rows : Z) : string :=
  if wants_top sql_query
  then PyStr.replace_first "SELECT" ("SELECT TOP " ++ PyStr.of_Z max_rows) sql_query
  else sql_query.

(** The inner loop [for col in df.columns: ... row_dict[col] = val]; a
    numpy scalar and the Python scalar it unwraps to are one value here. *)
Fixpoint row_dict (columns : list string) (row : series F) (acc : dict F)
  : result (dict F) :=
  match columns with
  | [] => Ok acc
  | col :: rest =>
      val <~ row_item col row ;;
      row_dict rest row (dict_set col (VScalar val) acc)
  end.

Definition tap_query_hint : string :=
  "Check your SQL syntax. Query the 'ivoa.obscore' table. " ++
  "Use single quotes for string values.".

Definition run_alma_tap_query (sql_query : string) (max_rows : Z) : M W F L (dict F) :=
  if negb PYVO_AVAILABLE then ret (error_response "pyvo library not installed") else
  try_except
    ((* Safety limits *)
     let max_rows := limit_max_rows max_rows in
     service <- call_TAPService tap_url ;;
     let sql_query := add_top_clause sql_query max_rows in
     df <- call_search sql_query ;;
     if df_empty df then
       ret [("count", vint 0);
            ("columns", vstrs (df_columns df));
            ("rows", VList []);
            ("summary", vstr "Query returned no results")]
     else
       rows <- lift_result
                 (rmap (fun row => d <~ row_dict (df_columns df) row [] ;; Ok (VDict d))
                       (df_head max_rows df)) ;;
       ret [("count", vnat (df_len df));
            ("showing", vint (showing max_rows df));
            ("columns", vstrs (df_columns df));
            ("rows", VList rows);
            ("summary", vstr ("Query returned " ++ PyStr.of_nat (df_len df) ++ " rows"))])
    (fun e => ret [("error", vstr ("TAP query failed: " ++ e));
                   ("hint", vstr tap_query_hint)]).

(** *** Tool 9: [search_alma_by_source_name] *)

Definition source_name_query (source_name : string) (exact_match : bool) : string :=
  if exact_match
  then source_name_exact_query source_name
  else source_name_like_query source_name.

Definition source_name_obs (row : series F) : result (value F) :=
  ra <~ rounded_float "s_ra" 4 row ;;
  dec <~ rounded_float "s_dec" 4 row ;;
  Ok (VDict [("target", VScalar (get_or_unknown "target_name" row));
             ("ra", ra);
             ("dec", dec);
             ("band", vstr (py_str (get_or_unknown "band_list" row)));
             ("proposal_id", VScalar (get_or_unknown "proposal_id" row));
             ("data_type", VScalar (get_or_unknown "dataproduct_type" row))]).

Definition search_alma_by_source_name (source_name : string) (exact_match : bool)
  : M W F L (dict F) :=
  if negb PYVO_AVAILABLE then ret (error_response "pyvo library not installed") else
  try_except
    (service <- call_TAPService tap_url ;;
     df <- call_search (source_name_query source_name exact_match) ;;
     if df_empty df then
       ret [("count", vint 0);
            ("observations", VList []);
            ("summary", vstr ("No ALMA observations found with source name '"
                              ++ source_name ++ "'"))]
     else
       observations <- lift_result (rmap source_name_obs (firstn 20 (df_series df))) ;;
       (* Get unique target names found *)
       targets <- lift_result (df_column "target_name" df) ;;
       let unique_targets := firstn 10 (unique targets) in
       ret [("count", vnat (df_len df));
            ("showing", vnat (Nat.min 20 (df_len df)));
            ("unique_targets_found", vscalars unique_targets);
            ("observations", VList observations);
            ("summary", vstr ("Found " ++ PyStr.of_nat (df_len df)
                              ++ " observations matching source name '"
                              ++ source_name ++ "'"))])
    (fun e => ret (error_response ("Source name search failed: " ++ e))).

(** *** Tool 10: [search_alma_by_bibliography] *)

Definition bibliography_conditions
  (bibcode journal_name first_author : option string) (publication_year : option Z)
  : list string :=
  let conditions := [] in
  let conditions :=
    append_if (given_str bibcode)
      (fun b => "bib_reference LIKE '%" ++ b ++ "%'") conditions in
  let conditions :=
    append_if (given_str journal_name)
      (fun j => "bib_reference LIKE '%" ++ j ++ "%'") conditions in
  let conditions :=
    append_if (given_str first_author)
      (fun a => "LOWER(first_author) LIKE LOWER('%" ++ a ++ "%')") conditions in
  append_if (given_int publication_year)
    (fun y => "publication_year = " ++ PyStr.of_Z y) conditions.

Definition bibliography_obs (row : series F) : value F :=
  VDict [("target", VScalar (get_or_unknown "target_name" row));
         ("proposal_id", VScalar (get_or_unknown "proposal_id" row));
         ("bibcode", VScalar (get_or_unknown "bib_reference" row));
         ("first_author", VScalar (get_or_unknown "first_author" row));
         ("pub_year", VScalar (get_or_unknown "publication_year" row));
         ("pub_title", vstr (PyStr.take_chars 100 (py_str (get_or_unknown "pub_title" row))))].

Definition search_alma_by_bibliography
  (bibcode journal_name first_author : option string) (publication_year : option Z)
  : M W F L (dict F) :=
  if negb PYVO_AVAILABLE then ret (error_response "pyvo library not installed") else
  if negb (is_given (given_str bibcode) || is_given (given_str journal_name)
           || is_given (given_str first_author) || is_given (given_int publication_year))
  then ret (error_response "Must provide at least one search parameter") else
  try_except
    (service <- call_TAPService tap_url ;;
     let conditions :=
       bibliography_conditions bibcode journal_name first_author publication_year in
     let where_clause := PyStr.join " AND " conditions in
     df <- call_search (bibliography_query where_clause) ;;
     if df_empty df then
       ret [("count", vint 0);
            ("observations", VList []);
            ("summary", vstr "No ALMA observations found with matching bibliography")]
     else
       let observations := map bibliography_obs (firstn 20 (df_series df)) in
       ret [("count", vnat (df_len df));
            ("showing", vnat (Nat.min 20 (df_len df)));
            ("observations", VList observations);
            ("summary", vstr ("Found " ++ PyStr.of_nat (df_len df)
                              ++ " observations with matching publications"))])
    (fun e => ret (error_response ("Bibliography search failed: " ++ e))).

(** *** Tool 11: [search_alma_by_member_ous] *)

(** Normalize the UID format. *)
Definition normalize_uid (member_ous_id : string) : string :=
  PyStr.replace "_" "/" (PyStr.replace "___" "://" member_ous_id).

Definition member_ous_obs (row : series F) : result (value F) :=
  ra <~ rounded_float "s_ra" 4 row ;;
  dec <~ rounded_float "s_dec" 4 row ;;
  fr <~ rounded_float "frequency" 2 row ;;
  res <~ rounded_float "s_resolution" 3 row ;;
  Ok (VDict [("target", VScalar (get_or_unknown "target_name" row));
             ("ra", ra);
             ("dec", dec);
             ("band", vstr (py_str (get_or_unknown "band_list" row)));
             ("proposal_id", VScalar (get_or_unknown "proposal_id" row));
             ("frequency_ghz", fr);
             ("resolution_arcsec", res);
             ("data_type", VScalar (get_or_unknown "dataproduct_type" row));
             ("access_url", VScalar (get_or_unknown "access_url" row))]).

Definition search_alma_by_member_ous (member_ous_id : string) : M W F L (dict F) :=
  if negb PYVO_AVAILABLE then ret (error_response "pyvo library not installed") else
  try_except
    (service <- call_TAPService tap_url ;;
     let normalized_uid := normalize_uid member_ous_id in
     df <- call_search (member_ous_query normalized_uid) ;;
     if df_empty df then
       ret [("count", vint 0);
            ("member_ous_id", vstr normalized_uid);
            ("observations", VList []);
            ("summary", vstr ("No ALMA data found for Member OUS ID '"
                              ++ normalized_uid ++ "'"))]
     else
       observations <- lift_result (rmap member_ous_obs (df_series df)) ;;
       ret [("count", vnat (df_len df));
            ("member_ous_id", vstr normalized_uid);
            ("observations", VList observations);
            ("summary", vstr ("Found " ++ PyStr.of_nat (df_len df)
                              ++ " data products for Member OUS ID"))])
    (fun e => ret (error_response ("Member OUS search failed: " ++ e))).

(** *** Tool 12: [search_alma_by_data_type] *)

(** [data_type.lower() in ["cube", "image"]] *)
Definition is_cube_or_image (data_type : string) : bool :=
  let d := PyStr.lower data_type in
  String.eqb d "cube" || String.eqb d "image".

Definition data_type_condition (data_type : string) : string :=
  "dataproduct_type = '" ++ PyStr.lower data_type ++ "'".

Definition band_condition (band : Z) : string :=
  "band_list LIKE '%" ++ PyStr.of_Z band ++ "%'".

Definition data_type_conditions
  (data_type : string) (target_name science_keyword : option string) (band : option Z)
  : list string :=
  let conditions := [data_type_condition data_type] in
  let conditions := (conditions ++ ["science_observation = 'T'"])%list in
  let conditions :=
    append_if (given_str target_name)
      (fun t => "LOWER(target_name) LIKE LOWER('%" ++ t ++ "%')") conditions in
  let conditions :=
    append_if (given_str science_keyword)
      (fun k => "LOWER(science_keyword) LIKE LOWER('%" ++ k ++ "%')") conditions in
  append_if (given_int band) band_condition conditions.

Definition data_type_obs (row : series F) : result (value F) :=
  fr <~ rounded_float "frequency" 2 row ;;
  res <~ rounded_float "s_resolution" 3 row ;;
  Ok (VDict [("target", VScalar (get_or_unknown "target_name" row));
             ("band", vstr (py_str (get_or_unknown "band_list" row)));
             ("proposal_id", VScalar (get_or_unknown "proposal_id" row));
             ("frequency_ghz", fr);
             ("resolution_arcsec", res)]).

Definition search_alma_by_data_type
  (data_type : string) (target_name science_keyword : option string) (band : option Z)
  : M W F L (dict F) :=
  if negb PYVO_AVAILABLE then ret (error_response "pyvo library not installed") else
  if negb (is_cube_or_image data_type)
  then ret (error_response "data_type must be 'cube' or 'image'") else
  try_except
    (service <- call_TAPService tap_url ;;
     let conditions := data_type_conditions data_type target_name science_keyword band in
     let where_clause := PyStr.join " AND " conditions in
     df <- call_search (data_type_query where_clause) ;;
     if df_empty df then
       ret [("count", vint 0);
            ("data_type", vstr data_type);
            ("observations", VList []);
            ("summary", vstr ("No " ++ data_type ++ " observations found matching criteria"))]
     else
       observations <- lift_result (rmap data_type_obs (firstn 20 (df_series df))) ;;
       ret [("count", vnat (df_len df));
            ("showing", vnat (Nat.min 20 (df_len df)));
            ("data_type", vstr data_type);
            ("observations", VList observations);
            ("summary", vstr ("Found " ++ PyStr.of_nat (df_len df) ++ " " ++ data_type
                              ++ " observations"))])
    (fun e => ret (error_response ("Data type search failed: " ++ e))).

(** *** Tool 13: [search_alma_by_science_keyword] *)

(** The data-type filter as the guard
    [if data_type and data_type.lower() in ["cube", "image"]] lets it through. *)
Definition accepted_data_type (data_type : option string) : option string :=
  match given_str data_type with
  | Some d => if is_cube_or_image d then Some d else None
  | None => None
  end.

Definition science_keyword_conditions
  (science_keyword : string) (data_type : option string) (band : option Z)
  (science_observation_only : bool) : list string :=
  let conditions :=
    ["LOWER(science_keyword) LIKE LOWER('%" ++ science_keyword ++ "%')"] in
  let conditions :=
    if science_observation_only
    then (conditions ++ ["science_observation = 'T'"])%list
    else conditions in
  let conditions := append_if (accepted_data_type data_type) data_type_condition conditions in
  append_if (given_int band) band_condition conditions.

Definition science_keyword_obs (row : series F) : value F :=
  VDict [("target", VScalar (get_or_unknown "target_name" row));
         ("band", vstr (py_str (get_or_unknown "band_list" row)));
         ("proposal_id", VScalar (get_or_unknown "proposal_id" row));
         ("data_type", VScalar (get_or_unknown "dataproduct_type" row));
         ("science_keyword", VScalar (get_or_unknown "science_keyword" row))].

Definition search_alma_by_science_keyword
  (science_keyword : string) (data_type : option string) (band : option Z)
  (science_observation_only : bool) : M W F L (dict F) :=
  if negb PYVO_AVAILABLE then ret (error_response "pyvo library not installed") else
  try_except
    (service <- call_TAPService tap_url ;;
     let conditions :=
       science_keyword_conditions science_keyword data_type band science_observation_only in
     let where_clause := PyStr.join " AND " conditions in
     df <- call_search (science_keyword_query where_clause) ;;
     if df_empty df then
       ret [("count", vint 0);
            ("science_keyword", vstr science_keyword);
            ("observations", VList []);
            ("summary", vstr ("No observations found with science keyword '"
                              ++ science_keyword ++ "'"))]
     else
       let observations := map science_keyword_obs (firstn 20 (df_series df)) in
       (* Get unique targets *)
       targets <- lift_result (df_column "target_name" df) ;;
       let unique_targets := firstn 10 (unique targets) in
       ret [("count", vnat (df_len df));
            ("showing", vnat (Nat.min 20 (df_len df)));
            ("science_keyword", vstr science_keyword);
            ("unique_targets", vscalars unique_targets);
            ("observations", VList observations);
            ("summary", vstr ("Found " ++ PyStr.of_nat (df_len df)
                              ++ " observations with science keyword '"
                              ++ science_keyword ++ "'"))])
    (fun e => ret (error_response ("Science keyword search failed: " ++ e))).

(** *** Tool 14: [search_alma_by_abstract] *)

Definition abstract_condition (search_terms : string) (search_pub_abstract : bool) : string :=
  if search_pub_abstract
  then abstract_condition_both search_terms
  else "LOWER(proposal_abstract) LIKE LOWER('%" ++ search_terms ++ "%')".

Definition abstract_obs (row : series F) : value F :=
  VDict [("target", VScalar (get_or_unknown "target_name" row));
         ("proposal_id", VScalar (get_or_unknown "proposal_id" row));
         ("pi", VScalar (get_or_unknown "obs_creator_name" row));
         ("band", vstr (py_str (get_or_unknown "band_list" row)));
         ("science_keyword", VScalar (get_or_unknown "science_keyword" row))].

Definition search_alma_by_abstract (search_terms : string) (search_pub_abstract : bool)
  : M W F L (dict F) :=
  if negb PYVO_AVAILABLE then ret (error_response "pyvo library not installed") else
  try_except
    (service <- call_TAPService tap_url ;;
     df <- call_search
             (abstract_query (abstract_condition search_terms search_pub_abstract)) ;;
     if df_empty df then
       ret [("count", vint 0);
            ("search_terms", vstr search_terms);
            ("observations", VList []);
            ("summary", vstr ("No proposals found with abstract containing '"
                              ++ search_terms ++ "'"))]
     else
       let observations := map abstract_obs (firstn 20 (df_series df)) in
       (* Get unique proposals *)
       proposals <- lift_result (df_column "proposal_id" df) ;;
       let unique_proposals := firstn 10 (unique proposals) in
       ret [("count", vnat (df_len df));
            ("showing", vnat (Nat.min 20 (df_len df)));
            ("search_terms", vstr search_terms);
            ("unique_proposals", vscalars unique_proposals);
            ("observations", VList observations);
            ("summary", vstr ("Found " ++ PyStr.of_nat (df_len df)
                              ++ " observations from proposals mentioning '"
                              ++ search_terms ++ "'"))])
    (fun e => ret (error_response ("Abstract search failed: " ++ e))).

(** *** Tool 15: [search_alma_by_sensitivity] *)

Definition sens_column (sensitivity_type : string) : string :=
  if String.eqb (PyStr.lower sensitivity_type) "continuum"
  then "cont_sensitivity_bandwidth"
  else "sensitivity_10kms".

Definition sensitivity_conditions
  (max_sensitivity_mjy : F) (sensitivity_type : string)
  (target_name : option string) (band : option Z) : list string :=
  let sens_column := sens_column sensitivity_type in
  let conditions :=
    [sens_column ++ " <= " ++ f_repr max_sensitivity_mjy;
     sens_column ++ " > 0";
     "science_observation = 'T'"] in
  let conditions :=
    append_if (given_str target_name)
      (fun t => "LOWER(target_name) LIKE LOWER('%" ++ t ++ "%')") conditions in
  append_if (given_int band) band_condition conditions.

Definition sensitivity_full_query
  (max_sensitivity_mjy : F) (sensitivity_type : string)
  (target_name : option string) (band : option Z) : string :=
  let where_clause :=
    PyStr.join " AND "
      (sensitivity_conditions max_sensitivity_mjy sensitivity_type target_name band) in
  sensitivity_query (sens_column sensitivity_type) where_clause.

Definition sensitivity_obs (row : series F) : result (value F) :=
  sens <~ rounded_float "sensitivity" 4 row ;;
  res <~ rounded_float "s_resolution" 3 row ;;
  Ok (VDict [("target", VScalar (get_or_unknown "target_name" row));
             ("sensitivity_mjy", sens);
             ("band", vstr (py_str (get_or_unknown "band_list" row)));
             ("resolution_arcsec", res);
             ("proposal_id", VScalar (get_or_unknown "proposal_id" row))]).

Definition search_alma_by_sensitivity
  (max_sensitivity_mjy : F) (sensitivity_type : string)
  (target_name : option string) (band : option Z) : M W F L (dict F) :=
  if negb PYVO_AVAILABLE then ret (error_response "pyvo library not installed") else
  try_except
    (service <- call_TAPService tap_url ;;
     df <- call_search
             (sensitivity_full_query max_sensitivity_mjy sensitivity_type target_name band) ;;
     if df_empty df then
       ret [("count", vint 0);
            ("max_sensitivity_mjy", vfloat max_sensitivity_mjy);
            ("sensitivity_type", vstr sensitivity_type);
            ("observations", VList []);
            ("summary", vstr ("No observations found with " ++ sensitivity_type
                              ++ " sensitivity <= " ++ f_repr max_sensitivity_mjy
                              ++ " mJy/beam"))]
     else
       observations <- lift_result (rmap sensitivity_obs (firstn 20 (df_series df))) ;;
       ret [("count", vnat (df_len df));
            ("showing", vnat (Nat.min 20 (df_len df)));
            ("max_sensitivity_mjy", vfloat max_sensitivity_mjy);
            ("sensitivity_type", vstr sensitivity_type);
            ("observations", VList observations);
            ("summary", vstr ("Found " ++ PyStr.of_nat (df_len df)
                              ++ " observations with " ++ sensitivity_type
                              ++ " sensitivity <= " ++ f_repr max_sensitivity_mjy
                              ++ " mJy/beam"))])
    (fun e => ret (error_response ("Sensitivity search failed: " ++ e))).

End Tools.

(** *** Tool 16: [query_alma_multiple_sources] *)

(** The two local variables the loop updates in place. *)
Record batch_locals : Type := mkBatch {
  results_by_source : dict F;
  total_observations : nat
}.

(** [results_by_source[source_name] = entry] *)
Definition set_result (source_name : string) (entry : dict F)
  : M W F batch_locals unit :=
  loc <- get_locals ;;
  put_locals (mkBatch (dict_set source_name (VDict entry) (results_by_source loc))
                      (total_observations loc)).

(** [total_observations += n] *)
Definition add_observations (n : nat) : M W F batch_locals unit :=
  loc <- get_locals ;;
  put_locals (mkBatch (results_by_source loc) (total_observations loc + n)).

Definition not_resolved_entry (source_name : string) : dict F :=
  [("status", vstr "not_resolved");
   ("count", vint 0);
   ("message", vstr ("Could not resolve '" ++ source_name ++ "' in SIMBAD"))].

Definition no_data_entry (ra_deg dec_deg : F) : dict F :=
  [("status", vstr "no_data");
   ("count", vint 0);
   ("coordinates", coordinates ra_deg dec_deg);
   ("message", vstr "No ALMA observations found")].

Definition found_entry (n : nat) (ra_deg dec_deg : F) (unique_bands : list (scalar F))
  : dict F :=
  [("status", vstr "found");
   ("count", vnat n);
   ("coordinates", coordinates ra_deg dec_deg);
   ("bands_observed", vscalars unique_bands)].

Definition error_entry (e : string) : dict F :=
  [("status", vstr "error");
   ("count", vint 0);
   ("message", vstr e)].

(** The body of the inner [try], for one source name. *)
Definition batch_item (source_name : string) (radius_arcmin : F)
  : M W F batch_locals unit :=
  (* Resolve source name *)
  result <- call_simbad source_name ;;
  match result with
  | None | Some [] =>
      set_result source_name (not_resolved_entry source_name)
  | Some ((ra_str, dec_str) :: _) =>
      ' (ra_deg, dec_deg) <- lift_result (SkyCoord ra_str dec_str) ;;
      (* Search ALMA *)
      let radius_deg := f_div radius_arcmin (f_lit 60 0) in
      service <- call_TAPService tap_url ;;
      df <- call_search (batch_item_query ra_deg dec_deg radius_deg) ;;
      if df_empty df then
        set_result source_name (no_data_entry ra_deg dec_deg)
      else
        _ <- add_observations (df_len df) ;;
        bands <- lift_result (df_column "band_list" df) ;;
        let unique_bands := unique bands in
        set_result source_name
          (found_entry (df_len df) ra_deg dec_deg unique_bands)
  end.

(** One turn of the [for] loop: the inner [try] with its handler. *)
Definition batch_step (source_name : string) (radius_arcmin : F)
  : M W F batch_locals unit :=
  try_except
    (batch_item source_name radius_arcmin)
    (fun e => set_result source_name (error_entry e)).

Fixpoint batch_loop (source_names : list string) (radius_arcmin : F)
  : M W F batch_locals unit :=
  match source_names with
  | [] => ret tt
  | source_name :: rest =>
      _ <- batch_step source_name radius_arcmin ;;
      batch_loop rest radius_arcmin
  end.

(** [s.get("status") == "found"] *)
Definition status_is_found (s : value F) : bool :=
  match s with
  | VDict d =>
      match dict_get "status" d with
      | Some (VScalar (SStr t)) => String.eqb t "found"
      | _ => false
      end
  | _ => false
  end.

Definition batch_summary (source_names : list string) (loc : batch_locals) : dict F :=
  let sources_with_data :=
    List.length (filter status_is_found (dict_values (results_by_source loc))) in
  [("total_sources_queried", vnat (List.length source_names));
   ("sources_with_alma_data", vnat sources_with_data);
   ("total_observations", vnat (total_observations loc));
   ("results_by_source", VDict (results_by_source loc));
   ("summary", vstr (PyStr.of_nat sources_with_data ++ " of "
                     ++ PyStr.of_nat (List.length source_names)
                     ++ " sources have ALMA observations"))].

Definition query_alma_multiple_sources {L : Type}
  (source_names : list string) (radius_arcmin : F) : M W F L (dict F) :=
  if negb SIMBAD_AVAILABLE
  then ret (error_response "astroquery not installed - cannot resolve target names") else
  if negb PYVO_AVAILABLE then ret (error_response "pyvo library not installed") else
  (* Limit batch size *)
  let source_names := firstn 20 source_names in
  try_except
    (with_locals (mkBatch [] 0)
       (_ <- batch_loop source_names radius_arcmin ;;
        loc <- get_locals ;;
        (* Summary statistics *)
        ret (batch_summary source_names loc)))
    (fun e => ret (error_response ("Batch query failed: " ++ e))).

(** *** The tool facade *)

(** A request at the RPC boundary: the tool and its arguments.  An
    optional argument with a default other than [None] is [None] here when
    the caller left it out. *)
Inductive operation : Type :=
| OpTarget (target_name : string) (radius_arcmin : option F) (public_only : option bool)
| OpPosition (ra_degrees dec_degrees : F) (radius_arcmin : option F)
             (public_only : option bool)
| OpProposal (proposal_id pi_name science_category : option string)
| OpLineCoverage (target_name : string) (line_frequency_ghz : F) (redshift : option F)
| OpInfo
| OpFrequency (min_freq_ghz max_freq_ghz : F) (target_name : option string)
| OpResolution (max_resolution_arcsec : F) (min_resolution_arcsec : option F)
               (target_name : option string)
| OpTapQuery (sql_query : string) (max_rows : option Z)
| OpSourceName (source_name : string) (exact_match : option bool)
| OpBibliography (bibcode journal_name first_author : option string)
                 (publication_year : option Z)
| OpMemberOus (member_ous_id : string)
| OpDataType (data_type : string) (target_name science_keyword : option string)
             (band : option Z)
| OpScienceKeyword (science_keyword : string) (data_type : option string)
                   (band : option Z) (science_observation_only : option bool)
| OpAbstract (search_terms : string) (search_pub_abstract : option bool)
| OpSensitivity (max_sensitivity_mjy : F) (sensitivity_type : option string)
                (target_name : option string) (band : option Z)
| OpBatch (source_names : list string) (radius_arcmin : option F).

Definition default {A} (d : A) (o : option A) : A :=
  match o with Some a => a | None => d end.

(** The call of the tool, with the defaults of its signature filled in. *)
Definition run {L : Type} (op : operation) : M W F L (dict F) :=
  match op with
  | OpTarget t r p =>
      search_alma_by_target t (default (f_lit 10 (-1)) r) (default true p)
  | OpPosition ra dec r p =>
      search_alma_by_position ra dec (default (f_lit 10 (-1)) r) (default true p)
  | OpProposal p pi c => search_alma_by_proposal p pi c
  | OpLineCoverage t f z => check_alma_line_coverage t f (default (f_lit 0 (-1)) z)
  | OpInfo => get_alma_info
  | OpFrequency lo hi t => search_alma_by_frequency lo hi t
  | OpResolution hi lo t => search_alma_by_resolution hi (default (f_lit 0 (-1)) lo) t
  | OpTapQuery q n => run_alma_tap_query q (default 100%Z n)
  | OpSourceName s e => search_alma_by_source_name s (default false e)
  | OpBibliography b j a y => search_alma_by_bibliography b j a y
  | OpMemberOus u => search_alma_by_member_ous u
  | OpDataType d t k b => search_alma_by_data_type d t k b
  | OpScienceKeyword k d b s => search_alma_by_science_keyword k d b (default true s)
  | OpAbstract t p => search_alma_by_abstract t (default false p)
  | OpSensitivity m s t b => search_alma_by_sensitivity m (default "continuum" s) t b
  | OpBatch names r => query_alma_multiple_sources names (default (f_lit 10 (-1)) r)
  end.

End Server.

Arguments operation F : clear implicits.
Arguments batch_locals F : clear implicits.

(* ===================================================================== *)
(** ** A concrete world to run the tools in *)
(* ===================================================================== *)

Module Fixed.

(** Decimal fixed-point numbers with six places stand in for floats: the
    integer [x] denotes [x / 10^6]. *)
Definition scale : Z := 1000000.

Definition lit (m e : Z) : Z :=
  if (0 <=? e + 6)%Z then (m * 10 ^ (e + 6))%Z else (m / 10 ^ (- (e + 6)))%Z.

Definition round_to (x ndigits : Z) : Z :=
  if (6 <=? ndigits)%Z then x
  else
    let unit := (10 ^ (6 - ndigits))%Z in
    ((2 * x + unit) / (2 * unit) * unit)%Z.

(** The digits of [n] after the point, on [places] places. *)
Definition fraction (places : nat) (n : Z) : string :=
  PyStr.drop 1 (PyStr.of_Z (10 ^ Z.of_nat places + n)).

Definition show (places : nat) (x : Z) : string :=
  let unit := (10 ^ Z.of_nat places)%Z in
  let a := Z.abs x in
  (if (x <? 0)%Z then "-" else EmptyString)
  ++ PyStr.of_Z (a / unit) ++ "." ++ fraction places (a mod unit).

#[global] Instance fixed_float : PyFloat Z := {|
  f_lit := lit;
  f_of_Z := fun z => (z * scale)%Z;
  f_add := Z.add;
  f_mul := fun x y => (x * y / scale)%Z;
  f_div := fun x y => (x * scale / y)%Z;
  f_is_zero := fun x => (x =? 0)%Z;
  f_eqb := Z.eqb;
  f_round := round_to;
  f_repr := show 6;
  f_fmt4 := fun x => show 4 (round_to x 4 / 100);
  f_of_string := fun _ => None
|}.

(** The texts of the runs below are ASCII, so the two methods are never
    consulted; they are given the ASCII functions. *)
#[global] Instance ascii_text : PyUnicode := {|
  unicode_upper := PyStr.upper;
  unicode_strip := PyStr.strip
|}.

End Fixed.

Module Scripted.

(** A world whose answers are given by a script.  The world state counts
    the remote calls made so far, and an answer may depend on it. *)
Record script : Type := mkScript {
  sc_alminer : bool;
  sc_pyvo : bool;
  sc_simbad : bool;
  sc_simbad_answer : nat -> string -> result (option (list (string * string)));
  sc_conesearch_answer : nat -> result (option (DataFrame Z));
  sc_tap_answer : nat -> string -> result (DataFrame Z)
}.

(** M87, as SIMBAD gives it and as [SkyCoord] reads it. *)
Definition m87_row : string * string := ("12 30 49.4233", "+12 23 28.043").

Definition sky_coord (ra_str dec_str : string) : result (Z * Z) :=
  if String.eqb ra_str (fst m87_row) && String.eqb dec_str (snd m87_row)
  then Ok (187705930, 12391123)%Z
  else Raise ("Cannot parse first argument data " ++ ra_str).

Definition world (s : script) : Collaborators nat Z := {|
  ALMINER_AVAILABLE := sc_alminer s;
  PYVO_AVAILABLE := sc_pyvo s;
  SIMBAD_AVAILABLE := sc_simbad s;
  Simbad_query_object := fun name n => (sc_simbad_answer s n name, S n);
  SkyCoord := sky_coord;
  alminer_conesearch := fun _ _ _ _ n => (sc_conesearch_answer s n, S n);
  alminer_keysearch := fun _ _ n => (sc_conesearch_answer s n, S n);
  alminer_line_coverage := fun df _ _ n => (Ok (Some df), S n);
  TAPService := fun _ n => (Ok tt, n);
  service_search := fun q n => (sc_tap_answer s n q, S n)
|}.

Definition start : state nat unit := mkState 0 tt.

(** SIMBAD knows M87 only. *)
Definition simbad_m87 (_ : nat) (name : string)
  : result (option (list (string * string))) :=
  if String.eqb name "M87" then Ok (Some [m87_row]) else Ok None.

Definition no_rows : DataFrame Z :=
  {| df_columns := ["target_name"; "band_list"; "proposal_id"; "t_exptime"];
     df_rows := [] |}.

Definition two_rows : DataFrame Z :=
  {| df_columns := ["target_name"; "band_list"; "proposal_id"; "t_exptime"];
     df_rows := [[SStr "M87"; SStr "6"; SStr "2012.1.00661.S"; SFloat 60000000%Z];
                 [SStr "M87"; SStr "7"; SStr "2013.1.00073.S"; SFloat 90000000%Z]] |}.

(** Everything installed; alminer's cone search times out; TAP answers
    with two rows. *)
Definition alminer_down : script :=
  mkScript true true true simbad_m87
           (fun _ => Raise "HTTPSConnectionPool: read timed out")
           (fun _ _ => Ok two_rows).

(** No alminer; TAP answers with two rows. *)
Definition tap_only : script :=
  mkScript false true true simbad_m87 (fun _ => Ok None) (fun _ _ => Ok two_rows).

(** No alminer; TAP finds nothing. *)
Definition tap_empty : script :=
  mkScript false true true simbad_m87 (fun _ => Ok None) (fun _ _ => Ok no_rows).

(** No pyvo. *)
Definition no_pyvo : script :=
  mkScript false false true simbad_m87 (fun _ => Ok None) (fun _ _ => Ok no_rows).

(** TAP refuses every query. *)
Definition tap_error : script :=
  mkScript false true true simbad_m87 (fun _ => Ok None)
           (fun _ _ => Raise "Incorrect ADQL query").

(** A table without the [band_list] column. *)
Definition one_row_no_bands : DataFrame Z :=
  {| df_columns := ["target_name"; "proposal_id"];
     df_rows := [[SStr "M87"; SStr "2012.1.00661.S"]] |}.

(** TAP answers with a table that lacks [band_list]. *)
Definition tap_no_bands : script :=
  mkScript false true true simbad_m87 (fun _ => Ok None)
           (fun _ _ => Ok one_row_no_bands).

(** TAP refuses the first query it is sent and answers the later ones
    with two rows. *)
Definition tap_fails_once : script :=
  mkScript false true true simbad_m87 (fun _ => Ok None)
           (fun n _ => if Nat.eqb n 1 then Raise "Service Unavailable" else Ok two_rows).

(** Twenty-five rows on M87. *)
Definition many_rows : DataFrame Z :=
  {| df_columns := ["target_name"; "band_list"];
     df_rows := repeat [SStr "M87"; SStr "6"] 25 |}.

(** TAP answers with twenty-five rows. *)
Definition tap_many : script :=
  mkScript false true true simbad_m87 (fun _ => Ok None) (fun _ _ => Ok many_rows).

(** A table in which the label [target_name] heads two columns, as the
    answer to [SELECT target_name, target_name ...]. *)
Definition repeated_label : DataFrame Z :=
  {| df_columns := ["target_name"; "target_name"];
     df_rows := [[SStr "M87"; SStr "M87"]] |}.

Definition tap_repeated_label : script :=
  mkScript false true true simbad_m87 (fun _ => Ok None) (fun _ _ => Ok repeated_label).

(** SIMBAD knows nobody. *)
Definition nobody_known : script :=
  mkScript false true true (fun _ _ => Ok None) (fun _ => Ok None)
           (fun _ _ => Ok two_rows).

(** alminer is installed and refuses every key search; TAP answers. *)
Definition keysearch_down : script :=
  mkScript true true true simbad_m87
           (fun _ => Raise "alminer: service unavailable")
           (fun _ _ => Ok two_rows).

(** alminer installed, cone search answers with two rows. *)
Definition alminer_up : script :=
  mkScript true true true simbad_m87 (fun _ => Ok (Some two_rows))
           (fun _ _ => Ok two_rows).

(** Twenty-five names, of which SIMBAD knows the first. *)
Definition names25 : list string :=
  ["M87"; "s01"; "s02"; "s03"; "s04"; "s05"; "s06"; "s07"; "s08"; "s09";
   "s10"; "s11"; "s12"; "s13"; "s14"; "s15"; "s16"; "s17"; "s18"; "s19";
   "s20"; "s21"; "s22"; "s23"; "s24"].

(** A request served in the world of a script, from the start state. *)
Definition run_in (s : script) (op : operation Z)
  : result (dict Z) * state nat unit * list (event Z) :=
  run (C := world s) (L := unit) op start.

(** The mapping a run returned, and a list-valued field of it. *)
Definition returned (x : result (dict Z) * state nat unit * list (event Z)) : dict Z :=
  match fst (fst x) with
  | Ok d => d
  | Raise _ => []
  end.

Definition listed (k : string) (d : dict Z) : list (value Z) :=
  match dict_get k d with
  | Some (VList l) => l
  | _ => []
  end.

End Scripted.

(* ===================================================================== *)
(** ** Vocabulary of the statements *)
(* ===================================================================== *)

(** The three components of a run. *)
Definition response_of {A S E : Type} (x : result A * S * list E) : result A := fst (fst x).
Definition state_of {A S E : Type} (x : result A * S * list E) : S := snd (fst x).
Definition log_of {A S E : Type} (x : result A * S * list E) : list E := snd x.

(** The names SIMBAD was asked for, in order. *)
Fixpoint simbad_calls {F} (log : list (event F)) : list string :=
  match log with
  | [] => []
  | EvSimbad name :: log' => name :: simbad_calls log'
  | _ :: log' => simbad_calls log'
  end.

(** The query texts sent to the TAP service, in order. *)
Fixpoint tap_queries {F} (log : list (event F)) : list string :=
  match log with
  | [] => []
  | EvTAPSearch q :: log' => q :: tap_queries log'
  | _ :: log' => tap_queries log'
  end.

(** The messages of the collaborator calls that raised, in order. *)
Fixpoint raised_calls {F} (log : list (event F)) : list string :=
  match log with
  | [] => []
  | EvRaised e :: log' => e :: raised_calls log'
  | _ :: log' => raised_calls log'
  end.

(** No call to the TAP service (neither connection nor query). *)
Fixpoint no_tap_call {F} (log : list (event F)) : bool :=
  match log with
  | [] => true
  | EvTAPService _ :: _ => false
  | EvTAPSearch _ :: _ => false
  | _ :: log' => no_tap_call log'
  end.

(** The raw-query tool. *)
Definition is_tap_query {F} (op : operation F) : bool :=
  match op with
  | OpTapQuery _ _ => true
  | _ => false
  end.




(** The names SIMBAD does not know, wherever the world stands: the
    answer is [None] or an empty table. *)
Definition unknown_to_simbad {W F} {C : Collaborators W F} (name : string) : Prop :=
  forall w, exists w',
      Simbad_query_object name w = (Ok None, w')
      \/ Simbad_query_object name w = (Ok (Some []), w').

(** One segment of a dataset identifier in its underscore form: not
    empty, and free of underscores. *)
Definition uid_segment (s : string) : bool :=
  negb (String.eqb s EmptyString) && PyStr.free_of "_" s.

(** The elements of a list without their repetitions, each at the place
    of its first occurrence. *)
Fixpoint first_occurrences (seen l : list string) : list string :=
  match l with
  | [] => []
  | x :: l' =>
      if existsb (String.eqb x) seen then first_occurrences seen l'
      else x :: first_occurrences (seen ++ [x])%list l'
  end.

(** The status tags of the per-name entries of a batch. *)
Definition batch_statuses : list string :=
  ["found"; "no_data"; "not_resolved"; "error"].

(** A per-name entry of a batch: a mapping with a status tag and, unless
    the status is [found], a message. *)
Definition entry_ok {F} (v : value F) : Prop :=
  exists entry status,
    v = VDict entry
    /\ dict_get "status" entry = Some (vstr status)
    /\ In status batch_statuses
    /\ (status <> "found" -> exists msg, dict_get "message" entry = Some (vstr msg)).

(** The ways one name of a batch can fail, as the collaborators' answers
    in the world [w] decide them, each with the entry the failure is to
    be recorded as: SIMBAD raises; SIMBAD does not know the name; the
    coordinates cannot be read; the TAP service cannot be reached; the
    search raises; the table answered has no [band_list] column. *)
Inductive item_failure {F W} {PF : PyFloat F} {C : Collaborators W F}
          (name : string) (radius_arcmin : F) (w : W) : dict F -> Prop :=
| SimbadRaises (e : string) (w1 : W) :
    Simbad_query_object name w = (Raise e, w1) ->
    item_failure name radius_arcmin w (error_entry e)
| SimbadUnknown (table : option (list (string * string))) (w1 : W) :
    Simbad_query_object name w = (Ok table, w1) ->
    table = None \/ table = Some [] ->
    item_failure name radius_arcmin w (not_resolved_entry name)
| CoordinatesUnreadable (ra_str dec_str : string) rows (w1 : W) (e : string) :
    Simbad_query_object name w = (Ok (Some ((ra_str, dec_str) :: rows)), w1) ->
    SkyCoord ra_str dec_str = Raise e ->
    item_failure name radius_arcmin w (error_entry e)
| ServiceRaises (ra_str dec_str : string) rows (w1 w2 : W) (coord : F * F) (e : string) :
    Simbad_query_object name w = (Ok (Some ((ra_str, dec_str) :: rows)), w1) ->
    SkyCoord ra_str dec_str = Ok coord ->
    TAPService tap_url w1 = (Raise e, w2) ->
    item_failure name radius_arcmin w (error_entry e)
| SearchRaises (ra_str dec_str : string) rows (w1 w2 w3 : W) (ra_deg dec_deg : F)
               (e : string) :
    Simbad_query_object name w = (Ok (Some ((ra_str, dec_str) :: rows)), w1) ->
    SkyCoord ra_str dec_str = Ok (ra_deg, dec_deg) ->
    TAPService tap_url w1 = (Ok tt, w2) ->
    service_search
      (batch_item_query ra_deg dec_deg (f_div radius_arcmin (f_lit 60 0))) w2
    = (Raise e, w3) ->
    item_failure name radius_arcmin w (error_entry e)
| BandsMissing (ra_str dec_str : string) rows (w1 w2 w3 : W) (ra_deg dec_deg : F)
               (df : DataFrame F) (e : string) :
    Simbad_query_object name w = (Ok (Some ((ra_str, dec_str) :: rows)), w1) ->
    SkyCoord ra_str dec_str = Ok (ra_deg, dec_deg) ->
    TAPService tap_url w1 = (Ok tt, w2) ->
    service_search
      (batch_item_query ra_deg dec_deg (f_div radius_arcmin (f_lit 60 0))) w2
    = (Ok df, w3) ->
    df_empty df = false ->
    df_column "band_list" df = Raise e ->
    item_failure name radius_arcmin w (error_entry e).

(** Every row of the table has one cell for each column. *)
Definition rectangular {F} (df : DataFrame F) : Prop :=
  Forall (fun cells => List.length cells = List.length (df_columns df)) (df_rows df).

(** The cells of a row under one label. *)
Definition cells_of {F} (col : string) (row : series F) : series F :=
  filter (fun cell => String.eqb col (fst cell)) row.

(** *** Classes of tools *)

(** The tools that talk to the TAP service and to nothing else; each
    opens with the test of [PYVO_AVAILABLE]. *)
Definition uses_only_tap {F} (op : operation F) : bool :=
  match op with
  | OpPosition _ _ _ _ | OpFrequency _ _ _ | OpResolution _ _ _ | OpTapQuery _ _
  | OpSourceName _ _ | OpBibliography _ _ _ _ | OpMemberOus _ | OpDataType _ _ _ _
  | OpScienceKeyword _ _ _ _ | OpAbstract _ _ | OpSensitivity _ _ _ _ => true
  | _ => false
  end.

(** The tools that list observations through [df.head(20)]. *)
Definition display_capped {F} (op : operation F) : bool :=
  match op with
  | OpTarget _ _ _ | OpPosition _ _ _ _ | OpProposal _ _ _ | OpFrequency _ _ _
  | OpResolution _ _ _ | OpSourceName _ _ | OpBibliography _ _ _ _
  | OpDataType _ _ _ _ | OpScienceKeyword _ _ _ _ | OpAbstract _ _
  | OpSensitivity _ _ _ _ => true
  | _ => false
  end.

(** The parameter checks a TAP-only tool makes before its [try] block. *)
Definition passes_validation {F} (op : operation F) : bool :=
  match op with
  | OpBibliography b j a y =>
      is_given (given_str b) || is_given (given_str j) || is_given (given_str a)
      || is_given (given_int y)
  | OpDataType d _ _ _ => is_cube_or_image d
  | _ => true
  end.

(** The text each [except] clause of a TAP-only tool puts before the
    message of the exception. *)
Definition failure_prefix {F} (op : operation F) : string :=
  match op with
  | OpPosition _ _ _ _ => "Position search failed: "
  | OpFrequency _ _ _ => "Frequency search failed: "
  | OpResolution _ _ _ => "Resolution search failed: "
  | OpTapQuery _ _ => "TAP query failed: "
  | OpSourceName _ _ => "Source name search failed: "
  | OpBibliography _ _ _ _ => "Bibliography search failed: "
  | OpMemberOus _ => "Member OUS search failed: "
  | OpDataType _ _ _ _ => "Data type search failed: "
  | OpScienceKeyword _ _ _ _ => "Science keyword search failed: "
  | OpAbstract _ _ => "Abstract search failed: "
  | OpSensitivity _ _ _ _ => "Sensitivity search failed: "
  | _ => EmptyString
  end.

(** The response of a TAP-only tool whose [try] block raised [e]. *)
Definition failure_response {F} (op : operation F) (e : string) : dict F :=
  if is_tap_query op
  then [("error", vstr (failure_prefix op ++ e)); ("hint", vstr tap_query_hint)]
  else error_response (failure_prefix op ++ e).

(** The calls to alminer in a log. *)
Fixpoint alminer_calls {F} (log : list (event F)) : nat :=
  match log with
  | [] => 0
  | EvConesearch _ _ _ _ :: log' => S (alminer_calls log')
  | EvKeysearch _ _ :: log' => S (alminer_calls log')
  | EvLineCoverage _ _ :: log' => S (alminer_calls log')
  | _ :: log' => alminer_calls log'
  end.

(** A character of the decimal notation of an integer. *)
Definition is_digit_or_minus (c : ascii) : bool :=
  let n := nat_of_ascii c in
  ((48 <=? n)%nat && (n <=? 57)%nat) || Ascii.eqb c "-".

Fixpoint all_chars (p : ascii -> bool) (s : string) : bool :=
  match s with
  | EmptyString => true
  | String c s' => p c && all_chars p s'
  end.

(** *** Readings of the specification's own words

    The definitions of this part are not taken from [server.py]: they
    spell out notions the specification uses, so that the code can be
    compared with them. *)

(** "Row cap clamped to [1, 1000]". *)
Definition spec_clamp_rows (max_rows : Z) : Z := Z.max 1 (Z.min max_rows 1000).

(** "Invalid discriminator falls back to continuum". *)
Definition spec_sens_column (sensitivity_type : string) : string :=
  if String.eqb sensitivity_type "line"
  then "sensitivity_10kms"
  else "cont_sensitivity_bandwidth".

(** The string literals of an ADQL text, read the way the query language
    reads them: a literal runs from one single quote to the next single
    quote that is not doubled, and a doubled quote inside it is one quote
    character.  [None] when a literal is left open. *)
Inductive spec_lexer_state : Type :=
| Outside
| Inside (acc : string)
| QuoteSeen (acc : string).

Fixpoint spec_scan (q : spec_lexer_state) (s : string) : option (list string) :=
  match s with
  | EmptyString =>
      match q with
      | Outside => Some []
      | Inside _ => None
      | QuoteSeen acc => Some [acc]
      end
  | String c s' =>
      let quote := Ascii.eqb c "'" in
      match q with
      | Outside => spec_scan (if quote then Inside EmptyString else Outside) s'
      | Inside acc =>
          spec_scan (if quote then QuoteSeen acc
                     else Inside (acc ++ String c EmptyString)) s'
      | QuoteSeen acc =>
          if quote then spec_scan (Inside (acc ++ "'")) s'
          else option_map (cons acc) (spec_scan Outside s')
      end
  end.

Definition spec_string_literals (query : string) : option (list string) :=
  spec_scan Outside query.

(* ===================================================================== *)
(** ** Runs on concrete inputs *)
(* ===================================================================== *)

Example lower_ex : PyStr.lower "Cube" = "cube".
Proof. reflexivity. Qed.

Example upper_strip_ex : PyStr.strip (PyStr.upper "  select 1 ") = "SELECT 1".
Proof. reflexivity. Qed.

Example of_Z_ex :
  PyStr.of_Z (-5) = "-5" /\ PyStr.of_Z 0 = "0" /\ PyStr.of_nat 120 = "120".
Proof. repeat split; reflexivity. Qed.

Example fixed_show_ex :
  f_repr (F := Z) (f_lit 1877059 (-4)) = "187.705900"
  /\ f_fmt4 (F := Z) (f_lit 123911 (-4)) = "12.3911"
  /\ f_repr (F := Z) (f_div (f_lit 10 (-1)) (f_lit 60 0)) = "0.016666".
Proof. repeat split; reflexivity. Qed.

(* ===================================================================== *)
(** ** Facts about the string functions *)
(* ===================================================================== *)

Module PyStrFacts.
Import PyStr.

Lemma append_assoc (a b c : string) : (a ++ b) ++ c = a ++ (b ++ c).
Proof. induction a as [|x a IH]; simpl; [reflexivity | now rewrite IH]. Qed.

Lemma append_empty_r (a : string) : a ++ EmptyString = a.
Proof. induction a as [|x a IH]; simpl; [reflexivity | now rewrite IH]. Qed.

Lemma map_chars_app (f : ascii -> ascii) (a b : string) :
  map_chars f (a ++ b) = map_chars f a ++ map_chars f b.
Proof. induction a as [|x a IH]; simpl; [reflexivity | now rewrite IH]. Qed.

Lemma free_of_cons (c d : ascii) (s : string) :
  free_of c (String d s) = true -> c <> d /\ free_of c s = true.
Proof.
  simpl. intros H. apply andb_prop in H as [H1 H2]. split; [|exact H2].
  intros ->. rewrite Ascii.eqb_refl in H1. discriminate.
Qed.

(** The head of a string decides whether a pattern that starts with
    another character can match there. *)
Lemma prefix_head_differs (a : ascii) (p : string) (c : ascii) (s : string) :
  a <> c -> String.prefix (String a p) (String c s) = false.
Proof. intros H. simpl. destruct (ascii_dec a c); [contradiction | reflexivity]. Qed.

Lemma prefix_head_same (a : ascii) (p s : string) :
  String.prefix (String a p) (String a s) = String.prefix p s.
Proof. simpl. destruct (ascii_dec a a); [reflexivity | contradiction]. Qed.

Lemma prefix_empty (s : string) : String.prefix EmptyString s = true.
Proof. destruct s; reflexivity. Qed.

(** *** [replace] with a one-character pattern is a character map *)

Lemma replace_char (old new : ascii) (s : string) :
  replace (String old EmptyString) (String new EmptyString) s
  = map_chars (swap_char old new) s.
Proof.
  unfold replace. induction s as [|c s IH]; [reflexivity|].
  cbn [replace_from map_chars String.length Nat.sub].
  unfold swap_char at 1. destruct (Ascii.eqb_spec old c) as [->|Hne].
  - rewrite prefix_head_same, prefix_empty. simpl. now rewrite IH.
  - rewrite prefix_head_differs by assumption. now rewrite IH.
Qed.

Lemma swap_free (old new : ascii) (s : string) :
  free_of old s = true -> map_chars (swap_char old new) s = s.
Proof.
  induction s as [|c s IH]; [reflexivity|].
  intros H. apply free_of_cons in H as [Hne Hs]. simpl.
  unfold swap_char at 1. destruct (Ascii.eqb_spec old c); [contradiction|].
  now rewrite IH.
Qed.

(** *** [replace] passes over text that cannot start an occurrence *)

Lemma replace_skip_free (a : ascii) (p new s t : string) :
  free_of a s = true ->
  replace (String a p) new (s ++ t) = s ++ replace (String a p) new t.
Proof.
  unfold replace. induction s as [|c s IH]; [reflexivity|].
  intros H. apply free_of_cons in H as [Hne Hs].
  cbn [append replace_from]. rewrite prefix_head_differs by assumption.
  now rewrite IH.
Qed.

Lemma replace_free (a : ascii) (p new s : string) :
  free_of a s = true -> replace (String a p) new s = s.
Proof.
  intros H. rewrite <- (append_empty_r s) at 1.
  rewrite replace_skip_free by assumption. unfold replace. simpl.
  apply append_empty_r.
Qed.

End PyStrFacts.

(* ===================================================================== *)
(** ** Identifier normalization (tool 11) *)
(* ===================================================================== *)

Section NormalizeUid.
Import PyStr PyStrFacts.

Lemma uid_segment_inv (s : string) :
  uid_segment s = true ->
  free_of "_" s = true /\ exists c s', s = String c s' /\ c <> "_"%char.
Proof.
  unfold uid_segment. intros H. apply andb_prop in H as [Hne Hfree].
  split; [exact Hfree|]. destruct s as [|c s']; [discriminate|].
  exists c, s'. split; [reflexivity|].
  apply free_of_cons in Hfree as [Hc _]. congruence.
Qed.

Lemma replace_triple_head (new rest : string) :
  replace "___" new ("___" ++ rest) = new ++ replace "___" new rest.
Proof.
  unfold replace. cbn [append replace_from].
  rewrite !prefix_head_same, prefix_empty. reflexivity.
Qed.

(** Underscore-separated segments contain no run of three underscores. *)
Lemma replace_triple_join (new : string) (segs : list string) :
  forallb uid_segment segs = true ->
  replace "___" new (join "_" segs) = join "_" segs.
Proof.
  induction segs as [|p ps IH]; [reflexivity|].
  intros H. cbn [forallb] in H. apply andb_prop in H as [Hp Hps].
  destruct ps as [|q ps'].
  - cbn [join]. apply replace_free. now apply uid_segment_inv in Hp.
  - change (join "_" (p :: q :: ps')) with (p ++ "_" ++ join "_" (q :: ps')).
    apply uid_segment_inv in Hp as [Hfree _].
    rewrite replace_skip_free by exact Hfree. f_equal.
    specialize (IH Hps).
    assert (Hq : exists c t, join "_" (q :: ps') = String c t /\ c <> "_"%char).
    { cbn [forallb] in Hps. apply andb_prop in Hps as [Hq _].
      apply uid_segment_inv in Hq as [_ (c & q' & -> & Hc)].
      destruct ps'; cbn [join append]; eauto. }
    destruct Hq as (c & t & Heq & Hc). rewrite Heq in IH |- *.
    unfold replace in *. cbn [append replace_from].
    rewrite prefix_head_same, prefix_head_differs by congruence.
    f_equal. exact IH.
Qed.

Lemma swap_join (segs : list string) :
  forallb uid_segment segs = true ->
  map_chars (swap_char "_" "/") (join "_" segs) = join "/" segs.
Proof.
  induction segs as [|p ps IH]; [reflexivity|].
  intros H. cbn [forallb] in H. apply andb_prop in H as [Hp Hps].
  apply uid_segment_inv in Hp as [Hfree _].
  destruct ps as [|q ps'].
  - cbn [join]. now apply swap_free.
  - change (join "_" (p :: q :: ps')) with (p ++ "_" ++ join "_" (q :: ps')).
    change (join "/" (p :: q :: ps')) with (p ++ "/" ++ join "/" (q :: ps')).
    rewrite !map_chars_app, swap_free by exact Hfree.
    now rewrite (IH Hps).
Qed.

Lemma normalize_uid_segments (scheme : string) (segs : list string) :
  free_of "_" scheme = true ->
  forallb uid_segment segs = true ->
  normalize_uid (scheme ++ "___" ++ join "_" segs)
  = scheme ++ "://" ++ join "/" segs.
Proof.
  intros Hs Hsegs. unfold normalize_uid.
  rewrite replace_skip_free by exact Hs.
  rewrite replace_triple_head, replace_triple_join by exact Hsegs.
  rewrite (replace_char "_" "/").
  rewrite !map_chars_app, swap_free by exact Hs.
  now rewrite swap_join.
Qed.

End NormalizeUid.

(* ===================================================================== *)
(** ** Running the tools symbolically *)
(* ===================================================================== *)

(** Unfold the monad, then split on every collaborator answer and every
    test the run depends on. *)
Ltac unfold_monad :=
  unfold call_simbad, call_conesearch, call_keysearch, call_line_coverage,
    call_TAPService, call_search in *;
  unfold bind, try_except, ret, lift_result, call, get_locals, put_locals,
    with_locals in *.

Ltac split_run :=
  repeat (cbv beta iota;
          match goal with
          | |- context [match ?x with _ => _ end] =>
              lazymatch x with
              | context [match _ with _ => _ end] => fail
              | _ => destruct x eqn:?
              end
          end);
  cbv beta iota.

Ltac close_run :=
  cbn [app fst snd raised_calls tap_queries simbad_calls no_tap_call] in *;
  try solve [ reflexivity | discriminate | congruence | tauto ].

Section BatchLoop.
Context {F : Type} {PF : PyFloat F} {W : Type} {C : Collaborators W F}
        {U : PyUnicode}.

(** One turn of the batch loop never raises. *)
Lemma batch_step_returns (source_name : string) (radius_arcmin : F)
      (st : state W (batch_locals F)) :
  exists st' log, batch_step source_name radius_arcmin st = (Ok tt, st', log).
Proof.
  unfold batch_step, batch_item, set_result, add_observations. unfold_monad.
  split_run; eauto.
Qed.

Lemma batch_loop_returns (source_names : list string) (radius_arcmin : F)
      (st : state W (batch_locals F)) :
  exists st' log, batch_loop source_names radius_arcmin st = (Ok tt, st', log).
Proof.
  revert st. induction source_names as [|name rest IH]; intros st.
  - cbn. unfold ret. eauto.
  - cbn [batch_loop]. unfold bind.
    destruct (batch_step_returns name radius_arcmin st) as (st1 & log1 & ->).
    destruct (IH st1) as (st2 & log2 & ->). eauto.
Qed.

End BatchLoop.

(* ===================================================================== *)
(** ** The operation boundary *)
(* ===================================================================== *)

Section Boundary.
Context {F : Type} {PF : PyFloat F} {W : Type} {C : Collaborators W F}
        {U : PyUnicode}.
Context {L : Type}.





End Boundary.

(* ===================================================================== *)
(** ** Target search: which backend runs (tool 1) *)
(* ===================================================================== *)

Section TargetSearch.
Context {F : Type} {PF : PyFloat F} {W : Type} {C : Collaborators W F}
        {U : PyUnicode}.
Context {L : Type}.

Lemma no_tap_call_app (l1 l2 : list (event F)) :
  no_tap_call (l1 ++ l2) = no_tap_call l1 && no_tap_call l2.
Proof.
  induction l1 as [|ev l1 IH]; [reflexivity|].
  destruct ev; cbn [app no_tap_call]; auto.
Qed.

(** Resolving a name talks to SIMBAD only. *)
Lemma resolve_target_no_tap (target_name : string) (st : state W L) :
  no_tap_call (log_of (resolve_target target_name st)) = true.
Proof.
  unfold resolve_target. unfold_monad. split_run; reflexivity.
Qed.

(** The cone-search branch talks to alminer only. *)
Lemma target_conesearch_no_tap target_name ra dec r p (st : state W L) :
  no_tap_call (log_of (target_conesearch target_name ra dec r p st)) = true.
Proof.
  unfold target_conesearch. unfold_monad. split_run; reflexivity.
Qed.

(** After a successful resolution the tool is its second half, run from
    the state the resolution left. *)
Lemma target_after_resolve
  (target_name : string) (radius_arcmin : F) (public_only : bool)
  (st st1 : state W L) (ra_deg dec_deg : F) (log1 : list (event F)) :
  SIMBAD_AVAILABLE = true ->
  resolve_target target_name st = (Ok (inr (ra_deg, dec_deg)), st1, log1) ->
  let second :=
    (if ALMINER_AVAILABLE then
       try_except
         (target_conesearch target_name ra_deg dec_deg radius_arcmin public_only)
         (fun e => ret (error_response ("ALMA search failed: " ++ e)))
     else search_alma_by_position ra_deg dec_deg radius_arcmin public_only) st1 in
  search_alma_by_target target_name radius_arcmin public_only st
  = (response_of second, state_of second, log1 ++ log_of second)%list.
Proof.
  intros Hsimbad Hres second. subst second.
  unfold search_alma_by_target. rewrite Hsimbad. cbn [negb].
  unfold bind. rewrite Hres.
  match goal with |- context [(if _ then ?a else ?b) st1] =>
    destruct ((if ALMINER_AVAILABLE then a else b) st1) as [[r s] l] end.
  reflexivity.
Qed.

(** C2 (as amended).  Once the name is resolved, the target search runs
    exactly one backend.  Without alminer it is the TAP position search,
    whose response is returned as it is.  With alminer it is the cone
    search: the TAP service is not called at all, and a cone search that
    raises ends the tool with the response
    [{"error": "ALMA search failed: ..."}]. *)
Theorem C2_target_backend_choice
  (target_name : string) (radius_arcmin : F) (public_only : bool)
  (st st1 : state W L) (ra_deg dec_deg : F) (log1 : list (event F)) :
  SIMBAD_AVAILABLE = true ->
  resolve_target target_name st = (Ok (inr (ra_deg, dec_deg)), st1, log1) ->
  (ALMINER_AVAILABLE = false ->
   let fallback := search_alma_by_position ra_deg dec_deg radius_arcmin public_only st1 in
   search_alma_by_target target_name radius_arcmin public_only st
   = (response_of fallback, state_of fallback, log1 ++ log_of fallback)%list)
  /\ (ALMINER_AVAILABLE = true ->
      no_tap_call (log_of (search_alma_by_target target_name radius_arcmin public_only st))
      = true
      /\ forall e w',
          alminer_conesearch ra_deg dec_deg (f_div radius_arcmin (f_lit 60 0))
                             public_only (st_world st1) = (Raise e, w') ->
          search_alma_by_target target_name radius_arcmin public_only st
          = (Ok (error_response ("ALMA search failed: " ++ e)),
             mkState w' (st_locals st1),
             log1 ++ [EvConesearch ra_deg dec_deg (f_div radius_arcmin (f_lit 60 0))
                                   public_only;
                      EvRaised e])%list).
Proof.
  intros Hsimbad Hres.
  pose proof (resolve_target_no_tap target_name st) as Hlog1.
  rewrite Hres in Hlog1. cbn in Hlog1.
  pose proof (target_after_resolve target_name radius_arcmin public_only st st1
                ra_deg dec_deg log1 Hsimbad Hres) as Hrun.
  cbv zeta in Hrun. rewrite Hrun. clear Hrun.
  split; intros Halminer; rewrite Halminer.
  - reflexivity.
  - split.
    + pose proof (target_conesearch_no_tap target_name ra_deg dec_deg radius_arcmin
                    public_only st1) as Hcone.
      unfold log_of at 1. cbn [snd]. rewrite no_tap_call_app, Hlog1. cbn [andb].
      unfold try_except, ret.
      destruct (target_conesearch _ _ _ _ _ st1) as [[[d|e] s] l];
        cbn in Hcone |- *; rewrite ?no_tap_call_app, Hcone; reflexivity.
    + intros e w' Hraise. unfold try_except, target_conesearch. unfold_monad.
      rewrite Hraise. reflexivity.
Qed.

End TargetSearch.

(* ===================================================================== *)
(** ** What the query tools send (tools 8, 9, 11, 12, 13, 15) *)
(* ===================================================================== *)

Section QueryTools.
Context {F : Type} {PF : PyFloat F} {W : Type} {C : Collaborators W F}
        {U : PyUnicode}.
Context {L : Type}.
Import PyStr PyStrFacts.

(** A tool that sends the one query [query]. *)
Ltac sends_one_query :=
  unfold_monad; split_run; cbn [log_of snd app tap_queries In];
  intros; intuition congruence.

Lemma member_ous_sends (member_ous_id : string) (st : state W L) (q : string) :
  In q (tap_queries (log_of (search_alma_by_member_ous member_ous_id st))) ->
  q = member_ous_query (normalize_uid member_ous_id).
Proof. unfold search_alma_by_member_ous. sends_one_query. Qed.

Lemma sensitivity_sends max_sensitivity_mjy sensitivity_type target_name band
      (st : state W L) (q : string) :
  In q (tap_queries (log_of (search_alma_by_sensitivity max_sensitivity_mjy
                               sensitivity_type target_name band st))) ->
  q = sensitivity_full_query max_sensitivity_mjy sensitivity_type target_name band.
Proof. unfold search_alma_by_sensitivity. sends_one_query. Qed.

Lemma tap_query_sends sql_query max_rows (st : state W L) (q : string) :
  In q (tap_queries (log_of (run_alma_tap_query sql_query max_rows st))) ->
  q = add_top_clause sql_query (limit_max_rows max_rows).
Proof. unfold run_alma_tap_query. sends_one_query. Qed.

Lemma source_name_sends source_name exact_match (st : state W L) (q : string) :
  In q (tap_queries (log_of (search_alma_by_source_name source_name exact_match st))) ->
  q = source_name_query source_name exact_match.
Proof. unfold search_alma_by_source_name. sends_one_query. Qed.

Lemma frequency_sends lo hi target_name (st : state W L) (q : string) :
  In q (tap_queries (log_of (search_alma_by_frequency lo hi target_name st))) ->
  q = frequency_full_query lo hi target_name.
Proof. unfold search_alma_by_frequency. sends_one_query. Qed.

Lemma resolution_sends hi lo target_name (st : state W L) (q : string) :
  In q (tap_queries (log_of (search_alma_by_resolution hi lo target_name st))) ->
  q = resolution_full_query hi lo target_name.
Proof. unfold search_alma_by_resolution. sends_one_query. Qed.

Lemma proposal_sends proposal_id pi_name science_category (st : state W L) (q : string) :
  In q (tap_queries
          (log_of (search_alma_by_proposal proposal_id pi_name science_category st))) ->
  q = proposal_query (proposal_where_clause proposal_id pi_name).
Proof. unfold search_alma_by_proposal, proposal_alminer. sends_one_query. Qed.

Lemma bibliography_sends bibcode journal_name first_author publication_year
      (st : state W L) (q : string) :
  In q (tap_queries
          (log_of (search_alma_by_bibliography bibcode journal_name first_author
                     publication_year st))) ->
  q = bibliography_query
        (join " AND "
           (bibliography_conditions bibcode journal_name first_author publication_year)).
Proof. unfold search_alma_by_bibliography. sends_one_query. Qed.

Lemma data_type_sends data_type target_name science_keyword band
      (st : state W L) (q : string) :
  In q (tap_queries
          (log_of (search_alma_by_data_type data_type target_name science_keyword
                     band st))) ->
  q = data_type_query
        (join " AND " (data_type_conditions data_type target_name science_keyword band)).
Proof. unfold search_alma_by_data_type. sends_one_query. Qed.

Lemma science_keyword_sends science_keyword data_type band science_observation_only
      (st : state W L) (q : string) :
  In q (tap_queries
          (log_of (search_alma_by_science_keyword science_keyword data_type band
                     science_observation_only st))) ->
  q = science_keyword_query
        (join " AND " (science_keyword_conditions science_keyword data_type band
                         science_observation_only)).
Proof. unfold search_alma_by_science_keyword. sends_one_query. Qed.

Lemma abstract_sends search_terms search_pub_abstract (st : state W L) (q : string) :
  In q (tap_queries
          (log_of (search_alma_by_abstract search_terms search_pub_abstract st))) ->
  q = abstract_query (abstract_condition search_terms search_pub_abstract).
Proof. unfold search_alma_by_abstract. sends_one_query. Qed.

(** With the TAP library installed and the service reached, the
    member-OUS search sends exactly one query: the one on the normalized
    identifier. *)
Lemma member_ous_sends_exactly (member_ous_id : string) (st : state W L) (w1 : W) :
  PYVO_AVAILABLE = true ->
  TAPService tap_url (st_world st) = (Ok tt, w1) ->
  tap_queries (log_of (search_alma_by_member_ous member_ous_id st))
  = [member_ous_query (normalize_uid member_ous_id)].
Proof.
  intros Hpyvo Hservice. unfold search_alma_by_member_ous.
  rewrite Hpyvo. cbn [negb]. unfold_monad. rewrite Hservice.
  split_run; reflexivity.
Qed.

(** A response of the member-OUS search that is not an error names the
    normalized identifier. *)
Lemma member_ous_reports (member_ous_id : string) (st st' : state W L)
      (d : dict F) (log : list (event F)) :
  search_alma_by_member_ous member_ous_id st = (Ok d, st', log) ->
  has_key "error" d = false ->
  dict_get "member_ous_id" d = Some (vstr (normalize_uid member_ous_id)).
Proof.
  unfold search_alma_by_member_ous. unfold_monad. split_run;
    intros H Herr; inversion H; subst; clear H;
    solve [ reflexivity | discriminate Herr ].
Qed.

(** The identifier is the right-hand side of an equality on
    [member_ous_uid]. *)
Lemma member_ous_query_shape :
  exists pre post : string,
    forall uid, member_ous_query uid = pre ++ "member_ous_uid = '" ++ uid ++ "'" ++ post.
Proof.
  exists (take 59 (member_ous_query EmptyString)),
         (drop 78 (member_ous_query EmptyString)).
  reflexivity.
Qed.

(** C5.  A dataset identifier in the underscore form, that is a scheme
    free of underscores, three underscores, and non-empty segments free
    of underscores joined by single underscores, is rewritten to the
    scheme, [://], and the segments joined by [/], before it is used: the
    member-OUS search sends no query but the one that compares
    [member_ous_uid] with the rewritten identifier; with the TAP library
    installed and the service reached it does send that query, once; the
    query is an equality of [member_ous_uid] with the identifier between
    quotes; and a response that is not an error names the rewritten
    identifier.  In particular [uid___A001_X123_X456] becomes
    [uid://A001/X123/X456]. *)
Theorem C5_uid_normalized_before_use (scheme : string) (segs : list string) :
  free_of "_" scheme = true ->
  forallb uid_segment segs = true ->
  normalize_uid (scheme ++ "___" ++ join "_" segs) = scheme ++ "://" ++ join "/" segs
  /\ (forall (st : state W L) (q : string),
        In q (tap_queries
                (log_of (search_alma_by_member_ous
                           (scheme ++ "___" ++ join "_" segs) st))) ->
        q = member_ous_query (scheme ++ "://" ++ join "/" segs))
  /\ (forall (st : state W L) (w1 : W),
        PYVO_AVAILABLE = true ->
        TAPService tap_url (st_world st) = (Ok tt, w1) ->
        tap_queries
          (log_of (search_alma_by_member_ous (scheme ++ "___" ++ join "_" segs) st))
        = [member_ous_query (scheme ++ "://" ++ join "/" segs)])
  /\ (exists pre post : string,
        forall uid,
          member_ous_query uid = pre ++ "member_ous_uid = '" ++ uid ++ "'" ++ post)
  /\ (forall (st st' : state W L) (d : dict F) (log : list (event F)),
        search_alma_by_member_ous (scheme ++ "___" ++ join "_" segs) st
        = (Ok d, st', log) ->
        has_key "error" d = false ->
        dict_get "member_ous_id" d
        = Some (vstr (scheme ++ "://" ++ join "/" segs)))
  /\ normalize_uid "uid___A001_X123_X456" = "uid://A001/X123/X456".
Proof.
  intros Hscheme Hsegs.
  pose proof (normalize_uid_segments scheme segs Hscheme Hsegs) as Hnorm.
  split; [exact Hnorm|]. split; [|split; [|split; [|split]]].
  - intros st q Hq. apply member_ous_sends in Hq. now rewrite Hnorm in Hq.
  - intros st w1 Hpyvo Hservice.
    now rewrite (member_ous_sends_exactly _ st w1 Hpyvo Hservice), Hnorm.
  - exact member_ous_query_shape.
  - intros st st' d log Hrun Herr.
    now rewrite (member_ous_reports _ _ _ _ _ Hrun Herr), Hnorm.
  - reflexivity.
Qed.

(** C3 (as amended).  The sensitivity search compares the lower-cased
    [sensitivity_type] with [continuum]: when they are equal the column
    is [cont_sensitivity_bandwidth], and in every other case, [line]
    included, it is [sensitivity_10kms].  The query the tool sends
    filters on, selects and orders by that column. *)
Theorem C3_sensitivity_column (sensitivity_type : string) :
  (lower sensitivity_type = "continuum" ->
   sens_column sensitivity_type = "cont_sensitivity_bandwidth")
  /\ (lower sensitivity_type <> "continuum" ->
      sens_column sensitivity_type = "sensitivity_10kms")
  /\ sens_column "continuum" = "cont_sensitivity_bandwidth"
  /\ sens_column "line" = "sensitivity_10kms"
  /\ (forall (max_sensitivity_mjy : F) target_name band (st : state W L) (q : string),
        In q (tap_queries (log_of (search_alma_by_sensitivity max_sensitivity_mjy
                                     sensitivity_type target_name band st))) ->
        q = sensitivity_query (sens_column sensitivity_type)
              (join " AND " (sensitivity_conditions max_sensitivity_mjy
                               sensitivity_type target_name band))).
Proof.
  unfold sens_column. repeat split.
  - intros ->. reflexivity.
  - intros H. destruct (String.eqb_spec (lower sensitivity_type) "continuum");
      [contradiction | reflexivity].
  - intros m t b st q Hq. now apply sensitivity_sends in Hq.
Qed.

Lemma rmap_length {A B} (f : A -> result B) (l : list A) (bs : list B) :
  rmap f l = Ok bs -> List.length bs = List.length l.
Proof.
  revert bs. induction l as [|a l IH]; intros bs H.
  - inversion H. reflexivity.
  - cbn [rmap] in H. unfold rbind in H.
    destruct (f a); [|discriminate]. destruct (rmap f l); [|discriminate].
    inversion H. cbn [List.length]. now rewrite (IH _ eq_refl).
Qed.

Lemma df_head_length (n : Z) (df : DataFrame F) :
  (0 <= n)%Z -> (Z.of_nat (List.length (df_head n df)) <= n)%Z.
Proof.
  intros Hn. unfold df_head. destruct (Z.leb_spec 0 n); [|lia].
  rewrite length_firstn. lia.
Qed.

(** The rows of a raw-query response are at most the cap. *)
Lemma tap_query_rows sql_query max_rows (st st' : state W L) d log rows :
  run_alma_tap_query sql_query max_rows st = (Ok d, st', log) ->
  dict_get "rows" d = Some (VList rows) ->
  (0 <= limit_max_rows max_rows)%Z ->
  (Z.of_nat (List.length rows) <= limit_max_rows max_rows)%Z.
Proof.
  unfold run_alma_tap_query. unfold_monad. split_run;
    intros H Hrows Hcap; inversion H; subst; clear H;
    cbn [dict_get String.eqb Ascii.eqb Bool.eqb] in Hrows;
    try discriminate; inversion Hrows; subst; clear Hrows.
  - exact Hcap.
  - match goal with
    | H : rmap _ _ = Ok _ |- _ => apply rmap_length in H; rewrite H
    end.
    now apply df_head_length.
Qed.

(** White space cannot start the keyword. *)
Lemma all_space_free_of_S (ws : string) : all_space ws = true -> free_of "S" ws = true.
Proof.
  induction ws as [|c ws IH]; [reflexivity|].
  cbn [all_space free_of]. intros H. apply andb_prop in H as [Hc Hws].
  rewrite (IH Hws), andb_true_r.
  destruct (Ascii.eqb_spec "S" c) as [<-|]; [discriminate Hc | reflexivity].
Qed.

(** The first occurrence of the keyword is the one that no [S] comes
    before. *)
Lemma replace_first_after (new pre rest : string) :
  free_of "S" pre = true ->
  replace_first "SELECT" new (pre ++ "SELECT" ++ rest) = pre ++ new ++ rest.
Proof.
  induction pre as [|c pre IH]; intros H.
  - cbn [append replace_first]. rewrite !prefix_head_same, prefix_empty. reflexivity.
  - apply free_of_cons in H as [Hc Hpre].
    change (String c pre ++ "SELECT" ++ rest) with (String c (pre ++ "SELECT" ++ rest)).
    cbn [replace_first].
    rewrite prefix_head_differs by exact Hc.
    rewrite (IH Hpre). reflexivity.
Qed.

Lemma upper_char_ascii (c : ascii) :
  (nat_of_ascii c <? 128)%nat = true -> (nat_of_ascii (upper_char c) <? 128)%nat = true.
Proof.
  intros H. unfold upper_char. destruct (is_lower_char c); [|exact H].
  apply Nat.ltb_lt in H. apply Nat.ltb_lt.
  rewrite nat_ascii_embedding; lia.
Qed.

Lemma upper_is_ascii (s : string) : is_ascii s = true -> is_ascii (upper s) = true.
Proof.
  unfold upper. induction s as [|c s IH]; [reflexivity|].
  cbn [is_ascii map_chars]. intros H. apply andb_prop in H as [Hc Hs].
  now rewrite (upper_char_ascii c Hc), (IH Hs).
Qed.

(** On ASCII text the guard is computed: Python's Unicode database has
    no say in it. *)
Lemma wants_top_ascii (sql_query : string) :
  is_ascii sql_query = true ->
  wants_top sql_query
  = (let sql_upper := strip (upper sql_query) in
     negb (contains "TOP" sql_upper) && startswith "SELECT" sql_upper
     && negb (contains "COUNT" sql_upper)).
Proof.
  intros H. unfold wants_top, str_upper, str_strip.
  now rewrite H, (upper_is_ascii _ H).
Qed.

(** C4 (as amended).  The row cap of the raw-query tool is the smaller of
    [max_rows] and 1000, with 100 for a [max_rows] left out; nothing
    bounds it from below.  The tool sends no query but the text it was
    given with the cap put in.  The guard of the insertion looks at
    [sql_query.upper().strip()]: it asks for [SELECT] at the start and
    for no [TOP] and no [COUNT] anywhere, and on ASCII text it is
    computed without recourse to Python's Unicode tables.  When the
    guard holds and the text begins with the upper-case keyword [SELECT],
    after white space or after any text without the letter [S], that
    keyword becomes [SELECT TOP cap]; when the guard fails the text is
    sent unchanged.  A cap that is not negative also bounds the number of
    rows in the response. *)
Theorem C4_row_cap (sql_query : string) (max_rows : Z) :
  ((max_rows <= 1000)%Z -> limit_max_rows max_rows = max_rows)
  /\ ((1000 < max_rows)%Z -> limit_max_rows max_rows = 1000%Z)
  /\ (forall st : state W L,
        run (OpTapQuery sql_query None) st = run_alma_tap_query sql_query 100 st)
  /\ (forall (st : state W L) (q : string),
        In q (tap_queries (log_of (run_alma_tap_query sql_query max_rows st))) ->
        q = add_top_clause sql_query (limit_max_rows max_rows))
  /\ (is_ascii sql_query = true ->
      wants_top sql_query
      = (let sql_upper := strip (upper sql_query) in
         negb (contains "TOP" sql_upper) && startswith "SELECT" sql_upper
         && negb (contains "COUNT" sql_upper)))
  /\ (forall ws rest : string,
        wants_top sql_query = true ->
        all_space ws = true ->
        sql_query = ws ++ "SELECT" ++ rest ->
        add_top_clause sql_query (limit_max_rows max_rows)
        = ws ++ "SELECT TOP " ++ of_Z (limit_max_rows max_rows) ++ rest)
  /\ (forall pre rest : string,
        wants_top sql_query = true ->
        free_of "S" pre = true ->
        sql_query = pre ++ "SELECT" ++ rest ->
        add_top_clause sql_query (limit_max_rows max_rows)
        = pre ++ "SELECT TOP " ++ of_Z (limit_max_rows max_rows) ++ rest)
  /\ (wants_top sql_query = false ->
      add_top_clause sql_query (limit_max_rows max_rows) = sql_query)
  /\ (forall (st st' : state W L) d log rows,
        run_alma_tap_query sql_query max_rows st = (Ok d, st', log) ->
        dict_get "rows" d = Some (VList rows) ->
        (0 <= limit_max_rows max_rows)%Z ->
        (Z.of_nat (List.length rows) <= limit_max_rows max_rows)%Z).
Proof.
  repeat split.
  - unfold limit_max_rows. lia.
  - unfold limit_max_rows. lia.
  - intros st q Hq. now apply tap_query_sends in Hq.
  - apply wants_top_ascii.
  - intros ws rest Hguard Hws ->. unfold add_top_clause. rewrite Hguard.
    rewrite replace_first_after by now apply all_space_free_of_S.
    now rewrite append_assoc.
  - intros pre rest Hguard Hpre ->. unfold add_top_clause. rewrite Hguard.
    rewrite replace_first_after by exact Hpre.
    now rewrite append_assoc.
  - intros Hguard. unfold add_top_clause. now rewrite Hguard.
  - intros st st' d log rows. apply tap_query_rows.
Qed.

(** C9 (as amended).  A [data_type] whose lower-cased form is neither
    [cube] nor [image] makes the data-type search return an error
    response without calling any collaborator.  The science-keyword
    search does not reject such a value: it leaves the filter out and
    runs exactly as it does when no [data_type] is given. *)
Theorem C9_data_type_outside_vocabulary (data_type : string) :
  is_cube_or_image data_type = false ->
  (forall target_name science_keyword band (st : state W L),
      exists msg,
        search_alma_by_data_type data_type target_name science_keyword band st
        = (Ok (error_response msg), st, []))
  /\ (forall science_keyword band science_observation_only (st : state W L),
        search_alma_by_science_keyword science_keyword (Some data_type) band
          science_observation_only st
        = search_alma_by_science_keyword science_keyword None band
            science_observation_only st).
Proof.
  intros Hbad. split.
  - intros t k b st. unfold search_alma_by_data_type. rewrite Hbad.
    destruct PYVO_AVAILABLE; cbn [negb]; unfold ret; eauto.
  - intros k b s st. unfold search_alma_by_science_keyword.
    assert (Hcond : science_keyword_conditions k (Some data_type) b s
                    = science_keyword_conditions k None b s).
    { unfold science_keyword_conditions, accepted_data_type, given_str.
      destruct (String.eqb data_type EmptyString); [reflexivity|].
      now rewrite Hbad. }
    now rewrite Hcond.
Qed.

End QueryTools.

(* ===================================================================== *)
(** ** Interpolated values (tools 3 and 9) *)
(* ===================================================================== *)

Section Interpolation.
Context {F : Type} {PF : PyFloat F} {W : Type} {C : Collaborators W F}
        {U : PyUnicode}.
Context {L : Type}.
Import PyStr PyStrFacts.

Lemma not_quote (c : ascii) (s : string) :
  free_of "'" (String c s) = true -> Ascii.eqb c "'" = false /\ free_of "'" s = true.
Proof.
  intros H. apply free_of_cons in H as [Hne Hs]. split; [|exact Hs].
  destruct (Ascii.eqb_spec c "'"); congruence.
Qed.

Lemma scan_outside_free (s t : string) :
  free_of "'" s = true -> spec_scan Outside (s ++ t) = spec_scan Outside t.
Proof.
  induction s as [|c s IH]; [reflexivity|].
  intros H. apply not_quote in H as [Hc Hs].
  cbn [append spec_scan]. rewrite Hc. now apply IH.
Qed.

Lemma scan_outside_free_all (s : string) :
  free_of "'" s = true -> spec_scan Outside s = Some [].
Proof.
  intros H. rewrite <- (append_empty_r s). now rewrite scan_outside_free.
Qed.

Lemma scan_inside_free (acc s t : string) :
  free_of "'" s = true ->
  spec_scan (Inside acc) (s ++ t) = spec_scan (Inside (acc ++ s)) t.
Proof.
  revert acc. induction s as [|c s IH]; intros acc H.
  - now rewrite append_empty_r.
  - apply not_quote in H as [Hc Hs].
    cbn [append spec_scan]. rewrite Hc, (IH _ Hs), append_assoc. reflexivity.
Qed.

Lemma scan_quote_seen_free (acc s : string) :
  free_of "'" s = true -> spec_scan (QuoteSeen acc) s = Some [acc].
Proof.
  destruct s as [|c s]; [reflexivity|].
  intros H. apply not_quote in H as [Hc Hs].
  cbn [spec_scan]. rewrite Hc, (scan_outside_free_all _ Hs). reflexivity.
Qed.

(** A quoted value that holds no quote is read as one literal. *)
Lemma scan_quoted (pre v post : string) :
  free_of "'" pre = true -> free_of "'" v = true -> free_of "'" post = true ->
  spec_string_literals (pre ++ "'" ++ v ++ "'" ++ post) = Some [v].
Proof.
  intros Hpre Hv Hpost. unfold spec_string_literals.
  rewrite scan_outside_free by exact Hpre.
  cbn [append spec_scan Ascii.eqb Bool.eqb].
  rewrite scan_inside_free by exact Hv.
  cbn [append spec_scan Ascii.eqb Bool.eqb].
  now apply scan_quote_seen_free.
Qed.

(** The texts around the value in the two source-name queries. *)
Lemma source_name_query_shape :
  exists pre post pre' post' : string,
    (free_of "'" pre = true /\ free_of "'" post = true)
    /\ (free_of "'" pre' = true /\ free_of "'" post' = true)
    /\ (forall source_name,
          source_name_query source_name true
          = pre ++ "'" ++ source_name ++ "'" ++ post)
    /\ (forall source_name,
          source_name_query source_name false
          = pre' ++ "'%" ++ source_name ++ "%'" ++ post').
Proof.
  exists (take 226 (source_name_exact_query EmptyString)),
         (drop 228 (source_name_exact_query EmptyString)),
         (take 242 (source_name_like_query EmptyString)),
         (drop 246 (source_name_like_query EmptyString)).
  repeat split.
Qed.

Lemma given_str_nonempty (s : string) :
  s <> EmptyString -> given_str (Some s) = Some s.
Proof.
  intros H. unfold given_str. destruct (String.eqb_spec s EmptyString);
    [contradiction | reflexivity].
Qed.

Lemma free_of_app (c : ascii) (a b : string) :
  free_of c (a ++ b) = free_of c a && free_of c b.
Proof.
  induction a as [|x a IH]; [reflexivity|].
  cbn [append free_of]. now rewrite IH, andb_assoc.
Qed.

(** A substring match on a value that holds no quote is read as one
    literal: the value between the two [%] signs. *)
Lemma scan_like (pre v post : string) :
  free_of "'" pre = true -> free_of "'" v = true -> free_of "'" post = true ->
  spec_string_literals (pre ++ "'%" ++ v ++ "%'" ++ post) = Some ["%" ++ v ++ "%"].
Proof.
  intros Hpre Hv Hpost.
  change (pre ++ "'%" ++ v ++ "%'" ++ post)
    with (pre ++ "'" ++ ("%" ++ (v ++ "%'" ++ post))).
  replace ("%" ++ (v ++ "%'" ++ post)) with (("%" ++ v ++ "%") ++ "'" ++ post).
  - apply scan_quoted; [exact Hpre | | exact Hpost].
    change ("%" ++ v ++ "%") with ("%" ++ (v ++ "%")).
    rewrite !free_of_app, Hv. reflexivity.
  - cbn [append]. f_equal. now rewrite append_assoc.
Qed.

Lemma append_if_new {A} (a : A) (c : A -> string) (l : list string) (x : string) :
  x = c a -> In x (append_if (Some a) c l).
Proof. intros ->. cbn [append_if]. apply in_or_app. right. now left. Qed.

Lemma append_if_old {A} (o : option A) (c : A -> string) (l : list string) (x : string) :
  In x l -> In x (append_if o c l).
Proof. intros H. destruct o; cbn [append_if]; [apply in_or_app; now left | exact H]. Qed.

(** The texts around the search terms when both abstracts are searched. *)
Lemma abstract_condition_shape :
  exists pre mid post : string,
    (free_of "'" pre = true /\ free_of "'" mid = true /\ free_of "'" post = true)
    /\ forall search_terms,
        abstract_condition search_terms true
        = pre ++ "'%" ++ search_terms ++ "%'" ++ mid
              ++ "'%" ++ search_terms ++ "%'" ++ post.
Proof.
  exists (take 54 (abstract_condition_both EmptyString)),
         (take 53 (drop 58 (abstract_condition_both EmptyString))),
         (drop 115 (abstract_condition_both EmptyString)).
  repeat split.
Qed.

(** A validated data type enters the query as one of two fixed words. *)
Lemma data_type_condition_fixed (data_type : string) :
  is_cube_or_image data_type = true ->
  data_type_condition data_type = "dataproduct_type = 'cube'"
  \/ data_type_condition data_type = "dataproduct_type = 'image'".
Proof.
  unfold is_cube_or_image, data_type_condition. intros H.
  apply orb_prop in H as [H | H]; apply String.eqb_eq in H; rewrite H; auto.
Qed.

(** C10 (as amended).  No escaping function stands between a
    user-supplied string and the text of a query: the value is put
    between the quotes as it is.  This holds of every string argument
    that reaches a query: [source_name] (equality, or substring match
    between [%] signs), [proposal_id] and [pi_name], [target_name] in the
    frequency, resolution, data-type and sensitivity searches, [bibcode],
    [journal_name] and [first_author], [science_keyword] in the
    science-keyword and data-type searches, and [search_terms] in one or
    in both abstracts.  Two arguments are changed on their way, and not
    by an escaping function either: [member_ous_id] is normalized and
    then put between the quotes, and [data_type], once validated, enters
    lower-cased as one of the two words [cube] and [image].  The tools
    send no query but the texts so built.  A value that
    holds no single quote is therefore read back as one string literal,
    the value itself or the value between the [%] signs; nothing of the
    kind is promised for a value that holds one. *)
Theorem C10_values_interpolated_verbatim :
  (exists pre post pre' post' : string,
      (free_of "'" pre = true /\ free_of "'" post = true)
      /\ (free_of "'" pre' = true /\ free_of "'" post' = true)
      /\ (forall source_name,
            source_name_query source_name true
            = pre ++ "'" ++ source_name ++ "'" ++ post)
      /\ (forall source_name,
            source_name_query source_name false
            = pre' ++ "'%" ++ source_name ++ "%'" ++ post'))
  /\ (forall proposal_id pi_name : string,
        proposal_id <> EmptyString -> pi_name <> EmptyString ->
        proposal_where_clause (Some proposal_id) (Some pi_name)
        = "proposal_id LIKE '%" ++ proposal_id
          ++ "%' AND LOWER(obs_creator_name) LIKE LOWER('%" ++ pi_name ++ "%')")
  /\ (forall source_name : string,
        free_of "'" source_name = true ->
        spec_string_literals (source_name_query source_name true)
        = Some [source_name]
        /\ spec_string_literals (source_name_query source_name false)
           = Some ["%" ++ source_name ++ "%"])
  /\ (forall source_name exact_match (st : state W L) (q : string),
        In q (tap_queries
                (log_of (search_alma_by_source_name source_name exact_match st))) ->
        q = source_name_query source_name exact_match)
  /\ (forall (lo hi : F) (target_name : string),
        target_name <> EmptyString ->
        frequency_full_query lo hi (Some target_name)
        = (frequency_query lo hi
           ++ " AND LOWER(target_name) LIKE LOWER('%" ++ target_name ++ "%')")
          ++ " ORDER BY frequency")
  /\ (forall (hi lo : F) (target_name : string),
        target_name <> EmptyString ->
        resolution_full_query hi lo (Some target_name)
        = (resolution_query (f_div hi (f_lit 3600 0)) (f_div lo (f_lit 3600 0))
           ++ " AND LOWER(target_name) LIKE LOWER('%" ++ target_name ++ "%')")
          ++ " ORDER BY s_resolution")
  /\ (forall (v : string) (o1 o2 : option string) (year : option Z),
        v <> EmptyString ->
        In ("bib_reference LIKE '%" ++ v ++ "%'")
           (bibliography_conditions (Some v) o1 o2 year)
        /\ In ("bib_reference LIKE '%" ++ v ++ "%'")
              (bibliography_conditions o1 (Some v) o2 year)
        /\ In ("LOWER(first_author) LIKE LOWER('%" ++ v ++ "%')")
              (bibliography_conditions o1 o2 (Some v) year))
  /\ (forall (v data_type : string) (o : option string) (band : option Z),
        v <> EmptyString ->
        In ("LOWER(target_name) LIKE LOWER('%" ++ v ++ "%')")
           (data_type_conditions data_type (Some v) o band)
        /\ In ("LOWER(science_keyword) LIKE LOWER('%" ++ v ++ "%')")
              (data_type_conditions data_type o (Some v) band))
  /\ (forall (science_keyword : string) (data_type : option string) (band : option Z)
             (science_observation_only : bool),
        In ("LOWER(science_keyword) LIKE LOWER('%" ++ science_keyword ++ "%')")
           (science_keyword_conditions science_keyword data_type band
              science_observation_only))
  /\ (forall (max_sensitivity_mjy : F) (sensitivity_type v : string) (band : option Z),
        v <> EmptyString ->
        In ("LOWER(target_name) LIKE LOWER('%" ++ v ++ "%')")
           (sensitivity_conditions max_sensitivity_mjy sensitivity_type (Some v) band))
  /\ (forall search_terms : string,
        abstract_condition search_terms false
        = "LOWER(proposal_abstract) LIKE LOWER('%" ++ search_terms ++ "%')")
  /\ (exists pre mid post : string,
        (free_of "'" pre = true /\ free_of "'" mid = true /\ free_of "'" post = true)
        /\ forall search_terms,
            abstract_condition search_terms true
            = pre ++ "'%" ++ search_terms ++ "%'" ++ mid
                  ++ "'%" ++ search_terms ++ "%'" ++ post)
  /\ (forall (member_ous_id : string) (st : state W L) (q : string),
        In q (tap_queries (log_of (search_alma_by_member_ous member_ous_id st))) ->
        q = member_ous_query (normalize_uid member_ous_id))
  /\ (exists pre post : string,
        forall uid,
          member_ous_query uid = pre ++ "member_ous_uid = '" ++ uid ++ "'" ++ post)
  /\ (forall (st : state W L) (q : string),
        (forall p pi c,
            In q (tap_queries (log_of (search_alma_by_proposal p pi c st))) ->
            q = proposal_query (proposal_where_clause p pi))
        /\ (forall lo hi t,
              In q (tap_queries (log_of (search_alma_by_frequency lo hi t st))) ->
              q = frequency_full_query lo hi t)
        /\ (forall hi lo t,
              In q (tap_queries (log_of (search_alma_by_resolution hi lo t st))) ->
              q = resolution_full_query hi lo t)
        /\ (forall b j a y,
              In q (tap_queries (log_of (search_alma_by_bibliography b j a y st))) ->
              q = bibliography_query (join " AND " (bibliography_conditions b j a y)))
        /\ (forall d t k b,
              In q (tap_queries (log_of (search_alma_by_data_type d t k b st))) ->
              q = data_type_query (join " AND " (data_type_conditions d t k b)))
        /\ (forall k d b o,
              In q (tap_queries (log_of (search_alma_by_science_keyword k d b o st))) ->
              q = science_keyword_query
                    (join " AND " (science_keyword_conditions k d b o)))
        /\ (forall t p,
              In q (tap_queries (log_of (search_alma_by_abstract t p st))) ->
              q = abstract_query (abstract_condition t p))
        /\ (forall m ty t b,
              In q (tap_queries (log_of (search_alma_by_sensitivity m ty t b st))) ->
              q = sensitivity_query (sens_column ty)
                    (join " AND " (sensitivity_conditions m ty t b))))
  /\ (forall data_type : string,
        data_type_condition data_type
        = "dataproduct_type = '" ++ lower data_type ++ "'"
        /\ (is_cube_or_image data_type = true ->
            data_type_condition data_type = "dataproduct_type = 'cube'"
            \/ data_type_condition data_type = "dataproduct_type = 'image'"))
  /\ (forall pre v post : string,
        free_of "'" pre = true -> free_of "'" v = true -> free_of "'" post = true ->
        spec_string_literals (pre ++ "'" ++ v ++ "'" ++ post) = Some [v]
        /\ spec_string_literals (pre ++ "'%" ++ v ++ "%'" ++ post)
           = Some ["%" ++ v ++ "%"]).
Proof.
  split; [exact source_name_query_shape|].
  repeat match goal with |- _ /\ _ => split end.
  - intros p pi Hp Hpi. unfold proposal_where_clause, proposal_conditions.
    rewrite (given_str_nonempty _ Hp), (given_str_nonempty _ Hpi).
    cbn [append_if app join]. now rewrite !append_assoc.
  - intros v Hv.
    destruct source_name_query_shape
      as (pre & post & pre' & post' & [Hpre Hpost] & [Hpre' Hpost'] & Hexact & Hlike).
    rewrite Hexact, Hlike. split; [now apply scan_quoted | now apply scan_like].
  - intros v exact st q Hq. now apply source_name_sends in Hq.
  - intros lo hi t Ht. unfold frequency_full_query, target_name_condition.
    now rewrite (given_str_nonempty _ Ht).
  - intros hi lo t Ht. unfold resolution_full_query, target_name_condition.
    now rewrite (given_str_nonempty _ Ht).
  - intros v o1 o2 year Hv. unfold bibliography_conditions. cbv zeta.
    rewrite (given_str_nonempty _ Hv).
    repeat split; repeat first [ apply append_if_new; reflexivity | apply append_if_old ].
  - intros v d o band Hv. unfold data_type_conditions. cbv zeta.
    rewrite (given_str_nonempty _ Hv).
    repeat split; repeat first [ apply append_if_new; reflexivity | apply append_if_old ].
  - intros k d band only. unfold science_keyword_conditions. cbv zeta.
    repeat apply append_if_old. destruct only; cbn [app In]; auto.
  - intros m ty v band Hv. unfold sensitivity_conditions. cbv zeta.
    rewrite (given_str_nonempty _ Hv).
    repeat first [ apply append_if_new; reflexivity | apply append_if_old ].
  - reflexivity.
  - exact abstract_condition_shape.
  - intros id st q Hq. now apply member_ous_sends in Hq.
  - exact member_ous_query_shape.
  - intros st q.
    repeat match goal with |- _ /\ _ => split end; intros.
    + now apply proposal_sends with (1 := H).
    + now apply frequency_sends with (1 := H).
    + now apply resolution_sends with (1 := H).
    + now apply bibliography_sends with (1 := H).
    + now apply data_type_sends with (1 := H).
    + now apply science_keyword_sends with (1 := H).
    + now apply abstract_sends with (1 := H).
    + now apply sensitivity_sends with (1 := H).
  - intros d. split; [reflexivity | apply data_type_condition_fixed].
  - intros pre v post Hpre Hv Hpost.
    split; [now apply scan_quoted | now apply scan_like].
Qed.

End Interpolation.

(* ===================================================================== *)
(** ** The batch query (tool 16) *)
(* ===================================================================== *)

Section DictFacts.
Context {A : Type}.

Lemma dict_keys_set (k : string) (v : A) (d : list (string * A)) :
  dict_keys (dict_set k v d)
  = if existsb (String.eqb k) (dict_keys d) then dict_keys d
    else (dict_keys d ++ [k])%list.
Proof.
  unfold dict_keys. induction d as [|[k' v'] d IH]; [reflexivity|].
  cbn [dict_set map fst existsb].
  destruct (String.eqb k k'); cbn [orb map fst]; [reflexivity|].
  rewrite IH. now destruct (existsb (String.eqb k) (map fst d)).
Qed.

Lemma dict_values_set (P : A -> Prop) (k : string) (v : A) (d : list (string * A)) :
  P v -> Forall P (dict_values d) -> Forall P (dict_values (dict_set k v d)).
Proof.
  intros Hv. induction d as [|[k' v'] d IH]; intros Hd.
  - repeat constructor. exact Hv.
  - cbn [dict_set]. inversion Hd; subst.
    destruct (String.eqb k k'); constructor; auto.
Qed.

Lemma dict_get_set_same (k : string) (v : A) (d : list (string * A)) :
  dict_get k (dict_set k v d) = Some v.
Proof.
  induction d as [|[k' v'] d IH]; cbn [dict_set dict_get].
  - now rewrite String.eqb_refl.
  - destruct (String.eqb k k') eqn:E; cbn [dict_get]; rewrite E; auto.
Qed.

Lemma dict_get_set_other (k k' : string) (v : A) (d : list (string * A)) :
  k <> k' -> dict_get k (dict_set k' v d) = dict_get k d.
Proof.
  intros Hne. induction d as [|[k0 v0] d IH]; cbn [dict_set dict_get].
  - destruct (String.eqb_spec k k'); [contradiction | reflexivity].
  - destruct (String.eqb_spec k' k0) as [->|Hk]; cbn [dict_get].
    + destruct (String.eqb_spec k k0); [contradiction | reflexivity].
    + destruct (String.eqb k k0); [reflexivity | exact IH].
Qed.

Lemma dict_get_of_key (P : A -> Prop) (k : string) (d : list (string * A)) :
  In k (dict_keys d) -> Forall P (dict_values d) ->
  exists v, dict_get k d = Some v /\ P v.
Proof.
  induction d as [|[k' v'] d IH]; [contradiction|].
  intros Hin Hall. inversion Hall; subst. cbn [dict_get].
  destruct (String.eqb_spec k k') as [->|Hne]; [eauto|].
  destruct Hin as [Heq|Hin]; [cbn in Heq; congruence | auto].
Qed.

End DictFacts.

Lemma first_occurrences_in (l seen : list string) (x : string) :
  In x (seen ++ first_occurrences seen l) <-> In x (seen ++ l).
Proof.
  revert seen. induction l as [|y l IH]; intros seen; [tauto|].
  cbn [first_occurrences].
  destruct (existsb (String.eqb y) seen) eqn:E.
  - rewrite IH, !in_app_iff. cbn [In].
    apply existsb_exists in E as (z & Hz & Hyz).
    apply String.eqb_eq in Hyz. subst z. intuition (subst; auto).
  - specialize (IH (seen ++ [y])%list). rewrite <- !app_assoc in IH. exact IH.
Qed.

Section Batch.
Context {F : Type} {PF : PyFloat F} {W : Type} {C : Collaborators W F}
        {U : PyUnicode}.

Lemma simbad_calls_app (l1 l2 : list (event F)) :
  simbad_calls (l1 ++ l2) = (simbad_calls l1 ++ simbad_calls l2)%list.
Proof.
  induction l1 as [|ev l1 IH]; [reflexivity|].
  destruct ev; cbn [app simbad_calls]; now rewrite ?IH.
Qed.

Ltac entry_shape :=
  unfold entry_ok, not_resolved_entry, no_data_entry, found_entry, error_entry,
    batch_statuses;
  eexists _, _; split; [reflexivity|];
  cbn [dict_get String.eqb Ascii.eqb Bool.eqb];
  split; [reflexivity|]; split; [cbn [In]; tauto|];
  intros Hstatus; solve [ eexists; reflexivity | now contradiction Hstatus ].

(** One turn of the loop: it returns, it asks SIMBAD once, for this name,
    and it writes one entry, under this name. *)
Lemma batch_step_spec (source_name : string) (radius_arcmin : F)
      (st : state W (batch_locals F)) :
  exists entry st' log,
    batch_step source_name radius_arcmin st = (Ok tt, st', log)
    /\ results_by_source (st_locals st')
       = dict_set source_name (VDict entry) (results_by_source (st_locals st))
    /\ entry_ok (VDict entry)
    /\ simbad_calls log = [source_name].
Proof.
  unfold batch_step, batch_item, set_result, add_observations. unfold_monad.
  split_run; eexists _, _, _; (split; [reflexivity|]);
    cbn [st_locals results_by_source];
    (split; [reflexivity|]); (split; [entry_shape | reflexivity]).
Qed.

(** The loop: it returns, it asks SIMBAD for every name in turn, and the
    keys of the result map are the names at their first occurrences. *)
Lemma batch_loop_spec (source_names : list string) (radius_arcmin : F)
      (st : state W (batch_locals F)) :
  Forall entry_ok (dict_values (results_by_source (st_locals st))) ->
  exists st' log,
    batch_loop source_names radius_arcmin st = (Ok tt, st', log)
    /\ simbad_calls log = source_names
    /\ dict_keys (results_by_source (st_locals st'))
       = (dict_keys (results_by_source (st_locals st))
          ++ first_occurrences (dict_keys (results_by_source (st_locals st)))
               source_names)%list
    /\ Forall entry_ok (dict_values (results_by_source (st_locals st'))).
Proof.
  revert st. induction source_names as [|name rest IH]; intros st Hok.
  - exists st, []. cbn. unfold ret. rewrite app_nil_r. auto.
  - destruct (batch_step_spec name radius_arcmin st)
      as (entry & st1 & log1 & Hstep & Hres & Hentry & Hlog1).
    assert (Hok1 : Forall entry_ok (dict_values (results_by_source (st_locals st1)))).
    { rewrite Hres. now apply dict_values_set. }
    destruct (IH st1 Hok1) as (st2 & log2 & Hloop & Hlog2 & Hkeys & Hok2).
    exists st2, (log1 ++ log2)%list.
    cbn [batch_loop]. unfold bind. rewrite Hstep, Hloop.
    split; [reflexivity|]. split; [|split; [|exact Hok2]].
    + rewrite simbad_calls_app, Hlog1, Hlog2. reflexivity.
    + rewrite Hkeys, Hres, dict_keys_set. cbn [first_occurrences].
      destruct (existsb (String.eqb name) (dict_keys (results_by_source (st_locals st))));
        [reflexivity | now rewrite <- app_assoc].
Qed.

(** The whole tool, once both libraries are there. *)
Lemma batch_run {L : Type} (source_names : list string) (radius_arcmin : F)
      (st : state W L) :
  SIMBAD_AVAILABLE = true -> PYVO_AVAILABLE = true ->
  exists results total st' log,
    query_alma_multiple_sources source_names radius_arcmin st
    = (Ok (batch_summary (firstn 20 source_names) (mkBatch results total)), st', log)
    /\ simbad_calls log = firstn 20 source_names
    /\ dict_keys results = first_occurrences [] (firstn 20 source_names)
    /\ Forall entry_ok (dict_values results).
Proof.
  intros Hsimbad Hpyvo. unfold query_alma_multiple_sources.
  rewrite Hsimbad, Hpyvo. cbn [negb].
  unfold try_except, with_locals, bind.
  destruct (batch_loop_spec (firstn 20 source_names) radius_arcmin
              (mkState (st_world st) (mkBatch [] 0)) (Forall_nil _))
    as (st1 & log1 & Hloop & Hlog & Hkeys & Hok).
  rewrite Hloop. unfold get_locals, ret.
  destruct st1 as [w1 [results total]]. cbn [st_locals results_by_source] in *.
  exists results, total. eexists _, _. split; [reflexivity|].
  rewrite app_nil_r. auto.
Qed.

Lemma batch_summary_fields (source_names : list string) (loc : batch_locals F) :
  has_key "error" (batch_summary source_names loc) = false
  /\ dict_get "total_sources_queried" (batch_summary source_names loc)
     = Some (vnat (List.length source_names))
  /\ dict_get "results_by_source" (batch_summary source_names loc)
     = Some (VDict (results_by_source loc)).
Proof. repeat split. Qed.

(** C6 (as amended).  With both libraries installed the batch looks every
    occurrence of a name up in SIMBAD, in input order, and counts every
    occurrence in [total_sources_queried]; but the per-name result map is
    keyed by the name, so a repeated name has one entry, at the place of
    its first occurrence: each turn of the loop writes its entry under
    the name, over the entry an earlier occurrence left there. *)
Theorem C6_batch_repeated_names {L : Type}
  (source_names : list string) (radius_arcmin : F) (st : state W L) :
  SIMBAD_AVAILABLE = true -> PYVO_AVAILABLE = true ->
  (exists d st' log results,
      query_alma_multiple_sources source_names radius_arcmin st = (Ok d, st', log)
      /\ simbad_calls log = firstn 20 source_names
      /\ dict_get "total_sources_queried" d
         = Some (vnat (List.length (firstn 20 source_names)))
      /\ dict_get "results_by_source" d = Some (VDict results)
      /\ dict_keys results = first_occurrences [] (firstn 20 source_names))
  /\ (forall (name : string) (st0 : state W (batch_locals F)),
        exists entry st1 log1,
          batch_step name radius_arcmin st0 = (Ok tt, st1, log1)
          /\ results_by_source (st_locals st1)
             = dict_set name (VDict entry) (results_by_source (st_locals st0))
          /\ dict_get name (results_by_source (st_locals st1)) = Some (VDict entry)).
Proof.
  intros Hsimbad Hpyvo. split.
  - destruct (batch_run source_names radius_arcmin st Hsimbad Hpyvo)
      as (results & total & st' & log & Hrun & Hlog & Hkeys & _).
    exists (batch_summary (firstn 20 source_names) (mkBatch results total)),
           st', log, results.
    pose proof (batch_summary_fields (firstn 20 source_names) (mkBatch results total))
      as (_ & Htotal & Hresults).
    auto.
  - intros name st0.
    destruct (batch_step_spec name radius_arcmin st0)
      as (entry & st1 & log1 & Hstep & Hres & _ & _).
    exists entry, st1, log1. repeat split; [exact Hstep | exact Hres |].
    rewrite Hres. apply dict_get_set_same.
Qed.

(** The loop over a list in two parts is the loop over the first part
    followed by the loop over the second. *)
Lemma batch_loop_app (pre post : list string) (radius_arcmin : F)
      (st st1 : state W (batch_locals F)) (log1 : list (event F)) :
  batch_loop pre radius_arcmin st = (Ok tt, st1, log1) ->
  batch_loop (pre ++ post) radius_arcmin st
  = (response_of (batch_loop post radius_arcmin st1),
     state_of (batch_loop post radius_arcmin st1),
     log1 ++ log_of (batch_loop post radius_arcmin st1))%list.
Proof.
  revert st st1 log1. induction pre as [|name pre IH]; intros st st1 log1 H.
  - cbn in H. unfold ret in H. inversion H; subst. cbn [app].
    now destruct (batch_loop post radius_arcmin st1) as [[? ?] ?].
  - cbn [batch_loop app] in *. unfold bind in *.
    destruct (batch_step name radius_arcmin st) as [[[[]|e] sa] la]; [|discriminate H].
    destruct (batch_loop pre radius_arcmin sa) as [[[[]|e] sb] lb] eqn:Hpre;
      inversion H; subst; clear H.
    rewrite (IH _ _ _ Hpre). cbn [response_of state_of log_of fst snd].
    destruct (batch_loop post radius_arcmin st1) as [[? ?] ?].
    cbn [fst snd]. now rewrite app_assoc.
Qed.

(** The turns of other names leave the entry of a name as it is. *)
Lemma batch_loop_keeps (name : string) (source_names : list string) (radius_arcmin : F)
      (st : state W (batch_locals F)) :
  ~ In name source_names ->
  dict_get name (results_by_source
                   (st_locals (state_of (batch_loop source_names radius_arcmin st))))
  = dict_get name (results_by_source (st_locals st)).
Proof.
  revert st. induction source_names as [|other rest IH]; intros st Hnot.
  - reflexivity.
  - cbn [batch_loop]. unfold bind.
    destruct (batch_step_spec other radius_arcmin st)
      as (entry & st1 & log1 & Hstep & Hres & _ & _).
    rewrite Hstep.
    assert (Hrest : ~ In name rest) by (intros Hin; apply Hnot; now right).
    specialize (IH st1 Hrest).
    destruct (batch_loop rest radius_arcmin st1) as [[r st2] log2].
    cbn [state_of fst snd] in *. rewrite IH, Hres.
    apply dict_get_set_other. intros ->. apply Hnot. now left.
Qed.

(** One turn of the loop records the failure of its name. *)
Lemma batch_step_records (name : string) (radius_arcmin : F)
      (st : state W (batch_locals F)) (entry : dict F) :
  item_failure name radius_arcmin (st_world st) entry ->
  exists st' log,
    batch_step name radius_arcmin st = (Ok tt, st', log)
    /\ dict_get name (results_by_source (st_locals st')) = Some (VDict entry).
Proof.
  intros Hfail.
  unfold batch_step, batch_item, set_result, add_observations. unfold_monad.
  destruct Hfail as [e w1 Hs | table w1 Hs Htable | ra dec rows w1 e Hs Hc
                    | ra dec rows w1 w2 [ra_deg dec_deg] e Hs Hc Ht
                    | ra dec rows w1 w2 w3 ra_deg dec_deg e Hs Hc Ht Hq
                    | ra dec rows w1 w2 w3 ra_deg dec_deg df e Hs Hc Ht Hq Hne Hb];
    rewrite Hs; cbv beta iota; cbn [st_world st_locals];
    try rewrite Hc; cbv beta iota; cbn [st_world st_locals];
    try rewrite Ht; cbv beta iota; cbn [st_world st_locals];
    try rewrite Hq; cbv beta iota; cbn [st_world st_locals];
    try rewrite Hne; try rewrite Hb; cbv beta iota;
    try (destruct Htable as [-> | ->]);
    eexists _, _; (split; [reflexivity|]);
    cbn [st_locals results_by_source]; apply dict_get_set_same.
Qed.

(** C7 (as amended).  With both libraries installed the batch never
    answers with an error response, whatever happens to single names: it
    asks SIMBAD for each of the names in turn, and every name has an
    entry in the result map, with a status tag and, unless the status is
    [found], a message.  A failure of one name (SIMBAD raises or does not
    know the name, the coordinates cannot be read, the TAP service or the
    search raises, the table lacks [band_list]) is recorded in that turn
    of the loop as the entry of the name, and the loop goes on.  The
    result map is keyed by the name, so the response shows the entry that
    the last occurrence of a name wrote: the failure of a name is in the
    response when the name does not occur again among the later names. *)
Theorem C7_batch_items_isolated {L : Type}
  (source_names : list string) (radius_arcmin : F) :
  SIMBAD_AVAILABLE = true -> PYVO_AVAILABLE = true ->
  (forall st : state W L,
      exists d st' log results,
        query_alma_multiple_sources source_names radius_arcmin st = (Ok d, st', log)
        /\ has_key "error" d = false
        /\ simbad_calls log = firstn 20 source_names
        /\ dict_get "results_by_source" d = Some (VDict results)
        /\ (forall name, In name (firstn 20 source_names) ->
                         exists v, dict_get name results = Some v /\ entry_ok v))
  /\ (forall (st : state W L) (pre post : list string) (name : string)
             (st_k : state W (batch_locals F)) (log_k : list (event F))
             (entry : dict F),
        firstn 20 source_names = (pre ++ name :: post)%list ->
        ~ In name post ->
        batch_loop pre radius_arcmin (mkState (st_world st) (mkBatch [] 0))
        = (Ok tt, st_k, log_k) ->
        item_failure name radius_arcmin (st_world st_k) entry ->
        exists d st' log results,
          query_alma_multiple_sources source_names radius_arcmin st = (Ok d, st', log)
          /\ dict_get "results_by_source" d = Some (VDict results)
          /\ dict_get name results = Some (VDict entry))
  /\ (forall (name : string) (st : state W (batch_locals F)) (entry : dict F),
        item_failure name radius_arcmin (st_world st) entry ->
        exists st' log,
          batch_step name radius_arcmin st = (Ok tt, st', log)
          /\ dict_get name (results_by_source (st_locals st')) = Some (VDict entry))
  /\ (forall (name : string) (st st1 : state W (batch_locals F)) e log1,
        batch_item name radius_arcmin st = (Raise e, st1, log1) ->
        exists st',
          batch_step name radius_arcmin st = (Ok tt, st', log1)
          /\ dict_get name (results_by_source (st_locals st'))
             = Some (VDict (error_entry e)))
  /\ (forall (name : string) (st : state W (batch_locals F)) w',
        Simbad_query_object name (st_world st) = (Ok None, w') ->
        exists st',
          batch_step name radius_arcmin st = (Ok tt, st', [EvSimbad name])
          /\ dict_get name (results_by_source (st_locals st'))
             = Some (VDict (not_resolved_entry name))).
Proof.
  intros Hsimbad Hpyvo. split; [|split; [|split; [|split]]].
  - intros st.
    destruct (batch_run source_names radius_arcmin st Hsimbad Hpyvo)
      as (results & total & st' & log & Hrun & Hlog & Hkeys & Hok).
    exists (batch_summary (firstn 20 source_names) (mkBatch results total)),
           st', log, results.
    pose proof (batch_summary_fields (firstn 20 source_names) (mkBatch results total))
      as (Herr & _ & Hresults).
    repeat split; auto.
    intros name Hin. apply dict_get_of_key; [|exact Hok].
    rewrite Hkeys.
    apply (first_occurrences_in (firstn 20 source_names) [] name). exact Hin.
  - intros st pre post name st_k log_k entry Hnames Hlast Hpre Hfail.
    destruct (batch_step_records name radius_arcmin st_k entry Hfail)
      as (st1 & log1 & Hstep & Hentry).
    pose proof (batch_loop_keeps name post radius_arcmin st1 Hlast) as Hkeep.
    unfold query_alma_multiple_sources. rewrite Hsimbad, Hpyvo. cbn [negb].
    unfold try_except, with_locals, bind. rewrite Hnames.
    rewrite (batch_loop_app pre (name :: post) radius_arcmin _ _ _ Hpre).
    cbn [batch_loop]. unfold bind. rewrite Hstep.
    destruct (batch_loop_returns post radius_arcmin st1) as (st2 & log2 & Hpost).
    rewrite Hpost in Hkeep |- *.
    cbn [response_of state_of log_of fst snd] in Hkeep |- *.
    unfold get_locals, ret. eexists _, _, _, _.
    split; [reflexivity|]. split; [reflexivity|].
    now rewrite Hkeep.
  - intros name st entry. apply batch_step_records.
  - intros name st st1 e log1 Hraise.
    unfold batch_step, try_except. rewrite Hraise.
    unfold set_result, bind, get_locals, put_locals.
    eexists. split; [now rewrite app_nil_r|].
    cbn [st_locals results_by_source]. apply dict_get_set_same.
  - intros name st w' Hnone.
    unfold batch_step, try_except, batch_item, bind, call_simbad, call.
    rewrite Hnone.
    unfold set_result, bind, get_locals, put_locals.
    eexists. split; [reflexivity|].
    cbn [st_locals results_by_source]. apply dict_get_set_same.
Qed.

(** C8.  With both libraries installed, a batch of [n] names is cut to
    its first [min(n, 20)] names without any error: SIMBAD is asked for
    exactly these, in order, [total_sources_queried] is [min(n, 20)], and
    the names of the result map are exactly these. *)
Theorem C8_batch_truncated_to_20 {L : Type}
  (source_names : list string) (radius_arcmin : F) (st : state W L) :
  SIMBAD_AVAILABLE = true -> PYVO_AVAILABLE = true ->
  exists d st' log results,
    query_alma_multiple_sources source_names radius_arcmin st = (Ok d, st', log)
    /\ has_key "error" d = false
    /\ dict_get "total_sources_queried" d
       = Some (vnat (Nat.min (List.length source_names) 20))
    /\ simbad_calls log = firstn 20 source_names
    /\ dict_get "results_by_source" d = Some (VDict results)
    /\ (forall name, In name (dict_keys results) <-> In name (firstn 20 source_names)).
Proof.
  intros Hsimbad Hpyvo.
  destruct (batch_run source_names radius_arcmin st Hsimbad Hpyvo)
    as (results & total & st' & log & Hrun & Hlog & Hkeys & _).
  exists (batch_summary (firstn 20 source_names) (mkBatch results total)),
         st', log, results.
  pose proof (batch_summary_fields (firstn 20 source_names) (mkBatch results total))
    as (Herr & Htotal & Hresults).
  rewrite length_firstn, Nat.min_comm in Htotal.
  repeat split; auto; rewrite Hkeys;
    apply (first_occurrences_in (firstn 20 source_names) []).
Qed.

End Batch.

(* ===================================================================== *)
(** ** The statements at concrete inputs *)
(* ===================================================================== *)

Module Concrete.
Import Scripted.

(** *** Runs that part from the specification *)


(** C2, as stated, fails: alminer is installed and its cone search
    raises; the tool answers with an error and the TAP service, which
    would have answered, is never asked. *)
Lemma C2_alminer_error_is_final :
  @ALMINER_AVAILABLE _ _ (world alminer_down) = true
  /\ run_in alminer_down (OpTarget "M87" None None)
     = (Ok [("error",
             vstr "ALMA search failed: HTTPSConnectionPool: read timed out")],
        mkState 2 tt,
        [EvSimbad "M87";
         EvConesearch 187705930%Z 12391123%Z 16666%Z true;
         EvRaised "HTTPSConnectionPool: read timed out"])
  /\ tap_queries (log_of (run_in alminer_down (OpTarget "M87" None None))) = []
  /\ (exists d,
        response_of (search_alma_by_position (C := world alminer_down) (L := unit)
                       187705930%Z 12391123%Z 1000000%Z true (mkState 1 tt)) = Ok d
        /\ has_key "error" d = false).
Proof.
  split; [reflexivity|]. split; [reflexivity|]. split; [reflexivity|].
  eexists. split; reflexivity.
Qed.

(** C3, as stated, fails: a discriminator that is neither [continuum]
    nor [line] selects the line column. *)
Lemma C3_unknown_type_selects_line_column :
  "rms" <> "continuum" /\ "rms" <> "line"
  /\ sens_column "rms" = "sensitivity_10kms"
  /\ spec_sens_column "rms" = "cont_sensitivity_bandwidth"
  /\ sens_column "rms" <> spec_sens_column "rms".
Proof. repeat split; discriminate. Qed.

(** C4, as stated, fails: a [max_rows] of 0 is not raised to 1. *)
Lemma C4_zero_cap_not_clamped :
  limit_max_rows 0 = 0%Z
  /\ spec_clamp_rows 0 = 1%Z
  /\ tap_queries
       (log_of (run_in tap_only (OpTapQuery "SELECT * FROM ivoa.obscore" (Some 0%Z))))
     = ["SELECT TOP 0 * FROM ivoa.obscore"].
Proof. repeat split. Qed.

(** C6, as stated, fails: a name given twice is looked up twice and
    counted twice, but has one entry in the result map. *)
Lemma C6_repeated_name_has_one_entry :
  exists d results,
    response_of (run_in tap_only (OpBatch ["M87"; "M87"] None)) = Ok d
    /\ simbad_calls (log_of (run_in tap_only (OpBatch ["M87"; "M87"] None)))
       = ["M87"; "M87"]
    /\ dict_get "total_sources_queried" d = Some (vint 2)
    /\ dict_get "results_by_source" d = Some (VDict results)
    /\ dict_keys results = ["M87"]
    /\ List.length results <> List.length ["M87"; "M87"].
Proof.
  eexists _, _. split; [reflexivity|]. split; [reflexivity|].
  split; [reflexivity|]. split; [reflexivity|]. split; [reflexivity|].
  discriminate.
Qed.

(** C7, as stated, fails: M87 is given twice, the search of its first
    occurrence raises and that turn records the failure, the search of
    the second succeeds; the response has the one entry [found] for M87
    and nothing of the failure. *)
Lemma C7_failure_overwritten :
  dict_get "M87"
    (results_by_source
       (st_locals (state_of (batch_step (C := world tap_fails_once)
                               "M87" 1000000%Z (mkState 0 (mkBatch [] 0))))))
  = Some (VDict (error_entry "Service Unavailable"))
  /\ raised_calls (log_of (run_in tap_fails_once (OpBatch ["M87"; "M87"] None)))
     = ["Service Unavailable"]
  /\ exists d entry,
      response_of (run_in tap_fails_once (OpBatch ["M87"; "M87"] None)) = Ok d
      /\ dict_get "results_by_source" d = Some (VDict [("M87", VDict entry)])
      /\ dict_get "status" entry = Some (vstr "found")
      /\ dict_get "message" entry = None.
Proof.
  split; [reflexivity|]. split; [reflexivity|].
  eexists _, _. repeat split.
Qed.

(** C9, as stated, fails: the science-keyword search takes a
    [data_type] outside the vocabulary, sends its query and returns no
    error. *)
Lemma C9_science_keyword_accepts_unknown_data_type :
  is_cube_or_image "spectrum" = false
  /\ (exists d,
        response_of (run_in tap_empty
                       (OpScienceKeyword "Quasars" (Some "spectrum") None None)) = Ok d
        /\ has_key "error" d = false)
  /\ List.length
       (tap_queries (log_of (run_in tap_empty
                               (OpScienceKeyword "Quasars" (Some "spectrum") None None))))
     = 1.
Proof.
  split; [reflexivity|]. split; [|reflexivity].
  eexists. split; reflexivity.
Qed.

(** C10, as stated, fails: a source name with a single quote is not
    read back as one literal; it closes the literal and adds two more,
    or leaves a literal open. *)
Lemma C10_quote_splits_the_literal :
  spec_string_literals (source_name_query "x' OR '1'='1" true) = Some ["x"; "1"; "1"]
  /\ spec_string_literals (source_name_query "x' OR '1'='1" true)
     <> Some ["x' OR '1'='1"]
  /\ spec_string_literals (source_name_query "O'Neil" true) = None
  /\ tap_queries
       (log_of (run_in tap_empty (OpSourceName "x' OR '1'='1" (Some true))))
     = [source_name_query "x' OR '1'='1" true].
Proof. repeat split; discriminate. Qed.

(** The insertion of the cap misses a query written in lower case: the
    guard, which looks at the upper-cased text, holds, but the
    replacement looks for the upper-case keyword in the text as given. *)
Example lower_case_select_gets_no_cap :
  wants_top "select * from ivoa.obscore" = true
  /\ add_top_clause "select * from ivoa.obscore" 100 = "select * from ivoa.obscore".
Proof. split; reflexivity. Qed.

(** *** The theorems applied *)

(** C2 applied to the world where alminer times out, for the target M87. *)
Lemma C2_witness :
  @SIMBAD_AVAILABLE _ _ (world alminer_down) = true
  /\ resolve_target (C := world alminer_down) (L := unit) "M87" start
     = (Ok (inr (187705930, 12391123)%Z), mkState 1 tt, [EvSimbad "M87"])
  /\ no_tap_call
       (log_of (search_alma_by_target (C := world alminer_down) (L := unit)
                  "M87" 1000000%Z true start)) = true.
Proof.
  split; [reflexivity|]. split; [reflexivity|].
  destruct (C2_target_backend_choice (C := world alminer_down) (L := unit)
              "M87" 1000000%Z true start (mkState 1 tt)
              187705930%Z 12391123%Z [EvSimbad "M87"] eq_refl eq_refl)
    as [_ Halminer].
  exact (proj1 (Halminer eq_refl)).
Defined.

(** C5 applied to the identifier uid___A001_X123_X456, in the world
    where TAP finds nothing: the query sent, and the identifier named in
    the response. *)
Lemma C5_witness :
  PyStr.free_of "_" "uid" = true
  /\ forallb uid_segment ["A001"; "X123"; "X456"] = true
  /\ normalize_uid ("uid" ++ "___" ++ PyStr.join "_" ["A001"; "X123"; "X456"])
     = "uid" ++ "://" ++ PyStr.join "/" ["A001"; "X123"; "X456"]
  /\ tap_queries
       (log_of (search_alma_by_member_ous (C := world tap_empty) (L := unit)
                  ("uid" ++ "___" ++ PyStr.join "_" ["A001"; "X123"; "X456"]) start))
     = [member_ous_query ("uid" ++ "://" ++ PyStr.join "/" ["A001"; "X123"; "X456"])]
  /\ dict_get "member_ous_id"
       (returned (search_alma_by_member_ous (C := world tap_empty) (L := unit)
                    "uid___A001_X123_X456" start))
     = Some (vstr "uid://A001/X123/X456").
Proof.
  split; [reflexivity|]. split; [reflexivity|].
  destruct (C5_uid_normalized_before_use (C := world tap_empty) (L := unit)
              "uid" ["A001"; "X123"; "X456"] eq_refl eq_refl)
    as (Hnorm & _ & Hsent & _ & Hnamed & _).
  split; [exact Hnorm|].
  split; [exact (Hsent start 0 eq_refl eq_refl)|].
  exact (Hnamed start _ _ _ eq_refl eq_refl).
Defined.

(** C6 applied to the batch M87, Nope, M87 in the world where TAP answers. *)
Lemma C6_witness :
  @SIMBAD_AVAILABLE _ _ (world tap_only) = true
  /\ @PYVO_AVAILABLE _ _ (world tap_only) = true
  /\ exists d st' log results,
      query_alma_multiple_sources (C := world tap_only) (L := unit)
        ["M87"; "Nope"; "M87"] 1000000%Z start = (Ok d, st', log)
      /\ simbad_calls log = firstn 20 ["M87"; "Nope"; "M87"]
      /\ dict_get "total_sources_queried" d
         = Some (vnat (List.length (firstn 20 ["M87"; "Nope"; "M87"])))
      /\ dict_get "results_by_source" d = Some (VDict results)
      /\ dict_keys results = first_occurrences [] (firstn 20 ["M87"; "Nope"; "M87"]).
Proof.
  split; [reflexivity|]. split; [reflexivity|].
  exact (proj1 (C6_batch_repeated_names (C := world tap_only) (L := unit)
                  ["M87"; "Nope"; "M87"] 1000000%Z start eq_refl eq_refl)).
Defined.

(** C7 applied to the batch Nope, M87 in the world where TAP refuses
    every query: the batch answers, and its response holds the failure
    of each of the two names. *)
Lemma C7_witness :
  @SIMBAD_AVAILABLE _ _ (world tap_error) = true
  /\ @PYVO_AVAILABLE _ _ (world tap_error) = true
  /\ (exists d st' log results,
        query_alma_multiple_sources (C := world tap_error) (L := unit)
          ["Nope"; "M87"] 1000000%Z start = (Ok d, st', log)
        /\ has_key "error" d = false
        /\ simbad_calls log = firstn 20 ["Nope"; "M87"]
        /\ dict_get "results_by_source" d = Some (VDict results)
        /\ (forall name, In name (firstn 20 ["Nope"; "M87"]) ->
                         exists v, dict_get name results = Some v /\ entry_ok v))
  /\ (exists d st' log results,
        query_alma_multiple_sources (C := world tap_error) (L := unit)
          ["Nope"; "M87"] 1000000%Z start = (Ok d, st', log)
        /\ dict_get "results_by_source" d = Some (VDict results)
        /\ dict_get "M87" results = Some (VDict (error_entry "Incorrect ADQL query")))
  /\ (exists d st' log results,
        query_alma_multiple_sources (C := world tap_error) (L := unit)
          ["Nope"; "M87"] 1000000%Z start = (Ok d, st', log)
        /\ dict_get "results_by_source" d = Some (VDict results)
        /\ dict_get "Nope" results = Some (VDict (not_resolved_entry "Nope"))).
Proof.
  split; [reflexivity|]. split; [reflexivity|].
  destruct (C7_batch_items_isolated (C := world tap_error) (L := unit)
              ["Nope"; "M87"] 1000000%Z eq_refl eq_refl)
    as (Hruns & Hlast & _).
  split; [exact (Hruns start)|]. split.
  - apply (Hlast start ["Nope"] [] "M87"
             (mkState 1 (mkBatch [("Nope", VDict (not_resolved_entry "Nope"))] 0))
             [EvSimbad "Nope"] (error_entry "Incorrect ADQL query")
             eq_refl (fun H => H) eq_refl).
    exact (@SearchRaises Z nat _ (world tap_error) "M87" 1000000%Z 1
             (fst m87_row) (snd m87_row) [] 2 2 3 187705930%Z 12391123%Z
             "Incorrect ADQL query" eq_refl eq_refl eq_refl eq_refl).
  - apply (Hlast start [] ["M87"] "Nope" (mkState 0 (mkBatch [] 0)) []
             (not_resolved_entry "Nope") eq_refl).
    + intros [H|[]]. discriminate H.
    + reflexivity.
    + exact (@SimbadUnknown Z nat _ (world tap_error) "Nope" 1000000%Z 0
               None 1 eq_refl (or_introl eq_refl)).
Defined.

(** C8 applied to the batch of twenty-five names. *)
Lemma C8_witness :
  @SIMBAD_AVAILABLE _ _ (world tap_only) = true
  /\ @PYVO_AVAILABLE _ _ (world tap_only) = true
  /\ exists d st' log results,
      query_alma_multiple_sources (C := world tap_only) (L := unit)
        names25 1000000%Z start = (Ok d, st', log)
      /\ has_key "error" d = false
      /\ dict_get "total_sources_queried" d
         = Some (vnat (Nat.min (List.length names25) 20))
      /\ simbad_calls log = firstn 20 names25
      /\ dict_get "results_by_source" d = Some (VDict results)
      /\ (forall name, In name (dict_keys results) <-> In name (firstn 20 names25)).
Proof.
  split; [reflexivity|]. split; [reflexivity|].
  exact (C8_batch_truncated_to_20 (C := world tap_only) (L := unit)
           names25 1000000%Z start eq_refl eq_refl).
Defined.

(** C9 applied to the data type spectrum. *)
Lemma C9_witness :
  is_cube_or_image "spectrum" = false
  /\ exists msg,
      search_alma_by_data_type (C := world tap_only) (L := unit)
        "spectrum" None None None start
      = (Ok (error_response msg), start, []).
Proof.
  split; [reflexivity|].
  exact (proj1 (C9_data_type_outside_vocabulary (C := world tap_only) (L := unit)
                  "spectrum" eq_refl) None None None start).
Defined.

(** The batch of 25 names, run: 20 lookups, 20 names counted. *)
Example batch_of_25 :
  simbad_calls (log_of (run_in tap_only (OpBatch names25 None))) = firstn 20 names25
  /\ exists d,
      response_of (run_in tap_only (OpBatch names25 None)) = Ok d
      /\ dict_get "total_sources_queried" d = Some (vint 20)
      /\ dict_get "sources_with_alma_data" d = Some (vint 1).
Proof.
  split; [vm_compute; reflexivity|]. eexists.
  split; [vm_compute; reflexivity|]. split; vm_compute; reflexivity.
Qed.

End Concrete.

(* ===================================================================== *)
(** ** Guards: what a tool does before it calls anybody *)
(* ===================================================================== *)

Section Guards.
Context {F : Type} {PF : PyFloat F} {W : Type} {C : Collaborators W F}
        {U : PyUnicode}.
Context {L : Type}.

(** X1.  Without the TAP library each of the eleven tools that use
    nothing else answers [{"error": "pyvo library not installed"}],
    whatever its arguments, calls no collaborator and leaves the world as
    it was: the test comes before every other check of the tool. *)
Theorem X1_no_pyvo_no_call (op : operation F) (st : state W L) :
  uses_only_tap op = true ->
  PYVO_AVAILABLE = false ->
  run op st = (Ok (error_response "pyvo library not installed"), st, []).
Proof.
  intros Hop Hpyvo.
  destruct op; try discriminate Hop; cbn [run];
    unfold search_alma_by_position, search_alma_by_frequency,
      search_alma_by_resolution, run_alma_tap_query, search_alma_by_source_name,
      search_alma_by_bibliography, search_alma_by_member_ous,
      search_alma_by_data_type, search_alma_by_science_keyword,
      search_alma_by_abstract, search_alma_by_sensitivity;
    rewrite Hpyvo; reflexivity.
Qed.

(** X2.  The tools that resolve a name test their libraries in a fixed
    order and stop at the first one missing, before any call.  The line
    coverage check asks for alminer first, then for astroquery; the
    target search asks for astroquery only; the batch asks for
    astroquery first, then for pyvo. *)
Theorem X2_resolver_guards (st : state W L) :
  (forall t f z,
      ALMINER_AVAILABLE = false ->
      check_alma_line_coverage t f z st
      = (Ok (error_response "alminer library required for line coverage check"),
         st, []))
  /\ (forall t f z,
        ALMINER_AVAILABLE = true -> SIMBAD_AVAILABLE = false ->
        check_alma_line_coverage t f z st
        = (Ok (error_response "astroquery required for target resolution"), st, []))
  /\ (forall t r p,
        SIMBAD_AVAILABLE = false ->
        search_alma_by_target t r p st
        = (Ok (error_response "astroquery not installed - cannot resolve target name"),
           st, []))
  /\ (forall names r,
        SIMBAD_AVAILABLE = false ->
        query_alma_multiple_sources names r st
        = (Ok (error_response "astroquery not installed - cannot resolve target names"),
           st, []))
  /\ (forall names r,
        SIMBAD_AVAILABLE = true -> PYVO_AVAILABLE = false ->
        query_alma_multiple_sources names r st
        = (Ok (error_response "pyvo library not installed"), st, [])).
Proof.
  repeat split; intros;
    unfold check_alma_line_coverage, search_alma_by_target,
      query_alma_multiple_sources;
    repeat match goal with H : _ = _ |- _ => rewrite H; clear H end;
    reflexivity.
Qed.

(** X3.  The proposal search checks its parameters before it looks at
    any library: when none of the three is given, an empty string
    counting as not given, it answers with its validation error and
    calls nobody, even where nothing is installed. *)
Theorem X3_proposal_needs_a_parameter
  (proposal_id pi_name science_category : option string) (st : state W L) :
  given_str proposal_id = None ->
  given_str pi_name = None ->
  given_str science_category = None ->
  search_alma_by_proposal proposal_id pi_name science_category st
  = (Ok (error_response
           "Must provide at least one search parameter (proposal_id, pi_name, or science_category)"),
     st, []).
Proof.
  intros H1 H2 H3. unfold search_alma_by_proposal. rewrite H1, H2, H3. reflexivity.
Qed.

End Guards.

(* ===================================================================== *)
(** ** Validation and resolution failures *)
(* ===================================================================== *)

Section Failures.
Context {F : Type} {PF : PyFloat F} {W : Type} {C : Collaborators W F}
        {U : PyUnicode}.
Context {L : Type}.

Lemma append_if_length {A} (o : option A) (c : A -> string) (l : list string) :
  List.length (append_if o c l) = List.length l + Nat.b2n (is_given o).
Proof.
  destruct o; cbn [append_if is_given Nat.b2n]; [|lia].
  rewrite length_app. reflexivity.
Qed.

(** X4.  The bibliography search, with the TAP library installed,
    rejects a request in which no parameter is given (an empty string
    and the year 0 count as not given) without calling anybody.  In an
    accepted request the [WHERE] clause has one condition for each
    parameter given, so it is never empty, and no other query is sent. *)
Theorem X4_bibliography_conditions
  (bibcode journal_name first_author : option string) (publication_year : option Z) :
  PYVO_AVAILABLE = true ->
  let op := OpBibliography bibcode journal_name first_author publication_year in
  let conditions :=
    bibliography_conditions bibcode journal_name first_author publication_year in
  (passes_validation op = false ->
   forall st : state W L,
     run op st = (Ok (error_response "Must provide at least one search parameter"),
                  st, []))
  /\ List.length conditions
     = Nat.b2n (is_given (given_str bibcode))
       + Nat.b2n (is_given (given_str journal_name))
       + Nat.b2n (is_given (given_str first_author))
       + Nat.b2n (is_given (given_int publication_year))
  /\ (passes_validation op = true -> conditions <> [])
  /\ (forall (st : state W L) (q : string),
        In q (tap_queries (log_of (run op st))) ->
        passes_validation op = true
        /\ q = bibliography_query (PyStr.join " AND " conditions)).
Proof.
  intros Hpyvo op conditions. subst op conditions.
  assert (Hlen : List.length
                   (bibliography_conditions bibcode journal_name first_author
                      publication_year)
                 = Nat.b2n (is_given (given_str bibcode))
                   + Nat.b2n (is_given (given_str journal_name))
                   + Nat.b2n (is_given (given_str first_author))
                   + Nat.b2n (is_given (given_int publication_year))).
  { unfold bibliography_conditions. rewrite !append_if_length. cbn [List.length]. lia. }
  split; [|split; [exact Hlen|split]].
  - intros Hbad st. cbn [run passes_validation] in *.
    unfold search_alma_by_bibliography. rewrite Hpyvo, Hbad. reflexivity.
  - cbn [passes_validation]. intros Hok Hnil. rewrite Hnil in Hlen. cbn in Hlen.
    destruct (is_given (given_str bibcode)), (is_given (given_str journal_name)),
      (is_given (given_str first_author)), (is_given (given_int publication_year));
      cbn in Hlen, Hok; congruence.
  - intros st q. cbn [run passes_validation].
    unfold search_alma_by_bibliography. rewrite Hpyvo. cbn [negb].
    destruct (is_given (given_str bibcode) || is_given (given_str journal_name)
              || is_given (given_str first_author)
              || is_given (given_int publication_year)); cbn [negb].
    + unfold_monad; split_run; cbn [log_of snd app tap_queries In];
        intros; intuition congruence.
    + unfold ret. cbn. tauto.
Qed.

(** X5.  In the target search a name that cannot be resolved never
    reaches the archive: the only call is the one to SIMBAD.  A name
    SIMBAD does not know ([None] or an empty table) gives the error
    [Could not resolve ... - not found in SIMBAD]; an exception from
    SIMBAD, or from the conversion of the coordinates, gives
    [Failed to resolve target: ...] with the message of the exception. *)
Theorem X5_target_resolution_failures
  (target_name : string) (radius_arcmin : F) (public_only : bool) (st : state W L) :
  SIMBAD_AVAILABLE = true ->
  (forall table w',
      Simbad_query_object target_name (st_world st) = (Ok table, w') ->
      table = None \/ table = Some [] ->
      search_alma_by_target target_name radius_arcmin public_only st
      = (Ok (error_response
               ("Could not resolve '" ++ target_name ++ "' - not found in SIMBAD")),
         mkState w' (st_locals st), [EvSimbad target_name]))
  /\ (forall e w',
        Simbad_query_object target_name (st_world st) = (Raise e, w') ->
        search_alma_by_target target_name radius_arcmin public_only st
        = (Ok (error_response ("Failed to resolve target: " ++ e)),
           mkState w' (st_locals st), [EvSimbad target_name; EvRaised e]))
  /\ (forall ra_str dec_str rows e w',
        Simbad_query_object target_name (st_world st)
        = (Ok (Some ((ra_str, dec_str) :: rows)), w') ->
        SkyCoord ra_str dec_str = Raise e ->
        search_alma_by_target target_name radius_arcmin public_only st
        = (Ok (error_response ("Failed to resolve target: " ++ e)),
           mkState w' (st_locals st), [EvSimbad target_name])).
Proof.
  intros Hsimbad. unfold search_alma_by_target, resolve_target.
  rewrite Hsimbad. cbn [negb]. unfold_monad. repeat split.
  - intros table w' Hans [-> | ->]; rewrite Hans; reflexivity.
  - intros e w' Hans. rewrite Hans. reflexivity.
  - intros ra_str dec_str rows e w' Hans Hsky. rewrite Hans, Hsky. reflexivity.
Qed.

End Failures.

(* ===================================================================== *)
(** ** What a response lists, and what a request costs *)
(* ===================================================================== *)

Section Listing.
Context {F : Type} {PF : PyFloat F} {W : Type} {C : Collaborators W F}
        {U : PyUnicode}.
Context {L : Type}.

Lemma df_series_length (df : DataFrame F) : List.length (df_series df) = df_len df.
Proof. unfold df_series, df_len. apply length_map. Qed.

Lemma head20_length (df : DataFrame F) :
  List.length (firstn 20 (df_series df)) = Nat.min 20 (df_len df).
Proof. now rewrite length_firstn, df_series_length. Qed.

Ltac unfold_tools :=
  unfold run, search_alma_by_target, resolve_target, target_conesearch,
    search_alma_by_position, search_alma_by_proposal, proposal_alminer,
    check_alma_line_coverage, get_alma_info, search_alma_by_frequency,
    search_alma_by_resolution, run_alma_tap_query, search_alma_by_source_name,
    search_alma_by_bibliography, search_alma_by_member_ous,
    search_alma_by_data_type, search_alma_by_science_keyword,
    search_alma_by_abstract, search_alma_by_sensitivity.

Lemma run_inv {A S E : Type} (a d : A) (s s' : S) (l l' : list E) :
  (Ok a, s, l) = (Ok d, s', l') -> a = d /\ s = s' /\ l = l'.
Proof. intros H. injection H as -> -> ->. auto. Qed.

Lemma some_list_inv (l l' : list (value F)) :
  Some (VList l) = Some (VList l') -> l = l'.
Proof. intros H. now injection H. Qed.

Ltac read_response Hrun Hobs :=
  intros Hrun Hobs;
  first [ apply run_inv in Hrun; destruct Hrun as (<- & <- & <-)
        | discriminate Hrun ];
  unfold error_response in Hobs;
  cbn [dict_get String.eqb Ascii.eqb Bool.eqb] in Hobs;
  try discriminate Hobs; apply some_list_inv in Hobs; subst.

Ltac listed_length :=
  repeat match goal with
         | H : rmap _ _ = Ok _ |- _ => apply rmap_length in H; rewrite H; clear H
         end;
  rewrite ?length_map, ?head20_length, ?df_series_length; reflexivity.

Lemma df_nonempty_len (df : DataFrame F) : df_empty df = false -> df_len df <> 0.
Proof.
  unfold df_empty, df_len. destruct (df_columns df), (df_rows df); cbn; congruence.
Qed.

Lemma nonempty_frame_len (odf : option (DataFrame F)) (df : DataFrame F) :
  nonempty_frame odf = Some df -> df_len df <> 0.
Proof.
  unfold nonempty_frame. destruct odf as [df'|]; [|discriminate].
  destruct (df_empty df') eqn:E; [discriminate|].
  intros H. injection H as <-. now apply df_nonempty_len.
Qed.

(** X6.  In the eleven tools that list observations through
    [df.head(20)], a response with an [observations] field has a [count]
    field, and the list holds [min(20, count)] observations.  A [showing]
    field, where there is one, is [min(20, count)], the length of the
    list; a response without one has count 0.  A response with count 0
    has no [showing] field, but for one case: the proposal search
    answered by the TAP service, which does not test for an empty table,
    reports [showing] 0. *)
Theorem X6_display_cap (op : operation F) (st st' : state W L)
        (d : dict F) (log : list (event F)) (obs : list (value F)) :
  display_capped op = true ->
  run op st = (Ok d, st', log) ->
  dict_get "observations" d = Some (VList obs) ->
  exists n : nat,
    dict_get "count" d = Some (vnat n)
    /\ List.length obs = Nat.min 20 n
    /\ (dict_get "showing" d = None /\ n = 0
        \/ dict_get "showing" d = Some (vnat (Nat.min 20 n)))
    /\ (n = 0 ->
        dict_get "showing" d = None
        \/ ((exists p pi c, op = OpProposal p pi c)
            /\ tap_queries log <> []
            /\ dict_get "showing" d = Some (vint 0))).
Proof.
  intros Hcap. revert d st' log obs.
  destruct op; try discriminate Hcap; clear Hcap;
    unfold_tools; unfold_monad; split_run; intros ? ? ? ?;
    read_response Hrun Hobs;
    first
      [ exists 0; split; [reflexivity|]; split; [reflexivity|];
        split; [left; split; reflexivity | intros _; left; reflexivity]
      | match goal with
        | |- context [vnat (df_len ?df)] => exists (df_len df)
        end;
        split; [reflexivity|]; split; [listed_length|];
        split; [right; reflexivity|];
        intros Hzero;
        first
          [ exfalso;
            match goal with
            | H : df_empty _ = false |- _ => exact (df_nonempty_len _ H Hzero)
            | H : nonempty_frame _ = Some _ |- _ => exact (nonempty_frame_len _ _ H Hzero)
            end
          | right; split; [eexists _, _, _; reflexivity|];
            split; [cbn [app tap_queries]; discriminate|];
            cbn [dict_get String.eqb Ascii.eqb Bool.eqb]; now rewrite Hzero ] ].
Qed.

(** X7.  The member-OUS search lists every row of the table the service
    answered with: [observations] holds the conversion of all the rows,
    [count] is their number, and there is no cap of 20 and no [showing]
    field.  A table with no row, or with no column, gives count 0 and an
    empty list. *)
Theorem X7_member_ous_lists_all (member_ous_id : string) (st st' : state W L)
        (w1 w2 : W) (df : DataFrame F)
        (d : dict F) (log : list (event F)) (obs : list (value F)) :
  PYVO_AVAILABLE = true ->
  TAPService tap_url (st_world st) = (Ok tt, w1) ->
  service_search (member_ous_query (normalize_uid member_ous_id)) w1 = (Ok df, w2) ->
  search_alma_by_member_ous member_ous_id st = (Ok d, st', log) ->
  dict_get "observations" d = Some (VList obs) ->
  dict_get "showing" d = None
  /\ (df_empty df = true -> obs = [] /\ dict_get "count" d = Some (vint 0))
  /\ (df_empty df = false ->
      rmap member_ous_obs (df_series df) = Ok obs
      /\ List.length obs = df_len df
      /\ dict_get "count" d = Some (vnat (df_len df))).
Proof.
  intros Hpyvo Hservice Hsearch. revert d st' log obs.
  unfold search_alma_by_member_ous. rewrite Hpyvo. cbn [negb]. unfold_monad.
  rewrite Hservice. cbn [st_world]. rewrite Hsearch.
  destruct (df_empty df) eqn:Hempty; cbv beta iota.
  - intros ? ? ? ?. read_response Hrun Hobs.
    split; [reflexivity|]. split; [auto | discriminate].
  - destruct (rmap member_ous_obs (df_series df)) as [l|e] eqn:Hconv; cbv beta iota;
      intros ? ? ? ?; read_response Hrun Hobs.
    split; [reflexivity|]. split; [discriminate|]. intros _.
    split; [reflexivity|]. split; [|reflexivity].
    apply rmap_length in Hconv. now rewrite Hconv, df_series_length.
Qed.

End Listing.

(* ===================================================================== *)
(** ** More on the batch query (tool 16) *)
(* ===================================================================== *)

Section DictPairs.
Context {A : Type} (Q : string -> A -> Prop).

Lemma dict_set_pairs (k : string) (v : A) (d : list (string * A)) :
  Q k v ->
  Forall (fun kv => Q (fst kv) (snd kv)) d ->
  Forall (fun kv => Q (fst kv) (snd kv)) (dict_set k v d).
Proof.
  intros Hv. induction d as [|[k' v'] d IH]; intros Hd.
  - repeat constructor. exact Hv.
  - cbn [dict_set]. inversion Hd; subst.
    destruct (String.eqb_spec k k') as [->|Hne]; constructor; auto.
Qed.

Lemma dict_get_pairs (k : string) (d : list (string * A)) :
  Forall (fun kv => Q (fst kv) (snd kv)) d ->
  In k (dict_keys d) ->
  exists v, dict_get k d = Some v /\ Q k v.
Proof.
  induction d as [|[k' v'] d IH]; intros Hd Hin; [contradiction|].
  inversion Hd; subst. cbn [dict_get].
  destruct (String.eqb_spec k k') as [->|Hne]; [eauto|].
  destruct Hin as [Heq|Hin]; [cbn in Heq; congruence | auto].
Qed.

End DictPairs.

Lemma first_occurrences_length (l seen : list string) :
  List.length (first_occurrences seen l) <= List.length l.
Proof.
  revert seen. induction l as [|x l IH]; intros seen; [reflexivity|].
  cbn [first_occurrences List.length].
  destruct (existsb (String.eqb x) seen).
  - specialize (IH seen). lia.
  - specialize (IH (seen ++ [x])%list). cbn [List.length]. lia.
Qed.

Section BatchMore.
Context {F : Type} {PF : PyFloat F} {W : Type} {C : Collaborators W F}
        {U : PyUnicode}.

Lemma tap_queries_app (l1 l2 : list (event F)) :
  tap_queries (l1 ++ l2) = (tap_queries l1 ++ tap_queries l2)%list.
Proof.
  induction l1 as [|ev l1 IH]; [reflexivity|].
  destruct ev; cbn [app tap_queries]; now rewrite ?IH.
Qed.

Lemma alminer_calls_app (l1 l2 : list (event F)) :
  alminer_calls (l1 ++ l2) = alminer_calls l1 + alminer_calls l2.
Proof.
  induction l1 as [|ev l1 IH]; [reflexivity|].
  destruct ev; cbn [app alminer_calls]; now rewrite ?IH.
Qed.

(** One turn of the loop asks the TAP service at most once, and alminer
    never. *)
Lemma batch_step_calls (source_name : string) (radius_arcmin : F)
      (st : state W (batch_locals F)) :
  List.length (tap_queries (log_of (batch_step source_name radius_arcmin st))) <= 1
  /\ alminer_calls (log_of (batch_step source_name radius_arcmin st)) = 0.
Proof.
  unfold batch_step, batch_item, set_result, add_observations. unfold_monad.
  split_run; cbn [log_of snd app tap_queries alminer_calls List.length]; lia.
Qed.

Lemma batch_loop_calls (source_names : list string) (radius_arcmin : F)
      (st : state W (batch_locals F)) :
  List.length (tap_queries (log_of (batch_loop source_names radius_arcmin st)))
  <= List.length source_names
  /\ alminer_calls (log_of (batch_loop source_names radius_arcmin st)) = 0.
Proof.
  revert st. induction source_names as [|name rest IH]; intros st.
  - cbn. lia.
  - cbn [batch_loop]. unfold bind.
    pose proof (batch_step_calls name radius_arcmin st) as [Hq Ha].
    destruct (batch_step_returns name radius_arcmin st) as (st1 & log1 & Hstep).
    rewrite Hstep in Hq, Ha |- *. cbn [log_of snd] in Hq, Ha.
    specialize (IH st1).
    destruct (batch_loop rest radius_arcmin st1) as [[r s] log2].
    cbn [log_of snd] in IH |- *.
    rewrite tap_queries_app, alminer_calls_app, length_app. cbn [List.length]. lia.
Qed.

(** X9.  The counts of a batch response are ordered: the number of
    sources with data is at most the number of entries of the result
    map, which is at most [total_sources_queried], which is at most
    20. *)
Theorem X9_batch_counts_ordered {L : Type}
  (source_names : list string) (radius_arcmin : F) (st : state W L) :
  SIMBAD_AVAILABLE = true -> PYVO_AVAILABLE = true ->
  exists d st' log results (k n : nat),
    query_alma_multiple_sources source_names radius_arcmin st = (Ok d, st', log)
    /\ dict_get "sources_with_alma_data" d = Some (vnat k)
    /\ dict_get "total_sources_queried" d = Some (vnat n)
    /\ dict_get "results_by_source" d = Some (VDict results)
    /\ k <= List.length results <= n
    /\ n <= 20.
Proof.
  intros Hsimbad Hpyvo.
  destruct (batch_run source_names radius_arcmin st Hsimbad Hpyvo)
    as (results & total & st' & log & Hrun & _ & Hkeys & _).
  exists (batch_summary (firstn 20 source_names) (mkBatch results total)),
         st', log, results.
  exists (List.length (filter status_is_found (dict_values results))),
         (List.length (firstn 20 source_names)).
  split; [exact Hrun|]. repeat split.
  - pose proof (filter_length_le status_is_found (dict_values results)) as Hle.
    unfold dict_values in *. rewrite length_map in Hle. exact Hle.
  - assert (Hlen : List.length results = List.length (dict_keys results))
      by (unfold dict_keys; now rewrite length_map).
    rewrite Hlen, Hkeys. apply first_occurrences_length.
  - rewrite length_firstn. lia.
Qed.

(** X10.  The batch never uses alminer, installed or not: it sends its
    own cone query to the TAP service, at most once for each name it
    processes, so at most twenty times. *)
Theorem X10_batch_uses_tap_only {L : Type}
  (source_names : list string) (radius_arcmin : F) (st : state W L) :
  alminer_calls (log_of (query_alma_multiple_sources source_names radius_arcmin st)) = 0
  /\ List.length
       (tap_queries (log_of (query_alma_multiple_sources source_names radius_arcmin st)))
     <= Nat.min (List.length source_names) 20.
Proof.
  unfold query_alma_multiple_sources.
  destruct SIMBAD_AVAILABLE; cbn [negb]; [|cbn; lia].
  destruct PYVO_AVAILABLE; cbn [negb]; [|cbn; lia].
  unfold try_except, with_locals, bind.
  pose proof (batch_loop_calls (firstn 20 source_names) radius_arcmin
                (mkState (st_world st) (mkBatch [] 0))) as [Hq Ha].
  destruct (batch_loop_returns (firstn 20 source_names) radius_arcmin
              (mkState (st_world st) (mkBatch [] 0))) as (st1 & log1 & Hloop).
  rewrite Hloop in Hq, Ha |- *. cbn [log_of snd] in Hq, Ha.
  unfold get_locals, ret. cbn [log_of snd].
  rewrite app_nil_r, length_firstn in *. rewrite Nat.min_comm. auto.
Qed.

(** Processing a name SIMBAD does not know: one call, one entry. *)
Lemma batch_step_unknown (source_name : string) (radius_arcmin : F)
      (st : state W (batch_locals F)) :
  unknown_to_simbad source_name ->
  exists w',
    batch_step source_name radius_arcmin st
    = (Ok tt,
       mkState w'
         (mkBatch (dict_set source_name (VDict (not_resolved_entry source_name))
                     (results_by_source (st_locals st)))
                  (total_observations (st_locals st))),
       [EvSimbad source_name]).
Proof.
  intros Hunknown. destruct (Hunknown (st_world st)) as (w' & [Hans | Hans]);
    exists w'; unfold batch_step, batch_item, set_result; unfold_monad;
    rewrite Hans; reflexivity.
Qed.

Lemma batch_loop_unknown (source_names : list string) (radius_arcmin : F)
      (st : state W (batch_locals F)) :
  Forall unknown_to_simbad source_names ->
  Forall (fun kv => snd kv = VDict (not_resolved_entry (fst kv)))
         (results_by_source (st_locals st)) ->
  exists st',
    batch_loop source_names radius_arcmin st = (Ok tt, st', map EvSimbad source_names)
    /\ Forall (fun kv => snd kv = VDict (not_resolved_entry (fst kv)))
              (results_by_source (st_locals st'))
    /\ total_observations (st_locals st') = total_observations (st_locals st)
    /\ dict_keys (results_by_source (st_locals st'))
       = (dict_keys (results_by_source (st_locals st))
          ++ first_occurrences (dict_keys (results_by_source (st_locals st)))
               source_names)%list.
Proof.
  revert st. induction source_names as [|name rest IH]; intros st Hall Hinv.
  - exists st. cbn. unfold ret. rewrite app_nil_r. auto.
  - inversion Hall as [|? ? Hname Hrest]; subst.
    destruct (batch_step_unknown name radius_arcmin st Hname) as (w' & Hstep).
    match type of Hstep with _ = (_, ?s, _) => set (st1 := s) in * end.
    assert (Hinv1 : Forall (fun kv => snd kv = VDict (not_resolved_entry (fst kv)))
                           (results_by_source (st_locals st1))).
    { subst st1. cbn [st_locals results_by_source].
      apply (dict_set_pairs (fun k v => v = VDict (not_resolved_entry k)));
        [reflexivity | exact Hinv]. }
    destruct (IH st1 Hrest Hinv1) as (st2 & Hloop & Hinv2 & Htotal & Hkeys).
    exists st2. cbn [batch_loop]. unfold bind. rewrite Hstep, Hloop.
    split; [reflexivity|]. split; [exact Hinv2|]. split; [exact Htotal|].
    rewrite Hkeys. subst st1. cbn [st_locals results_by_source].
    rewrite dict_keys_set. cbn [first_occurrences].
    destruct (existsb (String.eqb name) (dict_keys (results_by_source (st_locals st))));
      [reflexivity | now rewrite <- app_assoc].
Qed.

Lemma not_resolved_not_found (results : dict F) :
  Forall (fun kv => snd kv = VDict (not_resolved_entry (fst kv))) results ->
  filter status_is_found (dict_values results) = [].
Proof.
  induction results as [|[k v] results IH]; intros H; [reflexivity|].
  inversion H as [|? ? Hv Hrest]; subst. cbn [fst snd] in Hv. subst v.
  cbn [dict_values map snd filter]. cbn. apply (IH Hrest).
Qed.

(** X11.  When SIMBAD knows none of the first twenty names, the batch
    asks SIMBAD for each of them and nobody else; it reports no source
    with data and no observation, and the entry of every name has status
    [not_resolved] with the message [Could not resolve ... in SIMBAD]. *)
Theorem X11_batch_nothing_resolved {L : Type}
  (source_names : list string) (radius_arcmin : F) (st : state W L) :
  SIMBAD_AVAILABLE = true -> PYVO_AVAILABLE = true ->
  Forall unknown_to_simbad (firstn 20 source_names) ->
  exists d st' results,
    query_alma_multiple_sources source_names radius_arcmin st
    = (Ok d, st', map EvSimbad (firstn 20 source_names))
    /\ dict_get "sources_with_alma_data" d = Some (vint 0)
    /\ dict_get "total_observations" d = Some (vint 0)
    /\ dict_get "results_by_source" d = Some (VDict results)
    /\ (forall name, In name (firstn 20 source_names) ->
                     dict_get name results = Some (VDict (not_resolved_entry name))).
Proof.
  intros Hsimbad Hpyvo Hunknown. unfold query_alma_multiple_sources.
  rewrite Hsimbad, Hpyvo. cbn [negb].
  unfold try_except, with_locals, bind.
  destruct (batch_loop_unknown (firstn 20 source_names) radius_arcmin
              (mkState (st_world st) (mkBatch [] 0)) Hunknown (Forall_nil _))
    as (st1 & Hloop & Hinv & Htotal & Hkeys).
  rewrite Hloop. unfold get_locals, ret.
  destruct st1 as [w1 [results total]].
  cbn [st_locals results_by_source total_observations] in *. subst total.
  eexists _, _, results. split; [now rewrite app_nil_r|].
  unfold batch_summary. cbn [results_by_source total_observations].
  rewrite (not_resolved_not_found results Hinv).
  split; [reflexivity|]. split; [reflexivity|]. split; [reflexivity|].
  intros name Hin.
  destruct (dict_get_pairs (fun k v => v = VDict (not_resolved_entry k)) name results
              Hinv) as (v & Hget & ->); [|exact Hget].
  rewrite Hkeys. apply (first_occurrences_in (firstn 20 source_names) [] name).
  exact Hin.
Qed.

End BatchMore.

(* ===================================================================== *)
(** ** More on the texts of the queries *)
(* ===================================================================== *)

Section QueryTexts.
Context {F : Type} {PF : PyFloat F} {W : Type} {C : Collaborators W F}
        {U : PyUnicode}.
Context {L : Type}.
Import PyStr PyStrFacts.

Lemma swap_removes (old new : ascii) (s : string) :
  old <> new -> free_of old (map_chars (swap_char old new) s) = true.
Proof.
  intros Hne. induction s as [|c s IH]; [reflexivity|].
  cbn [map_chars free_of]. rewrite IH, andb_true_r.
  unfold swap_char. destruct (Ascii.eqb_spec old c) as [->|Hc].
  - destruct (Ascii.eqb_spec c new); [contradiction | reflexivity].
  - destruct (Ascii.eqb_spec old c); [contradiction | reflexivity].
Qed.

(** X12.  The normalized identifier holds no underscore, whatever the
    input; an input without underscores, such as an identifier already
    in the form [uid://A001/X123/X456], comes back unchanged; and
    normalizing twice is normalizing once. *)
Theorem X12_normalize_uid_idempotent (member_ous_id : string) :
  free_of "_" (normalize_uid member_ous_id) = true
  /\ (free_of "_" member_ous_id = true -> normalize_uid member_ous_id = member_ous_id)
  /\ normalize_uid (normalize_uid member_ous_id) = normalize_uid member_ous_id.
Proof.
  assert (Hfree : forall s, free_of "_" (normalize_uid s) = true).
  { intros s. unfold normalize_uid. rewrite (replace_char "_" "/").
    apply swap_removes. discriminate. }
  assert (Hid : forall s, free_of "_" s = true -> normalize_uid s = s).
  { intros s Hs. unfold normalize_uid.
    rewrite (replace_free "_" "__" "://" s Hs).
    exact (replace_free "_" EmptyString "/" s Hs). }
  split; [apply Hfree|]. split; [apply Hid|]. apply Hid, Hfree.
Qed.

(** X13.  The data-type search never puts the caller's [data_type] into
    the query as it was given: once the value has passed the check, the
    condition is one of two fixed texts, and the tool sends no query
    but the one that starts with it. *)
Theorem X13_data_type_condition_is_fixed
  (data_type : string) (target_name science_keyword : option string) (band : option Z) :
  is_cube_or_image data_type = true ->
  (data_type_condition data_type = "dataproduct_type = 'cube'"
   \/ data_type_condition data_type = "dataproduct_type = 'image'")
  /\ (exists rest,
        data_type_conditions data_type target_name science_keyword band
        = data_type_condition data_type :: "science_observation = 'T'" :: rest)
  /\ (forall (st : state W L) (q : string),
        In q (tap_queries
                (log_of (search_alma_by_data_type data_type target_name
                           science_keyword band st))) ->
        q = data_type_query
              (join " AND "
                 (data_type_conditions data_type target_name science_keyword band))).
Proof.
  intros Hok. split; [|split].
  - unfold is_cube_or_image in Hok. unfold data_type_condition.
    apply orb_prop in Hok as [H | H]; apply String.eqb_eq in H; rewrite H; auto.
  - unfold data_type_conditions.
    destruct (given_str target_name), (given_str science_keyword), (given_int band);
      cbn [append_if app]; eauto.
  - intros st q. unfold search_alma_by_data_type.
    unfold_monad; split_run; cbn [log_of snd app tap_queries In];
      intros; intuition congruence.
Qed.

Lemma digits_of_uint (d : Decimal.uint) :
  all_chars is_digit_or_minus (NilEmpty.string_of_uint d) = true.
Proof. induction d; cbn [NilEmpty.string_of_uint all_chars]; rewrite ?IHd; reflexivity. Qed.

Lemma digits_of_Z (z : Z) : all_chars is_digit_or_minus (of_Z z) = true.
Proof.
  unfold of_Z, NilZero.string_of_int.
  destruct (Z.to_int z) as [d|d]; cbn [all_chars]; try rewrite andb_true_l;
    unfold NilZero.string_of_uint; destruct d; try reflexivity;
    apply digits_of_uint.
Qed.

Lemma digits_hold_no_quote (s : string) :
  all_chars is_digit_or_minus s = true -> free_of "'" s = true.
Proof.
  induction s as [|c s IH]; [reflexivity|].
  cbn [all_chars free_of]. intros H. apply andb_prop in H as [Hc Hs].
  rewrite (IH Hs), andb_true_r.
  destruct (Ascii.eqb_spec "'"%char c) as [<-|]; [discriminate Hc | reflexivity].
Qed.

(** X14.  An integer parameter ([band], [publication_year], [max_rows])
    enters a query as its decimal notation: digits, with a minus sign
    for a negative number, and so never a quote.  The [band] condition
    is therefore always read as one string literal, the digits between
    two percent signs. *)
Theorem X14_integers_enter_as_digits (z : Z) :
  all_chars is_digit_or_minus (of_Z z) = true
  /\ free_of "'" (of_Z z) = true
  /\ spec_string_literals (band_condition z) = Some ["%" ++ of_Z z ++ "%"].
Proof.
  pose proof (digits_of_Z z) as Hd.
  pose proof (digits_hold_no_quote _ Hd) as Hq.
  split; [exact Hd|]. split; [exact Hq|].
  unfold band_condition.
  change ("band_list LIKE '%" ++ of_Z z ++ "%'")
    with ("band_list LIKE " ++ "'" ++ "%" ++ of_Z z ++ "%'").
  replace ("%" ++ of_Z z ++ "%'") with (("%" ++ of_Z z ++ "%") ++ "'" ++ EmptyString)
    by (cbn [append]; now rewrite append_assoc).
  apply scan_quoted; [reflexivity | | reflexivity].
  cbn [append free_of]. cbn.
  clear Hd. induction (of_Z z) as [|c s IH]; [reflexivity|].
  cbn [append free_of] in *. apply andb_prop in Hq as [Hc Hs].
  now rewrite Hc, (IH Hs).
Qed.

(** X15.  An optional text parameter given as the empty string, and an
    optional [band] or [publication_year] given as 0, are treated as not
    given at all: the tool runs exactly as without them. *)
Theorem X15_empty_is_absent (st : state W L) :
  (forall lo hi, search_alma_by_frequency lo hi (Some EmptyString) st
                 = search_alma_by_frequency lo hi None st)
  /\ (forall hi lo, search_alma_by_resolution hi lo (Some EmptyString) st
                    = search_alma_by_resolution hi lo None st)
  /\ (forall m s, search_alma_by_sensitivity m s (Some EmptyString) (Some 0%Z) st
                  = search_alma_by_sensitivity m s None None st)
  /\ (forall d, search_alma_by_data_type d (Some EmptyString) (Some EmptyString)
                  (Some 0%Z) st
                = search_alma_by_data_type d None None None st)
  /\ (forall k s, search_alma_by_science_keyword k (Some EmptyString) (Some 0%Z) s st
                  = search_alma_by_science_keyword k None None s st)
  /\ (forall b j, search_alma_by_bibliography b j (Some EmptyString) (Some 0%Z) st
                  = search_alma_by_bibliography b j None None st)
  /\ (forall p, search_alma_by_proposal p (Some EmptyString) (Some EmptyString) st
                = search_alma_by_proposal p None None st).
Proof. repeat split. Qed.

End QueryTexts.

(* ===================================================================== *)
(** ** Falling through, and failing *)
(* ===================================================================== *)

Section Fallthrough.
Context {F : Type} {PF : PyFloat F} {W : Type} {C : Collaborators W F}
        {U : PyUnicode}.
Context {L : Type}.

(** X17.  In the proposal search an exception from alminer is dropped
    and the TAP query is tried in its place.  With the TAP library
    installed, the answer of the TAP service is returned, listed by
    [df.head(20)] even when it is empty, and the message of alminer
    appears nowhere in the response; without it the response is the
    error [Neither alminer nor pyvo available].  The TAP query filters
    on [proposal_id] and [pi_name] only: with a [science_category] alone
    its [WHERE] clause is [1=1]. *)
Theorem X17_proposal_falls_through_to_tap
  (proposal_id pi_name science_category : option string) (st : state W L)
  (e : string) (w1 : W) :
  is_given (given_str proposal_id) || is_given (given_str pi_name)
  || is_given (given_str science_category) = true ->
  ALMINER_AVAILABLE = true ->
  alminer_keysearch (proposal_search_dict proposal_id pi_name science_category) true
                    (st_world st) = (Raise e, w1) ->
  let tried := [EvKeysearch (proposal_search_dict proposal_id pi_name science_category)
                            true;
                EvRaised e] in
  let query := proposal_query (proposal_where_clause proposal_id pi_name) in
  (PYVO_AVAILABLE = false ->
   search_alma_by_proposal proposal_id pi_name science_category st
   = (Ok (error_response "Neither alminer nor pyvo available"),
      mkState w1 (st_locals st), tried))
  /\ (PYVO_AVAILABLE = true ->
      forall w2 df w3,
        TAPService tap_url w1 = (Ok tt, w2) ->
        service_search query w2 = (Ok df, w3) ->
        search_alma_by_proposal proposal_id pi_name science_category st
        = (Ok [("count", vnat (df_len df));
               ("showing", vnat (Nat.min 20 (df_len df)));
               ("observations",
                VList (map proposal_obs_tap (firstn 20 (df_series df))));
               ("summary", vstr ("Found " ++ PyStr.of_nat (df_len df)
                                 ++ " observations matching criteria"))],
           mkState w3 (st_locals st),
           tried ++ [EvTAPService tap_url; EvTAPSearch query])%list)
  /\ (given_str proposal_id = None -> given_str pi_name = None ->
      proposal_where_clause proposal_id pi_name = "1=1").
Proof.
  intros Hvalid Halminer Hkey tried query. subst tried query.
  unfold search_alma_by_proposal, proposal_alminer.
  rewrite Hvalid, Halminer. cbn [negb]. unfold_monad. rewrite Hkey.
  split; [|split].
  - intros Hpyvo. rewrite Hpyvo. reflexivity.
  - intros Hpyvo w2 df w3 Hservice Hsearch. rewrite Hpyvo. cbn [negb st_world].
    rewrite Hservice. cbn [st_world]. rewrite Hsearch. reflexivity.
  - intros Hp Hpi. unfold proposal_where_clause, proposal_conditions.
    rewrite Hp, Hpi. reflexivity.
Qed.

Ltac unfold_tap_tools :=
  unfold run, search_alma_by_position, search_alma_by_frequency,
    search_alma_by_resolution, run_alma_tap_query, search_alma_by_source_name,
    search_alma_by_bibliography, search_alma_by_member_ous,
    search_alma_by_data_type, search_alma_by_science_keyword,
    search_alma_by_abstract, search_alma_by_sensitivity.

(** X18.  In each of the eleven TAP-only tools, a request that has
    passed the checks and then meets an exception, either when the
    service object is made or when the query is run, is answered with
    the tool's own prefix followed by the message of the exception (and
    with the usage hint in the raw-query tool); the response is built
    from nothing else. *)
Theorem X18_tap_failure_is_reported (op : operation F) (st : state W L) (e : string) :
  uses_only_tap op = true ->
  PYVO_AVAILABLE = true ->
  passes_validation op = true ->
  (forall w1,
      TAPService tap_url (st_world st) = (Raise e, w1) ->
      run op st = (Ok (failure_response op e), mkState w1 (st_locals st),
                   [EvTAPService tap_url; EvRaised e]))
  /\ (forall w1,
        TAPService tap_url (st_world st) = (Ok tt, w1) ->
        (forall q, exists w2, service_search q w1 = (Raise e, w2)) ->
        response_of (run op st) = Ok (failure_response op e)
        /\ raised_calls (log_of (run op st)) = [e]).
Proof.
  intros Hop Hpyvo Hvalid.
  destruct op; try discriminate Hop; clear Hop; cbn [passes_validation] in Hvalid;
    unfold_tap_tools; rewrite Hpyvo, ?Hvalid; cbn [negb]; unfold_monad;
    (split;
     [ intros w1 Hservice; rewrite Hservice; reflexivity
     | intros w1 Hservice Hrefused; rewrite Hservice; cbn [st_world];
       match goal with
       | |- context [service_search ?q w1] =>
           destruct (Hrefused q) as (w2 & Hsearch); rewrite Hsearch
       end;
       split; reflexivity ]).
Qed.

End Fallthrough.

(* ===================================================================== *)
(** ** Rows, and the line coverage check *)
(* ===================================================================== *)

Section Rows.
Context {F : Type} {PF : PyFloat F} {W : Type} {C : Collaborators W F}
        {U : PyUnicode}.
Context {L : Type}.
Import PyStr PyStrFacts.

Lemma take_chars_count (n : nat) (s : string) : char_count (take_chars n s) <= n.
Proof.
  revert n. induction s as [|c s IH]; intros n; cbn [take_chars char_count]; [lia|].
  destruct (is_continuation c) eqn:Hc; cbn [char_count]; rewrite ?Hc; [apply IH|].
  destruct n as [|k]; cbn [char_count]; rewrite ?Hc; [lia|].
  specialize (IH k). lia.
Qed.

Lemma take_chars_prefix (n : nat) (s : string) : String.prefix (take_chars n s) s = true.
Proof.
  revert n. induction s as [|c s IH]; intros n; cbn [take_chars]; [reflexivity|].
  destruct (is_continuation c); [rewrite prefix_head_same; apply IH|].
  destruct n as [|k]; [reflexivity|]. rewrite prefix_head_same. apply IH.
Qed.

Lemma take_chars_short (n : nat) (s : string) : char_count s <= n -> take_chars n s = s.
Proof.
  revert n. induction s as [|c s IH]; intros n; cbn [take_chars char_count]; [reflexivity|].
  destruct (is_continuation c); intros Hlen; [now rewrite IH|].
  destruct n as [|k]; [lia|]. rewrite IH; [reflexivity | lia].
Qed.

(** On ASCII text the characters are the bytes. *)
Lemma take_chars_ascii (n : nat) (s : string) :
  is_ascii s = true -> take_chars n s = take n s.
Proof.
  revert n. induction s as [|c s IH]; intros n Hs.
  - now destruct n.
  - cbn [is_ascii] in Hs. apply andb_prop in Hs as [Hc Hs].
    cbn [take_chars]. unfold is_continuation.
    apply Nat.ltb_lt in Hc.
    destruct (Nat.leb_spec 128 (nat_of_ascii c)); [lia|]. cbn [andb].
    destruct n as [|k]; [reflexivity|]. cbn [take]. now rewrite IH.
Qed.

(** X19.  In the bibliography search the title of a publication is cut
    to its first 100 characters: the [pub_title] of an observation is a
    prefix of the title of the row, as text, of at most 100 characters
    (a character beyond ASCII counts once, whatever the bytes of its
    encoding), and the whole title when that has no more; a row without
    a title gives [Unknown]. *)
Theorem X19_pub_title_is_cut (row : series F) :
  exists d t,
    bibliography_obs row = VDict d
    /\ dict_get "pub_title" d = Some (vstr t)
    /\ char_count t <= 100
    /\ String.prefix t (py_str (get_or_unknown "pub_title" row)) = true
    /\ (char_count (py_str (get_or_unknown "pub_title" row)) <= 100 ->
        t = py_str (get_or_unknown "pub_title" row))
    /\ (is_ascii (py_str (get_or_unknown "pub_title" row)) = true ->
        t = take 100 (py_str (get_or_unknown "pub_title" row)))
    /\ (dict_get "pub_title" row = None -> t = "Unknown").
Proof.
  eexists _, _. split; [reflexivity|]. split; [reflexivity|].
  split; [apply take_chars_count|]. split; [apply take_chars_prefix|].
  split; [apply take_chars_short|]. split; [apply take_chars_ascii|].
  intros Hnone. unfold get_or_unknown, row_get. rewrite Hnone. reflexivity.
Qed.

(** X20.  A row of an alminer result is read under the names of the
    TAP service first and under alminer's own names second.  The
    proposal of an observation is the [proposal_id] of the row when the
    row has one, else its [project_code], else [Unknown]; and a row
    that has none of the eleven columns still gives the full record,
    with [Unknown] for the texts and zero for the numbers. *)
Theorem X20_alminer_row_synonyms (row : series F) :
  (exists d v,
      proposal_obs_alminer row = VDict d
      /\ dict_get "proposal_id" d = Some (VScalar v)
      /\ (forall x, dict_get "proposal_id" row = Some x -> v = x)
      /\ (dict_get "proposal_id" row = None ->
          forall x, dict_get "project_code" row = Some x -> v = x)
      /\ (dict_get "proposal_id" row = None -> dict_get "project_code" row = None ->
          v = SStr "Unknown"))
  /\ ((forall k,
          In k ["target_name"; "s_ra"; "ra"; "s_dec"; "dec"; "band_list"; "band";
                "proposal_id"; "project_code"; "t_exptime"; "integration_time"] ->
          dict_get k row = None) ->
      target_obs row
      = Ok (VDict [("target", vstr "Unknown");
                   ("ra", vint 0);
                   ("dec", vint 0);
                   ("band", vstr "Unknown");
                   ("proposal_id", vstr "Unknown");
                   ("integration_time_sec", vfloat (f_of_Z 0))])).
Proof.
  split.
  - eexists _, _. split; [reflexivity|]. split; [reflexivity|].
    unfold get_or_unknown, row_get. repeat split.
    + intros x Hx. now rewrite Hx.
    + intros Hnone x Hx. now rewrite Hnone, Hx.
    + intros Hnone Hnone'. now rewrite Hnone, Hnone'.
  - intros Hmissing. unfold target_obs, get_or_unknown, row_get.
    rewrite !Hmissing by (cbn [In]; tauto). reflexivity.
Qed.

(** X21.  The line coverage check, once the target is resolved.  When
    the cone search finds nothing, alminer's line coverage is not
    called and the response counts zero observations.  When it finds
    some, the observed frequency is the rest frequency divided by
    [1 + redshift], rounded to four places; a redshift that makes the
    divisor zero ends the tool with the error
    [Line coverage check failed: float division by zero]. *)
Theorem X21_line_coverage
  (target_name : string) (line_frequency_ghz redshift : F) (st : state W L)
  (ra_str dec_str : string) (rows : list (string * string)) (w1 : W)
  (ra_deg dec_deg : F) :
  ALMINER_AVAILABLE = true -> SIMBAD_AVAILABLE = true ->
  Simbad_query_object target_name (st_world st)
  = (Ok (Some ((ra_str, dec_str) :: rows)), w1) ->
  SkyCoord ra_str dec_str = Ok (ra_deg, dec_deg) ->
  let searched :=
    [EvSimbad target_name; EvConesearch ra_deg dec_deg (f_lit 16 (-3)) true] in
  (forall odf w2,
      alminer_conesearch ra_deg dec_deg (f_lit 16 (-3)) true w1 = (Ok odf, w2) ->
      nonempty_frame odf = None ->
      check_alma_line_coverage target_name line_frequency_ghz redshift st
      = (Ok [("total_observations", vint 0);
             ("covering_line", vint 0);
             ("summary", vstr ("No ALMA observations found for " ++ target_name))],
         mkState w2 (st_locals st), searched))
  /\ (forall df w2 ocov w3,
        alminer_conesearch ra_deg dec_deg (f_lit 16 (-3)) true w1 = (Ok (Some df), w2) ->
        df_empty df = false ->
        alminer_line_coverage df line_frequency_ghz redshift w2 = (Ok ocov, w3) ->
        (f_is_zero (f_add (f_of_Z 1) redshift) = true ->
         check_alma_line_coverage target_name line_frequency_ghz redshift st
         = (Ok (error_response "Line coverage check failed: float division by zero"),
            mkState w3 (st_locals st),
            searched ++ [EvLineCoverage line_frequency_ghz redshift])%list)
        /\ (f_is_zero (f_add (f_of_Z 1) redshift) = false ->
            exists d,
              response_of (check_alma_line_coverage target_name line_frequency_ghz
                             redshift st) = Ok d
              /\ dict_get "total_observations" d = Some (vnat (df_len df))
              /\ dict_get "covering_line" d
                 = Some (vnat (match nonempty_frame ocov with
                               | Some covered_df => df_len covered_df
                               | None => 0
                               end))
              /\ dict_get "observed_frequency_ghz" d
                 = Some (vfloat (f_round (f_div line_frequency_ghz
                                            (f_add (f_of_Z 1) redshift)) 4)))).
Proof.
  intros Halminer Hsimbad Hans Hsky searched. subst searched.
  unfold check_alma_line_coverage. rewrite Halminer, Hsimbad. cbn [negb].
  unfold_monad. rewrite Hans, Hsky. cbn [st_world]. split.
  - intros odf w2 Hcone Hnone. rewrite Hcone, Hnone. reflexivity.
  - intros df w2 ocov w3 Hcone Hfull Hcov. rewrite Hcone.
    assert (Hne : nonempty_frame (Some df) = Some df)
      by (unfold nonempty_frame; now rewrite Hfull).
    rewrite Hne. cbn [st_world]. rewrite Hcov.
    unfold py_fdiv. split; intros Hzero; rewrite Hzero.
    + destruct (nonempty_frame ocov); reflexivity.
    + destruct (nonempty_frame ocov); cbv beta iota delta [response_of fst];
        eexists; (split; [reflexivity|]); repeat split.
Qed.

End Rows.

(* ===================================================================== *)
(** ** Empty results, raw rows, unique values *)
(* ===================================================================== *)

Section Results.
Context {F : Type} {PF : PyFloat F} {W : Type} {C : Collaborators W F}
        {U : PyUnicode}.
Context {L : Type}.

Ltac unfold_tap_tools :=
  unfold run, search_alma_by_position, search_alma_by_frequency,
    search_alma_by_resolution, run_alma_tap_query, search_alma_by_source_name,
    search_alma_by_bibliography, search_alma_by_member_ous,
    search_alma_by_data_type, search_alma_by_science_keyword,
    search_alma_by_abstract, search_alma_by_sensitivity.

(** X22.  In each of the eleven TAP-only tools an empty answer of the
    service is a success, not an error: the response has count 0, an
    empty list of observations (of rows, in the raw-query tool), no
    [showing] field and no [error] field, and no row is converted. *)
Theorem X22_empty_result_is_success (op : operation F) (st : state W L) (w1 : W) :
  uses_only_tap op = true ->
  PYVO_AVAILABLE = true ->
  passes_validation op = true ->
  TAPService tap_url (st_world st) = (Ok tt, w1) ->
  (forall q, exists df w2, service_search q w1 = (Ok df, w2) /\ df_empty df = true) ->
  exists d,
    response_of (run op st) = Ok d
    /\ has_key "error" d = false
    /\ dict_get "count" d = Some (vint 0)
    /\ dict_get "showing" d = None
    /\ (if is_tap_query op
        then dict_get "rows" d = Some (VList [])
        else dict_get "observations" d = Some (VList [])).
Proof.
  intros Hop Hpyvo Hvalid Hservice Hempty.
  destruct op; try discriminate Hop; clear Hop; cbn [passes_validation] in Hvalid;
    unfold_tap_tools; rewrite Hpyvo, ?Hvalid; cbn [negb]; unfold_monad;
    rewrite Hservice; cbn [st_world];
    match goal with
    | |- context [service_search ?q w1] =>
        destruct (Hempty q) as (df & w2 & Hsearch & Hdf); rewrite Hsearch, Hdf
    end;
    cbv beta iota delta [response_of fst];
    eexists; (split; [reflexivity|]); repeat split.
Qed.

Lemma combine_app {A B} (l1 l2 : list A) (k1 k2 : list B) :
  List.length l1 = List.length k1 ->
  combine (l1 ++ l2) (k1 ++ k2) = (combine l1 k1 ++ combine l2 k2)%list.
Proof.
  revert k1. induction l1 as [|a l1 IH]; intros [|b k1] H; try discriminate H.
  - reflexivity.
  - cbn. f_equal. apply IH. now injection H.
Qed.

Lemma cells_of_absent {B} (col : string) (columns : list string) (cells : list B)
      (f : string * B -> bool) :
  (forall cell, f cell = String.eqb col (fst cell)) ->
  ~ In col columns ->
  filter f (combine columns cells) = [].
Proof.
  intros Hf. revert cells. induction columns as [|c columns IH]; intros cells Hnot.
  - reflexivity.
  - destruct cells as [|x cells]; [reflexivity|]. cbn [combine filter].
    rewrite Hf. cbn [fst].
    destruct (String.eqb_spec col c) as [->|_]; [exfalso; apply Hnot; now left|].
    apply IH. intros Hin. apply Hnot. now right.
Qed.

Lemma row_item_distinct (pre post : list string) (col : string)
      (cpre cpost : list (scalar F)) (c : scalar F) :
  NoDup (pre ++ col :: post) ->
  List.length pre = List.length cpre ->
  row_item col (combine (pre ++ col :: post) (cpre ++ c :: cpost)) = Ok c.
Proof.
  intros Hnodup Hlen. unfold row_item.
  rewrite combine_app by exact Hlen. rewrite filter_app.
  pose proof (NoDup_remove_2 _ _ _ Hnodup) as Hnot.
  rewrite (cells_of_absent col pre cpre) by
    (try reflexivity; intros Hin; apply Hnot; apply in_or_app; now left).
  cbn [app combine filter fst]. rewrite String.eqb_refl.
  rewrite (cells_of_absent col post cpost) by
    (try reflexivity; intros Hin; apply Hnot; apply in_or_app; now right).
  reflexivity.
Qed.

Lemma dict_set_new {A} (k : string) (v : A) (d : list (string * A)) :
  ~ In k (dict_keys d) -> dict_set k v d = (d ++ [(k, v)])%list.
Proof.
  induction d as [|[k' v'] d IH]; intros Hnot; [reflexivity|].
  cbn [dict_set app]. destruct (String.eqb_spec k k') as [->|_].
  - exfalso. apply Hnot. now left.
  - f_equal. apply IH. intros Hin. apply Hnot. now right.
Qed.

Lemma dict_keys_combine {A} (l : list string) (k : list A) :
  List.length l = List.length k -> dict_keys (combine l k) = l.
Proof.
  unfold dict_keys. revert k. induction l as [|a l IH]; intros [|b k] H;
    try discriminate H; [reflexivity|].
  cbn. f_equal. apply IH. now injection H.
Qed.

(** With distinct labels, the mapping of a row pairs each label with the
    cell of its column, in the order of the table. *)
Lemma row_dict_distinct_from (rest pre : list string) (cpre crest : list (scalar F)) :
  NoDup (pre ++ rest) ->
  List.length pre = List.length cpre ->
  List.length rest = List.length crest ->
  row_dict rest (combine (pre ++ rest) (cpre ++ crest))
           (combine pre (map VScalar cpre))
  = Ok (combine (pre ++ rest) (map VScalar (cpre ++ crest))).
Proof.
  revert pre cpre crest.
  induction rest as [|col rest IH]; intros pre cpre crest Hnodup Hpre Hrest.
  - destruct crest; [|discriminate Hrest]. now rewrite !app_nil_r.
  - destruct crest as [|c crest]; [discriminate Hrest|].
    cbn [row_dict]. rewrite row_item_distinct by assumption. cbn [rbind].
    rewrite dict_set_new.
    + replace (pre ++ col :: rest)%list with ((pre ++ [col]) ++ rest)%list
        by now rewrite <- app_assoc.
      replace (cpre ++ c :: crest)%list with ((cpre ++ [c]) ++ crest)%list
        by now rewrite <- app_assoc.
      replace (combine pre (map VScalar cpre) ++ [(col, VScalar c)])%list
        with (combine (pre ++ [col]) (map VScalar (cpre ++ [c]))).
      * apply IH.
        -- now rewrite <- app_assoc.
        -- rewrite !length_app. cbn. lia.
        -- now injection Hrest.
      * rewrite map_app. rewrite combine_app by now rewrite length_map.
        reflexivity.
    + rewrite dict_keys_combine by now rewrite length_map.
      apply NoDup_remove_2 in Hnodup. intros Hin. apply Hnodup.
      apply in_or_app. now left.
Qed.

Lemma row_dict_distinct (columns : list string) (cells : list (scalar F)) :
  NoDup columns ->
  List.length cells = List.length columns ->
  row_dict columns (combine columns cells) []
  = Ok (combine columns (map VScalar cells)).
Proof.
  intros Hnodup Hlen.
  exact (row_dict_distinct_from columns [] [] cells Hnodup eq_refl (eq_sym Hlen)).
Qed.

(** A label with two cells or more stops the conversion of the row. *)
Lemma row_dict_repeated (rest : list string) (row : series F) (acc : dict F) :
  (forall col, In col rest -> cells_of col row <> []) ->
  (exists col, In col rest /\ 2 <= List.length (cells_of col row)) ->
  row_dict rest row acc
  = Raise "can only convert an array of size 1 to a Python scalar".
Proof.
  revert acc. induction rest as [|col rest IH]; intros acc Hall (rep & Hin & Hrep).
  - destruct Hin.
  - cbn [row_dict]. unfold row_item. fold (cells_of col row).
    pose proof (Hall col (or_introl eq_refl)) as Hcol.
    destruct (cells_of col row) as [|[k v] [|cell more]] eqn:Hcells;
      [contradiction | | reflexivity].
    cbn [rbind]. apply IH.
    + intros c Hc. apply Hall. now right.
    + exists rep. split; [|exact Hrep].
      destruct Hin as [<- | Hin]; [|exact Hin].
      rewrite Hcells in Hrep. cbn in Hrep. lia.
Qed.

Lemma cells_of_count (col : string) (columns : list string) (cells : list (scalar F)) :
  List.length cells = List.length columns ->
  List.length (cells_of col (combine columns cells)) = count_occ string_dec columns col.
Proof.
  unfold cells_of. revert cells.
  induction columns as [|c columns IH]; intros [|x cells] H; try discriminate H;
    [reflexivity|].
  cbn [combine filter fst count_occ].
  destruct (String.eqb_spec col c) as [->|Hne].
  - destruct (string_dec c c); [|contradiction]. cbn [List.length]. f_equal.
    apply IH. now injection H.
  - destruct (string_dec c col); [congruence|]. apply IH. now injection H.
Qed.

Lemma repeated_label_found (l : list string) :
  ~ NoDup l -> exists x, In x l /\ 2 <= count_occ string_dec l x.
Proof.
  induction l as [|a l IH]; intros Hdup.
  - exfalso. apply Hdup. constructor.
  - destruct (in_dec string_dec a l) as [Hin | Hnot].
    + exists a. split; [now left|]. cbn [count_occ].
      destruct (string_dec a a); [|contradiction].
      apply (count_occ_In string_dec) in Hin. lia.
    + destruct IH as (x & Hx & Hcount).
      { intros Hl. apply Hdup. now constructor. }
      exists x. split; [now right|]. cbn [count_occ].
      destruct (string_dec a x); lia.
Qed.

Lemma map_snd_combine {A B} (l : list A) (k : list B) :
  List.length k = List.length l -> map snd (combine l k) = k.
Proof.
  revert k. induction l as [|a l IH]; intros [|b k] H; try discriminate H;
    [reflexivity|].
  cbn. f_equal. apply IH. now injection H.
Qed.

Lemma rmap_all {A B} (f : A -> result B) (g : A -> B) (l : list A) :
  (forall a, In a l -> f a = Ok (g a)) -> rmap f l = Ok (map g l).
Proof.
  induction l as [|a l IH]; intros H; [reflexivity|].
  cbn [rmap map]. rewrite (H a (or_introl eq_refl)). cbn [rbind].
  rewrite IH by (intros b Hb; apply H; now right). reflexivity.
Qed.

Lemma Forall_firstn_keeps {A} (P : A -> Prop) (n : nat) (l : list A) :
  Forall P l -> Forall P (firstn n l).
Proof.
  intros H. revert n. induction H as [|a l Ha Hl IH]; intros [|n]; cbn [firstn];
    constructor; auto.
Qed.

(** X23.  The raw-query tool, answered with a table that is not empty,
    converts the first [max_rows] rows (at most 1000).  Where the labels
    of the columns are distinct, each row of the response is the mapping
    from the labels, in the order of the table, to the cells of the row,
    and [columns] lists the labels.  Where a label heads two columns,
    the cell read under it is a sub-series, [item()] raises on the first
    row, and the tool answers with its error and the hint. *)
Theorem X23_raw_rows_have_the_columns
  (sql_query : string) (max_rows : Z) (st : state W L) (w1 w2 : W) (df : DataFrame F) :
  PYVO_AVAILABLE = true ->
  TAPService tap_url (st_world st) = (Ok tt, w1) ->
  service_search (add_top_clause sql_query (limit_max_rows max_rows)) w1 = (Ok df, w2) ->
  df_empty df = false ->
  rectangular df ->
  (0 < limit_max_rows max_rows)%Z ->
  (NoDup (df_columns df) ->
   exists d,
     response_of (run_alma_tap_query sql_query max_rows st) = Ok d
     /\ has_key "error" d = false
     /\ dict_get "columns" d = Some (vstrs (df_columns df))
     /\ dict_get "rows" d
        = Some (VList (map (fun cells =>
                              VDict (combine (df_columns df) (map VScalar cells)))
                           (firstn (Z.to_nat (limit_max_rows max_rows)) (df_rows df)))))
  /\ (~ NoDup (df_columns df) ->
      response_of (run_alma_tap_query sql_query max_rows st)
      = Ok [("error",
             vstr "TAP query failed: can only convert an array of size 1 to a Python scalar");
            ("hint", vstr tap_query_hint)]).
Proof.
  intros Hpyvo Hservice Hsearch Hempty Hrect Hcap.
  unfold run_alma_tap_query. rewrite Hpyvo. cbn [negb]. unfold_monad.
  rewrite Hservice. cbn [st_world]. rewrite Hsearch, Hempty.
  unfold df_head. destruct (Z.leb_spec 0 (limit_max_rows max_rows)); [|lia].
  unfold df_series. rewrite firstn_map.
  set (n := Z.to_nat (limit_max_rows max_rows)).
  assert (Hrows : Forall (fun cells => List.length cells = List.length (df_columns df))
                         (firstn n (df_rows df)))
    by now apply Forall_firstn_keeps.
  split.
  - intros Hnodup.
    rewrite (rmap_all _ (fun row : series F => VDict (combine (df_columns df)
                                             (map VScalar (map snd row))))).
    + cbv beta iota delta [response_of fst]. eexists.
      split; [reflexivity|]. split; [reflexivity|]. split; [reflexivity|].
      cbn [dict_get String.eqb Ascii.eqb Bool.eqb]. do 2 f_equal.
      rewrite map_map. apply map_ext_in. intros cells Hcells.
      apply (proj1 (Forall_forall _ _) Hrows) in Hcells.
      now rewrite map_snd_combine.
    + intros row Hrow. apply in_map_iff in Hrow as (cells & <- & Hcells).
      apply (proj1 (Forall_forall _ _) Hrows) in Hcells.
      rewrite row_dict_distinct by assumption. cbn [rbind].
      now rewrite map_snd_combine.
  - intros Hdup.
    destruct (repeated_label_found _ Hdup) as (rep & Hin & Hcount).
    destruct (firstn n (df_rows df)) as [|cells rows'] eqn:Hfirst.
    + exfalso. unfold df_empty in Hempty.
      destruct (df_columns df); [discriminate|].
      destruct (df_rows df); [discriminate|].
      assert (n <> 0) by (subst n; lia). destruct n; [contradiction | discriminate].
    + inversion Hrows as [|? ? Hlen _]; subst. cbn [map rmap].
      rewrite row_dict_repeated.
      * reflexivity.
      * intros col Hcol Hnil.
        pose proof (cells_of_count col _ _ Hlen) as Hc. rewrite Hnil in Hc.
        apply (count_occ_In string_dec) in Hcol. cbn in Hc. lia.
      * exists rep. split; [exact Hin|]. now rewrite cells_of_count.
Qed.

End Results.

Section UniqueValues.
Context {F : Type} {PF : PyFloat F} {W : Type} {C : Collaborators W F}
        {U : PyUnicode}.
Context {L : Type}.

Lemma unique_from_text (names seen : list string) (seen' : list (scalar F)) :
  (forall x, existsb (scalar_eqb (SStr x)) seen' = existsb (String.eqb x) seen) ->
  unique_from seen' (map SStr names) = map SStr (first_occurrences seen names).
Proof.
  revert seen seen'. induction names as [|x names IH]; intros seen seen' Hsame;
    [reflexivity|].
  cbn [map unique_from first_occurrences]. rewrite Hsame.
  destruct (existsb (String.eqb x) seen) eqn:Hx; [now apply IH|].
  cbn [map]. f_equal. apply IH. intros y.
  cbn [existsb scalar_eqb]. rewrite existsb_app, Hsame. cbn [existsb].
  rewrite orb_false_r. apply orb_comm.
Qed.

(** On a column of texts, [unique] keeps each text once, at the place of
    its first occurrence. *)
Lemma unique_text (names : list string) :
  unique (F := F) (map SStr names) = map SStr (first_occurrences [] names).
Proof. unfold unique. now apply unique_from_text. Qed.

(** X24.  In the source-name search, [unique_targets_found] is taken
    from all the rows of the answer, not only from the twenty that are
    listed: when the [target_name] column holds texts, it lists the
    first ten distinct names, each once, in the order in which they
    first occur. *)
Theorem X24_unique_targets
  (source_name : string) (exact_match : bool) (st : state W L)
  (w1 w2 : W) (df : DataFrame F) (names : list string) (d : dict F) :
  PYVO_AVAILABLE = true ->
  TAPService tap_url (st_world st) = (Ok tt, w1) ->
  service_search (source_name_query source_name exact_match) w1 = (Ok df, w2) ->
  df_empty df = false ->
  df_column "target_name" df = Ok (map SStr names) ->
  response_of (search_alma_by_source_name source_name exact_match st) = Ok d ->
  has_key "error" d = false ->
  dict_get "unique_targets_found" d
  = Some (vscalars (map SStr (firstn 10 (first_occurrences [] names))))
  /\ dict_get "count" d = Some (vnat (df_len df))
  /\ List.length (firstn 10 (first_occurrences [] names)) <= 10.
Proof.
  intros Hpyvo Hservice Hsearch Hfull Hcol.
  unfold search_alma_by_source_name. rewrite Hpyvo. cbn [negb]. unfold_monad.
  rewrite Hservice. cbn [st_world]. rewrite Hsearch, Hfull, Hcol.
  destruct (rmap source_name_obs (firstn 20 (df_series df))) as [obs|e];
    cbv beta iota delta [response_of fst]; intros Hd Hok;
    injection Hd as <-; [|discriminate Hok].
  rewrite unique_text, <- firstn_map.
  split; [reflexivity|]. split; [reflexivity|].
  rewrite length_firstn. lia.
Qed.

End UniqueValues.

(* ===================================================================== *)
(** ** The accounts of one turn of the batch loop *)
(* ===================================================================== *)

Section BatchAccounts.
Context {F : Type} {PF : PyFloat F} {W : Type} {C : Collaborators W F}
        {U : PyUnicode}.

(** X25.  One turn of the batch loop for a name that is resolved and
    whose query is answered.  An empty answer is recorded as [no_data]
    and adds nothing to [total_observations].  An answer with rows adds
    their number to [total_observations] first and reads the bands
    second: with a [band_list] column the entry is [found], with the
    number of rows as count and the distinct bands; without that column
    the entry is an error with the message ['band_list'] and count 0,
    and the rows stay counted in [total_observations]. *)
Theorem X25_batch_turn_accounts
  (source_name : string) (radius_arcmin : F) (st : state W (batch_locals F))
  (ra_str dec_str : string) (rows : list (string * string))
  (ra_deg dec_deg : F) (w1 w2 w3 : W) (df : DataFrame F) :
  Simbad_query_object source_name (st_world st)
  = (Ok (Some ((ra_str, dec_str) :: rows)), w1) ->
  SkyCoord ra_str dec_str = Ok (ra_deg, dec_deg) ->
  TAPService tap_url w1 = (Ok tt, w2) ->
  service_search
    (batch_item_query ra_deg dec_deg (f_div radius_arcmin (f_lit 60 0))) w2
  = (Ok df, w3) ->
  let results := results_by_source (st_locals st) in
  let total := total_observations (st_locals st) in
  let after entry n :=
    mkState w3 (mkBatch (dict_set source_name (VDict entry) results) (total + n)) in
  (df_empty df = true ->
   state_of (batch_step source_name radius_arcmin st)
   = after (no_data_entry ra_deg dec_deg) 0)
  /\ (df_empty df = false ->
      forall bands, df_column "band_list" df = Ok bands ->
      state_of (batch_step source_name radius_arcmin st)
      = after (found_entry (df_len df) ra_deg dec_deg (unique bands)) (df_len df))
  /\ (df_empty df = false ->
      existsb (String.eqb "band_list") (df_columns df) = false ->
      state_of (batch_step source_name radius_arcmin st)
      = after (error_entry "'band_list'") (df_len df)).
Proof.
  intros Hans Hsky Hservice Hsearch results total after. subst results total after.
  unfold batch_step, batch_item, set_result, add_observations. unfold_monad.
  rewrite Hans, Hsky. cbn [st_world]. rewrite Hservice. cbn [st_world].
  rewrite Hsearch. split; [|split].
  - intros Hempty. rewrite Hempty. cbn. now rewrite Nat.add_0_r.
  - intros Hfull bands Hbands. rewrite Hfull, Hbands. reflexivity.
  - intros Hfull Hnone. rewrite Hfull. unfold df_column. rewrite Hnone. reflexivity.
Qed.

End BatchAccounts.

(* ===================================================================== *)
(** ** The further statements at concrete inputs *)
(* ===================================================================== *)

Module ConcreteMore.
Import Scripted.

(** X1 applied to a frequency search where pyvo is missing. *)
Lemma X1_witness :
  uses_only_tap (OpFrequency 84000000%Z 116000000%Z None : operation Z) = true
  /\ @PYVO_AVAILABLE _ _ (world no_pyvo) = false
  /\ run_in no_pyvo (OpFrequency 84000000%Z 116000000%Z None)
     = (Ok (error_response "pyvo library not installed"), start, []).
Proof.
  split; [reflexivity|]. split; [reflexivity|].
  exact (X1_no_pyvo_no_call (C := world no_pyvo) (L := unit)
           (OpFrequency 84000000%Z 116000000%Z None) start eq_refl eq_refl).
Defined.

(** X3 applied to a request whose only parameter is an empty name. *)
Lemma X3_witness :
  given_str None = None /\ given_str (Some EmptyString) = None
  /\ search_alma_by_proposal (C := world alminer_up) (L := unit)
       None (Some EmptyString) None start
     = (Ok (error_response
              "Must provide at least one search parameter (proposal_id, pi_name, or science_category)"),
        start, []).
Proof.
  split; [reflexivity|]. split; [reflexivity|].
  exact (X3_proposal_needs_a_parameter (C := world alminer_up) (L := unit)
           None (Some EmptyString) None start eq_refl eq_refl eq_refl).
Defined.

(** X4 applied to a search by journal and year. *)
Lemma X4_witness :
  @PYVO_AVAILABLE _ _ (world tap_only) = true
  /\ List.length (bibliography_conditions None (Some "Nature") None (Some 2017%Z)) = 2.
Proof.
  split; [reflexivity|].
  exact (proj1 (proj2 (X4_bibliography_conditions (C := world tap_only) (L := unit)
                         None (Some "Nature") None (Some 2017%Z) eq_refl))).
Defined.

(** X5 applied to a name SIMBAD does not know. *)
Lemma X5_witness :
  @SIMBAD_AVAILABLE _ _ (world alminer_up) = true
  /\ search_alma_by_target (C := world alminer_up) (L := unit)
       "Nope" 1000000%Z true start
     = (Ok (error_response "Could not resolve 'Nope' - not found in SIMBAD"),
        mkState 1 tt, [EvSimbad "Nope"]).
Proof.
  split; [reflexivity|].
  exact (proj1 (X5_target_resolution_failures (C := world alminer_up) (L := unit)
                  "Nope" 1000000%Z true start eq_refl)
           None 1 eq_refl (or_introl eq_refl)).
Defined.

(** X6 applied to a position search answered with twenty-five rows. *)
Lemma X6_witness :
  let op : operation Z := OpPosition 187705930%Z 12391123%Z None None in
  let d := returned (run_in tap_many op) in
  display_capped op = true
  /\ run_in tap_many op = (Ok d, state_of (run_in tap_many op), log_of (run_in tap_many op))
  /\ dict_get "observations" d = Some (VList (listed "observations" d))
  /\ exists n : nat,
      dict_get "count" d = Some (vnat n)
      /\ List.length (listed "observations" d) = Nat.min 20 n
      /\ (dict_get "showing" d = None /\ n = 0
          \/ dict_get "showing" d = Some (vnat (Nat.min 20 n)))
      /\ (n = 0 ->
          dict_get "showing" d = None
          \/ ((exists p pi c, op = OpProposal p pi c)
              /\ tap_queries (log_of (run_in tap_many op)) <> []
              /\ dict_get "showing" d = Some (vint 0))).
Proof.
  intros op d.
  assert (H1 : display_capped op = true) by reflexivity.
  assert (H2 : run_in tap_many op
               = (Ok d, state_of (run_in tap_many op), log_of (run_in tap_many op)))
    by (vm_compute; reflexivity).
  assert (H3 : dict_get "observations" d = Some (VList (listed "observations" d)))
    by (vm_compute; reflexivity).
  split; [exact H1|]. split; [exact H2|]. split; [exact H3|].
  exact (X6_display_cap (C := world tap_many) (L := unit) op start _ d _ _ H1 H2 H3).
Defined.

(** The proposal search answered by TAP with an empty table: count 0 and
    [showing] 0. *)
Example proposal_search_shows_zero :
  let d := returned (run_in tap_empty (OpProposal (Some "2012.1.00661.S") None None)) in
  dict_get "count" d = Some (vint 0)
  /\ dict_get "showing" d = Some (vint 0)
  /\ dict_get "observations" d = Some (VList []).
Proof. repeat split. Qed.

(** X7 applied to a dataset of twenty-five rows, all of them listed. *)
Lemma X7_witness :
  let r := search_alma_by_member_ous (C := world tap_many) (L := unit)
             "uid___A001_X123_X456" start in
  let d := returned r in
  @PYVO_AVAILABLE _ _ (world tap_many) = true
  /\ r = (Ok d, state_of r, log_of r)
  /\ dict_get "observations" d = Some (VList (listed "observations" d))
  /\ df_empty many_rows = false
  /\ List.length (listed "observations" d) = 25
  /\ dict_get "count" d = Some (vint 25)
  /\ dict_get "showing" d = None.
Proof.
  intros r d.
  assert (H2 : r = (Ok d, state_of r, log_of r)) by (vm_compute; reflexivity).
  assert (H3 : dict_get "observations" d = Some (VList (listed "observations" d)))
    by (vm_compute; reflexivity).
  split; [reflexivity|]. split; [exact H2|]. split; [exact H3|].
  split; [reflexivity|].
  destruct (X7_member_ous_lists_all (C := world tap_many) (L := unit)
              "uid___A001_X123_X456" start _ 0 1 many_rows d _ _
              eq_refl eq_refl eq_refl H2 H3)
    as (Hshowing & _ & Hall).
  destruct (Hall eq_refl) as (_ & Hlen & Hcount).
  split; [exact Hlen|]. split; [exact Hcount | exact Hshowing].
Defined.

(** X9 applied to the batch of twenty-five names. *)
Lemma X9_witness :
  @SIMBAD_AVAILABLE _ _ (world tap_only) = true
  /\ @PYVO_AVAILABLE _ _ (world tap_only) = true
  /\ exists d st' log results (k n : nat),
      query_alma_multiple_sources (C := world tap_only) (L := unit)
        names25 1000000%Z start = (Ok d, st', log)
      /\ dict_get "sources_with_alma_data" d = Some (vnat k)
      /\ dict_get "total_sources_queried" d = Some (vnat n)
      /\ dict_get "results_by_source" d = Some (VDict results)
      /\ k <= List.length results <= n
      /\ n <= 20.
Proof.
  split; [reflexivity|]. split; [reflexivity|].
  exact (X9_batch_counts_ordered (C := world tap_only) (L := unit)
           names25 1000000%Z start eq_refl eq_refl).
Defined.

Lemma nobody_is_known (name : string) :
  unknown_to_simbad (C := world nobody_known) name.
Proof. intros w. exists (S w). left. reflexivity. Defined.

(** X11 applied to two names in a world where SIMBAD knows nobody. *)
Lemma X11_witness :
  @SIMBAD_AVAILABLE _ _ (world nobody_known) = true
  /\ @PYVO_AVAILABLE _ _ (world nobody_known) = true
  /\ Forall (unknown_to_simbad (C := world nobody_known)) (firstn 20 ["M87"; "3C273"])
  /\ exists d st' results,
      query_alma_multiple_sources (C := world nobody_known) (L := unit)
        ["M87"; "3C273"] 1000000%Z start
      = (Ok d, st', map EvSimbad (firstn 20 ["M87"; "3C273"]))
      /\ dict_get "sources_with_alma_data" d = Some (vint 0)
      /\ dict_get "total_observations" d = Some (vint 0)
      /\ dict_get "results_by_source" d = Some (VDict results)
      /\ (forall name, In name (firstn 20 ["M87"; "3C273"]) ->
                       dict_get name results = Some (VDict (not_resolved_entry name))).
Proof.
  assert (H : Forall (unknown_to_simbad (C := world nobody_known))
                     (firstn 20 ["M87"; "3C273"]))
    by (repeat constructor; apply nobody_is_known).
  split; [reflexivity|]. split; [reflexivity|]. split; [exact H|].
  exact (X11_batch_nothing_resolved (C := world nobody_known) (L := unit)
           ["M87"; "3C273"] 1000000%Z start eq_refl eq_refl H).
Defined.

(** X13 applied to a data type written in capitals. *)
Lemma X13_witness :
  is_cube_or_image "CUBE" = true
  /\ (data_type_condition "CUBE" = "dataproduct_type = 'cube'"
      \/ data_type_condition "CUBE" = "dataproduct_type = 'image'").
Proof.
  split; [reflexivity|].
  exact (proj1 (X13_data_type_condition_is_fixed (C := world tap_only) (L := unit)
                  "CUBE" None None None eq_refl)).
Defined.

(** X17 applied to a search by category where alminer is down. *)
Lemma X17_witness :
  is_given (given_str None) || is_given (given_str None)
  || is_given (given_str (Some "Cosmology")) = true
  /\ @ALMINER_AVAILABLE _ _ (world keysearch_down) = true
  /\ alminer_keysearch (Collaborators := world keysearch_down)
       (proposal_search_dict None None (Some "Cosmology")) true 0
     = (Raise "alminer: service unavailable", 1)
  /\ proposal_where_clause None None = "1=1".
Proof.
  split; [reflexivity|]. split; [reflexivity|]. split; [reflexivity|].
  exact (proj2 (proj2 (X17_proposal_falls_through_to_tap
                         (C := world keysearch_down) (L := unit)
                         None None (Some "Cosmology") start
                         "alminer: service unavailable" 1
                         eq_refl eq_refl eq_refl)) eq_refl eq_refl).
Defined.

(** X18 applied to an abstract search the service refuses. *)
Lemma X18_witness :
  uses_only_tap (OpAbstract "outflow" None : operation Z) = true
  /\ @PYVO_AVAILABLE _ _ (world tap_error) = true
  /\ passes_validation (OpAbstract "outflow" None : operation Z) = true
  /\ response_of (run_in tap_error (OpAbstract "outflow" None))
     = Ok (failure_response (OpAbstract "outflow" None) "Incorrect ADQL query").
Proof.
  split; [reflexivity|]. split; [reflexivity|]. split; [reflexivity|].
  refine (proj1 (proj2 (X18_tap_failure_is_reported (C := world tap_error) (L := unit)
                          (OpAbstract "outflow" None) start "Incorrect ADQL query"
                          eq_refl eq_refl eq_refl) 0 eq_refl _)).
  intros q. exists 1. reflexivity.
Defined.

(** X21 applied to M87 at redshift -1. *)
Lemma X21_witness :
  @ALMINER_AVAILABLE _ _ (world alminer_up) = true
  /\ @SIMBAD_AVAILABLE _ _ (world alminer_up) = true
  /\ Simbad_query_object (Collaborators := world alminer_up) "M87" 0
     = (Ok (Some [m87_row]), 1)
  /\ SkyCoord (Collaborators := world alminer_up) (fst m87_row) (snd m87_row)
     = Ok (187705930, 12391123)%Z
  /\ check_alma_line_coverage (C := world alminer_up) (L := unit)
       "M87" 230538000%Z (-1000000)%Z start
     = (Ok (error_response "Line coverage check failed: float division by zero"),
        mkState 3 tt,
        [EvSimbad "M87"; EvConesearch 187705930%Z 12391123%Z (f_lit 16 (-3)) true;
         EvLineCoverage 230538000%Z (-1000000)%Z]).
Proof.
  split; [reflexivity|]. split; [reflexivity|]. split; [reflexivity|].
  split; [reflexivity|].
  exact (proj1 (proj2 (X21_line_coverage (C := world alminer_up) (L := unit)
                         "M87" 230538000%Z (-1000000)%Z start
                         (fst m87_row) (snd m87_row) [] 1 187705930%Z 12391123%Z
                         eq_refl eq_refl eq_refl eq_refl)
                  two_rows 2 (Some two_rows) 3 eq_refl eq_refl eq_refl)
           eq_refl).
Defined.

(** X22 applied to a sensitivity search that finds nothing. *)
Lemma X22_witness :
  let op : operation Z := OpSensitivity 1000000%Z None None None in
  uses_only_tap op = true
  /\ @PYVO_AVAILABLE _ _ (world tap_empty) = true
  /\ passes_validation op = true
  /\ exists d,
      response_of (run_in tap_empty op) = Ok d
      /\ has_key "error" d = false
      /\ dict_get "count" d = Some (vint 0)
      /\ dict_get "showing" d = None
      /\ (if is_tap_query op
          then dict_get "rows" d = Some (VList [])
          else dict_get "observations" d = Some (VList [])).
Proof.
  intros op. split; [reflexivity|]. split; [reflexivity|]. split; [reflexivity|].
  refine (X22_empty_result_is_success (C := world tap_empty) (L := unit)
            op start 0 eq_refl eq_refl eq_refl eq_refl _).
  intros q. exists no_rows, 1. split; reflexivity.
Defined.

(** A title of three characters, the first and the last of two bytes
    each: the cut after two characters keeps three bytes, where a cut
    after two bytes would have kept one character. *)
Example cut_counts_characters :
  let title := String "195" (String "137" (String "t" (String "195" (String "169"
                 EmptyString)))) in
  PyStr.char_count title = 3
  /\ PyStr.take_chars 2 title = String "195" (String "137" (String "t" EmptyString))
  /\ PyStr.take 2 title = String "195" (String "137" EmptyString)
  /\ PyStr.take_chars 3 title = title.
Proof. repeat split. Qed.

(** X23 applied to a raw query answered with two rows under four
    distinct labels, and to one answered with a label that heads two
    columns. *)
Lemma X23_witness :
  (exists d,
      response_of (run_alma_tap_query (C := world tap_only) (L := unit)
                     "SELECT * FROM ivoa.obscore" 100%Z start) = Ok d
      /\ has_key "error" d = false
      /\ dict_get "columns" d = Some (vstrs (df_columns two_rows))
      /\ dict_get "rows" d
         = Some (VList (map (fun cells =>
                               VDict (combine (df_columns two_rows) (map VScalar cells)))
                            (firstn (Z.to_nat (limit_max_rows 100)) (df_rows two_rows)))))
  /\ response_of (run_alma_tap_query (C := world tap_repeated_label) (L := unit)
                    "SELECT target_name, target_name FROM ivoa.obscore" 100%Z start)
     = Ok [("error",
            vstr "TAP query failed: can only convert an array of size 1 to a Python scalar");
           ("hint", vstr tap_query_hint)].
Proof.
  split.
  - apply (X23_raw_rows_have_the_columns (C := world tap_only) (L := unit)
             "SELECT * FROM ivoa.obscore" 100%Z start 0 1 two_rows
             eq_refl eq_refl eq_refl eq_refl).
    + repeat constructor.
    + reflexivity.
    + repeat constructor; cbn [In]; intuition discriminate.
  - apply (X23_raw_rows_have_the_columns (C := world tap_repeated_label) (L := unit)
             "SELECT target_name, target_name FROM ivoa.obscore" 100%Z start 0 1
             repeated_label eq_refl eq_refl eq_refl eq_refl).
    + repeat constructor.
    + reflexivity.
    + intros H. inversion H as [|? ? Hnot _]; subst. apply Hnot. now left.
Defined.

(** X24 applied to a search whose two rows name the same target. *)
Lemma X24_witness :
  let r := search_alma_by_source_name (C := world tap_only) (L := unit)
             "M87" false start in
  @PYVO_AVAILABLE _ _ (world tap_only) = true
  /\ df_empty two_rows = false
  /\ df_column "target_name" two_rows = Ok (map SStr ["M87"; "M87"])
  /\ response_of r = Ok (returned r)
  /\ has_key "error" (returned r) = false
  /\ dict_get "unique_targets_found" (returned r)
     = Some (vscalars (map SStr (firstn 10 (first_occurrences [] ["M87"; "M87"])))).
Proof.
  intros r.
  assert (H1 : response_of r = Ok (returned r)) by (vm_compute; reflexivity).
  assert (H2 : has_key "error" (returned r) = false) by (vm_compute; reflexivity).
  split; [reflexivity|]. split; [reflexivity|]. split; [reflexivity|].
  split; [exact H1|]. split; [exact H2|].
  exact (proj1 (X24_unique_targets (C := world tap_only) (L := unit)
                  "M87" false start 0 1 two_rows ["M87"; "M87"] (returned r)
                  eq_refl eq_refl eq_refl eq_refl eq_refl H1 H2)).
Defined.

(** X25 applied to M87 where the answer has no [band_list] column. *)
Lemma X25_witness :
  Simbad_query_object (Collaborators := world tap_no_bands) "M87" 0
  = (Ok (Some [m87_row]), 1)
  /\ SkyCoord (Collaborators := world tap_no_bands) (fst m87_row) (snd m87_row)
     = Ok (187705930, 12391123)%Z
  /\ df_empty one_row_no_bands = false
  /\ existsb (String.eqb "band_list") (df_columns one_row_no_bands) = false
  /\ state_of (batch_step (C := world tap_no_bands) "M87" 1000000%Z
                 (mkState 0 (mkBatch [] 0)))
     = mkState 2 (mkBatch (dict_set "M87" (VDict (error_entry "'band_list'")) [])
                          (0 + df_len one_row_no_bands)).
Proof.
  split; [reflexivity|]. split; [reflexivity|]. split; [reflexivity|].
  split; [reflexivity|].
  exact (proj2 (proj2 (X25_batch_turn_accounts (C := world tap_no_bands)
                         "M87" 1000000%Z (mkState 0 (mkBatch [] 0))
                         (fst m87_row) (snd m87_row) [] 187705930%Z 12391123%Z
                         1 1 2 one_row_no_bands
                         eq_refl eq_refl eq_refl eq_refl))
           eq_refl eq_refl).
Defined.

End ConcreteMore.
